(** * git-wiki: the content store, the versioned store and the account store

    A shallow embedding of [app.py] and [wiki/wikigit.py].  Python byte
    strings are [string]s (one [ascii] per byte), dictionaries are
    finite maps, exceptions are values of [exn] carried by [result], and
    every function that touches the disk takes the file system as an
    argument and returns the new one. *)

From Stdlib Require Import ZArith List Ascii String Lia Bool Sorted.
From stdpp Require Import base option functions gmap strings list.

Local Open Scope Z_scope.
Set Warnings "-register-all".

(** ** JSON documents, as [json.loads] returns them *)

Module Json.

Inductive value : Type :=
  | Null
  | Bool (b : bool)
  | Num (z : Z)
  | Str (s : string)
  | Arr (l : list value)
  | Obj (m : gmap string value).

(** Python's truth value of a document: [None], [False], [0], the
    empty string, the empty list and the empty dict are false. *)
Definition truthy (v : value) : bool :=
  match v with
  | Null => false
  | Bool b => b
  | Num z => negb (z =? 0)
  | Str s => negb (String.eqb s EmptyString)
  | Arr l => match l with [] => false | _ => true end
  | Obj m => negb (bool_decide (dom m = (∅ : gset string)))
  end.

(** [v == s] for a string [s] *)
Definition eq_str (v : value) (s : string) : bool :=
  match v with
  | Str t => String.eqb t s
  | _ => false
  end.

End Json.

(** ** Exceptions and results *)

Inductive errno : Type := EEXIST | ENOENT | ENOTDIR | EISDIR.

Inductive exn : Type :=
  | RuntimeError (msg : string)
  | NotImplementedError (arg : Json.value)
  | IndexError
  | ValueError
  | TypeError
  | AttributeError
  | KeyError
  | UnicodeError
  | IOError (code : errno)
  | OSError (code : errno)
  | GitCommandError.

Inductive result (A : Type) : Type :=
  | Ok (a : A)
  | Raise (e : exn).
Arguments Ok {A} a.
Arguments Raise {A} e.

Global Instance result_ret : MRet result := fun _ a => Ok a.
Global Instance result_bind : MBind result := fun _ _ k r =>
  match r with
  | Ok a => k a
  | Raise e => Raise e
  end.

(** ** Python string primitives *)

Module Py.

Definition str (l : list ascii) : string := string_of_list_ascii l.
Definition chars (s : string) : list ascii := list_ascii_of_string s.

(** [s[:n]] and [s[n:]] for [0 <= n]. *)
Fixpoint take (n : nat) (s : string) : string :=
  match n, s with
  | S n', String c s' => String c (take n' s')
  | _, _ => EmptyString
  end.

Fixpoint drop (n : nat) (s : string) : string :=
  match n, s with
  | S n', String _ s' => drop n' s'
  | _, _ => s
  end.

(** [x in s] for a character [x] *)
Fixpoint contains (x : ascii) (s : string) : bool :=
  match s with
  | EmptyString => false
  | String c s' => Ascii.eqb c x || contains x s'
  end.

(** Every character of [s] satisfies [f]. *)
Fixpoint all_chars (f : ascii -> bool) (s : string) : bool :=
  match s with
  | EmptyString => true
  | String c s' => f c && all_chars f s'
  end.

(** [s[-1]], when there is one *)
Fixpoint last_char (s : string) : option ascii :=
  match s with
  | EmptyString => None
  | String c EmptyString => Some c
  | String _ s' => last_char s'
  end.

(** [s.startswith(p)] *)
Fixpoint startswith (p s : string) : bool :=
  match p, s with
  | EmptyString, _ => true
  | String a p', String b s' => if Ascii.eqb a b then startswith p' s' else false
  | String _ _, EmptyString => false
  end.

(** [sep.join(l)] *)
Fixpoint join (sep : string) (l : list string) : string :=
  match l with
  | [] => EmptyString
  | [x] => x
  | x :: l' => x +:+ sep +:+ join sep l'
  end.

(** [s.split(sep)] for a non-empty separator: [find_sep] scans for the
    first occurrence of [sep], returning the text before and after it. *)
Fixpoint find_sep (sep s : string) : option (string * string) :=
  if startswith sep s then Some (EmptyString, drop (String.length sep) s)
  else match s with
       | EmptyString => None
       | String c s' =>
           match find_sep sep s' with
           | Some (pre, post) => Some (String c pre, post)
           | None => None
           end
       end.

(** [s.split(sep, 1)] *)
Definition split1 (sep s : string) : list string :=
  match find_sep sep s with
  | Some (pre, post) => [pre; post]
  | None => [s]
  end.

Fixpoint split_fuel (fuel : nat) (sep s : string) : list string :=
  match fuel with
  | O => [s]
  | S f =>
      match find_sep sep s with
      | Some (pre, post) => pre :: split_fuel f sep post
      | None => [s]
      end
  end.

(** [s.split(sep)]: every piece consumes at least one character of a
    non-empty separator, so [length s] pieces of fuel are enough. *)
Definition split (sep s : string) : list string :=
  split_fuel (String.length s) sep s.

(** [s.replace(old, new)] for a non-empty [old]. *)
Definition replace (old new s : string) : string :=
  join new (split old s).

(** White space of ASCII text *)
Definition is_space (c : ascii) : bool :=
  match c with
  | "009" | "010" | "011" | "012" | "013" | " " => true
  | _ => false
  end%char.

Fixpoint lstrip (s : string) : string :=
  match s with
  | String c s' => if is_space c then lstrip s' else s
  | EmptyString => EmptyString
  end.

Fixpoint rstrip (s : string) : string :=
  match s with
  | EmptyString => EmptyString
  | String c s' =>
      match rstrip s' with
      | EmptyString => if is_space c then EmptyString else String c EmptyString
      | r => String c r
      end
  end.

(** [s.strip()] *)
Definition strip (s : string) : string := rstrip (lstrip s).

Definition lower_char (c : ascii) : ascii :=
  let n := nat_of_ascii c in
  if ((65 <=? n) && (n <=? 90))%nat then ascii_of_nat (n + 32) else c.

(** [s.lower()] on byte strings *)
Fixpoint lower (s : string) : string :=
  match s with
  | EmptyString => EmptyString
  | String c s' => String (lower_char c) (lower s')
  end.

(** [l[offset:limit]] with Python's treatment of negative and
    out-of-range bounds. *)
Definition clamp (len i : Z) : Z :=
  if i <? 0 then Z.max 0 (len + i) else Z.min len i.

Definition slice {A} (l : list A) (offset limit : Z) : list A :=
  let len := Z.of_nat (length l) in
  let lo := clamp len offset in
  let hi := clamp len limit in
  firstn (Z.to_nat (hi - lo)) (skipn (Z.to_nat lo) l).

End Py.

(** ** [hashlib.sha512] (FIPS 180-4) on byte strings *)

Module Sha512.

Definition w64 : Z := 2 ^ 64.
Definition wrap (x : Z) : Z := x mod w64.
Definition add64 (x y : Z) : Z := wrap (x + y).
Definition rotr (n x : Z) : Z :=
  Z.lor (Z.shiftr x n) (wrap (Z.shiftl x (64 - n))).
Definition shr (n x : Z) : Z := Z.shiftr x n.

Definition Ch (x y z : Z) : Z :=
  Z.lxor (Z.land x y) (Z.land (Z.lxor x (w64 - 1)) z).
Definition Maj (x y z : Z) : Z :=
  Z.lxor (Z.lxor (Z.land x y) (Z.land x z)) (Z.land y z).
Definition Sigma0 (x : Z) : Z := Z.lxor (Z.lxor (rotr 28 x) (rotr 34 x)) (rotr 39 x).
Definition Sigma1 (x : Z) : Z := Z.lxor (Z.lxor (rotr 14 x) (rotr 18 x)) (rotr 41 x).
Definition sigma0 (x : Z) : Z := Z.lxor (Z.lxor (rotr 1 x) (rotr 8 x)) (shr 7 x).
Definition sigma1 (x : Z) : Z := Z.lxor (Z.lxor (rotr 19 x) (rotr 61 x)) (shr 6 x).

Definition K : list Z :=
  [ 0x428a2f98d728ae22; 0x7137449123ef65cd; 0xb5c0fbcfec4d3b2f; 0xe9b5dba58189dbbc;
    0x3956c25bf348b538; 0x59f111f1b605d019; 0x923f82a4af194f9b; 0xab1c5ed5da6d8118;
    0xd807aa98a3030242; 0x12835b0145706fbe; 0x243185be4ee4b28c; 0x550c7dc3d5ffb4e2;
    0x72be5d74f27b896f; 0x80deb1fe3b1696b1; 0x9bdc06a725c71235; 0xc19bf174cf692694;
    0xe49b69c19ef14ad2; 0xefbe4786384f25e3; 0x0fc19dc68b8cd5b5; 0x240ca1cc77ac9c65;
    0x2de92c6f592b0275; 0x4a7484aa6ea6e483; 0x5cb0a9dcbd41fbd4; 0x76f988da831153b5;
    0x983e5152ee66dfab; 0xa831c66d2db43210; 0xb00327c898fb213f; 0xbf597fc7beef0ee4;
    0xc6e00bf33da88fc2; 0xd5a79147930aa725; 0x06ca6351e003826f; 0x142929670a0e6e70;
    0x27b70a8546d22ffc; 0x2e1b21385c26c926; 0x4d2c6dfc5ac42aed; 0x53380d139d95b3df;
    0x650a73548baf63de; 0x766a0abb3c77b2a8; 0x81c2c92e47edaee6; 0x92722c851482353b;
    0xa2bfe8a14cf10364; 0xa81a664bbc423001; 0xc24b8b70d0f89791; 0xc76c51a30654be30;
    0xd192e819d6ef5218; 0xd69906245565a910; 0xf40e35855771202a; 0x106aa07032bbd1b8;
    0x19a4c116b8d2d0c8; 0x1e376c085141ab53; 0x2748774cdf8eeb99; 0x34b0bcb5e19b48a8;
    0x391c0cb3c5c95a63; 0x4ed8aa4ae3418acb; 0x5b9cca4f7763e373; 0x682e6ff3d6b2b8a3;
    0x748f82ee5defb2fc; 0x78a5636f43172f60; 0x84c87814a1f0ab72; 0x8cc702081a6439ec;
    0x90befffa23631e28; 0xa4506cebde82bde9; 0xbef9a3f7b2c67915; 0xc67178f2e372532b;
    0xca273eceea26619c; 0xd186b8c721c0c207; 0xeada7dd6cde0eb1e; 0xf57d4f7fee6ed178;
    0x06f067aa72176fba; 0x0a637dc5a2c898a6; 0x113f9804bef90dae; 0x1b710b35131c471b;
    0x28db77f523047d84; 0x32caab7b40c72493; 0x3c9ebe0a15c9bebc; 0x431d67c49c100d4c;
    0x4cc5d4becb3e42b6; 0x597f299cfc657e2a; 0x5fcb6fab3ad6faec; 0x6c44198c4a475817 ].

Definition H0 : list Z :=
  [ 0x6a09e667f3bcc908; 0xbb67ae8584caa73b; 0x3c6ef372fe94f82b; 0xa54ff53a5f1d36f1;
    0x510e527fade682d1; 0x9b05688c2b3e6c1f; 0x1f83d9abfb41bd6b; 0x5be0cd19137e2179 ].

Definition byte_of (c : ascii) : Z := Z.of_N (N_of_ascii c).

(** Big-endian encoding of [x] on [n] bytes. *)
Fixpoint be_bytes (n : nat) (x : Z) : list Z :=
  match n with
  | O => []
  | S n' => Z.shiftr x (8 * Z.of_nat n') mod 256 :: be_bytes n' x
  end.

Definition be_word (bs : list Z) : Z :=
  fold_left (fun acc b => acc * 256 + b) bs 0.

(** Message, the bit 1, zero bits up to 112 mod 128 bytes, then the
    bit length on 128 bits. *)
Definition pad (msg : list Z) : list Z :=
  let len := Z.of_nat (length msg) in
  let zeros := Z.to_nat ((111 - len) mod 128) in
  msg ++ [128] ++ repeat 0 zeros ++ be_bytes 16 (8 * len).

Fixpoint chunks (fuel n : nat) {A} (l : list A) : list (list A) :=
  match fuel, l with
  | _, [] => []
  | O, _ => []
  | S f, _ => firstn n l :: chunks f n (skipn n l)
  end.

(** The message schedule, newest word first: [rev_w] holds
    [W(t-1), W(t-2), ...]. *)
Fixpoint extend (k : nat) (rev_w : list Z) : list Z :=
  match k with
  | O => rev_w
  | S k' =>
      let w2 := nth 1 rev_w 0 in
      let w7 := nth 6 rev_w 0 in
      let w15 := nth 14 rev_w 0 in
      let w16 := nth 15 rev_w 0 in
      extend k' (add64 (add64 (sigma1 w2) w7) (add64 (sigma0 w15) w16) :: rev_w)
  end.

Definition schedule (block : list Z) : list Z :=
  rev (extend 64 (rev (map be_word (chunks 16 8 block)))).

Record regs : Type := Regs { ra : Z; rb : Z; rc : Z; rd : Z; re : Z; rf : Z; rg : Z; rh : Z }.

Definition round (s : regs) (kw : Z * Z) : regs :=
  let (k, w) := kw in
  let t1 := add64 (add64 (add64 (rh s) (Sigma1 (re s))) (add64 (Ch (re s) (rf s) (rg s)) k)) w in
  let t2 := add64 (Sigma0 (ra s)) (Maj (ra s) (rb s) (rc s)) in
  Regs (add64 t1 t2) (ra s) (rb s) (rc s) (add64 (rd s) t1) (re s) (rf s) (rg s).

Definition regs_of (h : list Z) : regs :=
  Regs (nth 0 h 0) (nth 1 h 0) (nth 2 h 0) (nth 3 h 0)
       (nth 4 h 0) (nth 5 h 0) (nth 6 h 0) (nth 7 h 0).

Definition compress (h : list Z) (block : list Z) : list Z :=
  let s := fold_left round (combine K (schedule block)) (regs_of h) in
  [ add64 (nth 0 h 0) (ra s); add64 (nth 1 h 0) (rb s);
    add64 (nth 2 h 0) (rc s); add64 (nth 3 h 0) (rd s);
    add64 (nth 4 h 0) (re s); add64 (nth 5 h 0) (rf s);
    add64 (nth 6 h 0) (rg s); add64 (nth 7 h 0) (rh s) ].

Definition digest_words (msg : list Z) : list Z :=
  let p := pad msg in
  fold_left compress (chunks (length p) 128 p) H0.

Definition hex_digit (n : Z) : ascii :=
  if n <? 10 then ascii_of_N (Z.to_N (48 + n)) else ascii_of_N (Z.to_N (87 + n)).

Definition hex_byte (b : Z) : list ascii := [hex_digit (b / 16); hex_digit (b mod 16)].

(** [hashlib.sha512(data).hexdigest()] *)
Definition hexdigest (data : string) : string :=
  Py.str (flat_map hex_byte
            (flat_map (be_bytes 8) (digest_words (map byte_of (Py.chars data))))).

End Sha512.

(** ** [binascii.hexlify] and [binascii.unhexlify] *)

Module Binascii.

Fixpoint hexlify (s : string) : string :=
  match s with
  | EmptyString => EmptyString
  | String c s' =>
      String (Sha512.hex_digit (Sha512.byte_of c / 16))
        (String (Sha512.hex_digit (Sha512.byte_of c mod 16)) (hexlify s'))
  end.

Definition hex_val (c : ascii) : option Z :=
  let n := Sha512.byte_of c in
  if (48 <=? n) && (n <=? 57) then Some (n - 48)
  else if (97 <=? n) && (n <=? 102) then Some (n - 87)
  else if (65 <=? n) && (n <=? 70) then Some (n - 55)
  else None.

(** Odd length or a character that is no hexadecimal digit raises
    [TypeError]. *)
Fixpoint unhexlify (s : string) : result string :=
  match s with
  | EmptyString => Ok EmptyString
  | String _ EmptyString => Raise TypeError
  | String a (String b s') =>
      match hex_val a, hex_val b with
      | Some hi, Some lo =>
          r ← unhexlify s';
          Ok (String (ascii_of_N (Z.to_N (16 * hi + lo))) r)
      | _, _ => Raise TypeError
      end
  end.

End Binascii.

(** ** [os.path] (the POSIX flavour) *)

Module OsPath.

(** [s.endswith('/')] *)
Definition endswith_slash (s : string) : bool :=
  match Py.last_char s with
  | Some c => Ascii.eqb c "/"
  | None => false
  end.

(** [os.path.join(a, b)] *)
Definition join (a b : string) : string :=
  if Py.startswith "/" b then b
  else if String.eqb a EmptyString || endswith_slash a then a +:+ b
  else a +:+ "/" +:+ b.

(** The loop body of [normpath]: [initial] tells whether the path is
    absolute, [new_comps] is the list built so far. *)
Definition norm_step (initial : bool) (new_comps : list string) (comp : string)
  : list string :=
  if String.eqb comp EmptyString || String.eqb comp "." then new_comps
  else if negb (String.eqb comp "..")
          || (negb initial && match new_comps with [] => true | _ => false end)
          || match last new_comps with Some l => String.eqb l ".." | None => false end
       then new_comps ++ [comp]
       else removelast new_comps.

(** [os.path.normpath(path)] *)
Definition normpath (path : string) : string :=
  if String.eqb path EmptyString then "."%string
  else
    let initial_slashes : nat :=
      if Py.startswith "/" path then
        if Py.startswith "//" path && negb (Py.startswith "///" path) then 2%nat else 1%nat
      else 0%nat in
    let comps := Py.split "/" path in
    let new_comps :=
      fold_left (norm_step (negb (Nat.eqb initial_slashes 0))) comps [] in
    let path := Py.join "/" new_comps in
    let path := Py.str (repeat "/"%char initial_slashes) +:+ path in
    if String.eqb path EmptyString then "."%string else path.

(** [os.path.commonprefix((s1, s2))]: the longest common leading run of
    characters, compared character by character. *)
Fixpoint commonprefix (s1 s2 : string) : string :=
  match s1, s2 with
  | String a s1', String b s2' =>
      if Ascii.eqb a b then String a (commonprefix s1' s2') else EmptyString
  | _, _ => EmptyString
  end.

(** [p.rfind('/') + 1] *)
Fixpoint rfind_slash_succ (p : string) : nat :=
  match p with
  | EmptyString => 0%nat
  | String c p' =>
      match rfind_slash_succ p' with
      | O => if Ascii.eqb c "/" then 1%nat else 0%nat
      | S k => S (S k)
      end
  end.

Fixpoint all_slashes (s : string) : bool :=
  match s with
  | EmptyString => true
  | String c s' => Ascii.eqb c "/" && all_slashes s'
  end.

Fixpoint rstrip_slash (s : string) : string :=
  match s with
  | EmptyString => EmptyString
  | String c s' =>
      match rstrip_slash s' with
      | EmptyString => if Ascii.eqb c "/" then EmptyString else String c EmptyString
      | r => String c r
      end
  end.

(** [os.path.split(p)] *)
Definition split (p : string) : string * string :=
  let i := rfind_slash_succ p in
  let head := Py.take i p in
  let tail := Py.drop i p in
  (if negb (String.eqb head EmptyString) && negb (all_slashes head)
   then rstrip_slash head else head, tail).

(** [os.path.dirname(p)] *)
Definition dirname (p : string) : string := fst (split p).

End OsPath.

(** ** Salted password hashes ([make_salted_hash], [check_hashed_password]) *)

Module Auth.

(** [urandom64] is what [os.urandom(64)] returns when the call needs a
    fresh salt; [salt] is the optional argument ([None] by default). *)
Definition make_salted_hash (urandom64 : string) (password : string)
    (salt : option string) : string :=
  let salt :=
    match salt with
    | Some s => if String.eqb s EmptyString then urandom64 else s
    | None => urandom64
    end in
  Binascii.hexlify salt
    +:+ Sha512.hexdigest (Py.take 32 salt +:+ password +:+ Py.drop 32 salt).

(** [salted_hash] is whatever the account record holds under [hash]:
    slicing or unhexlifying anything but a string raises. *)
Definition check_hashed_password (urandom64 : string) (password : string)
    (salted_hash : Json.value) : result bool :=
  match salted_hash with
  | Json.Str h =>
      salt ← Binascii.unhexlify (Py.take 128 h);
      Ok (String.eqb (make_salted_hash urandom64 password (Some salt)) h)
  | _ => Raise TypeError
  end.

End Auth.

(** ** The account store ([UserManager], [User]) *)

Module Users.

(** The account file and its temporary sibling hold JSON documents:
    a file is identified with the document [json.loads] reads from it,
    which is the one [json.dumps] wrote. *)
Abbreviation disk := (gmap string Json.value).

Record config : Type := Config {
  DEFAULT_AUTHENTICATION_METHOD : option string
}.

Definition get_default_authentication_method (cfg : config) : string :=
  default "cleartext"%string (DEFAULT_AUTHENTICATION_METHOD cfg).

Record UserManager : Type := Manager { file : string }.

(** [UserManager(path)] *)
Definition new_manager (path : string) : UserManager :=
  Manager (OsPath.join path "users.json").

Record User : Type := MkUser { name : string; data : Json.value }.

(** [d.get(key)] on a document: only a dict has the method. *)
Definition dict_get (d : Json.value) (key : string) : result Json.value :=
  match d with
  | Json.Obj m => Ok (default Json.Null (m !! key))
  | _ => Raise AttributeError
  end.

Definition read (um : UserManager) (st : disk) : Json.value :=
  match st !! file um with
  | None => Json.Obj ∅
  | Some doc => doc
  end.

(** [os.rename(src, dst)] *)
Definition rename (src dst : string) (st : disk) : result disk :=
  match st !! src with
  | Some doc => Ok (<[dst := doc]> (delete src st))
  | None => Raise (OSError ENOENT)
  end.

Definition write (um : UserManager) (users : Json.value) (st : disk) : result disk :=
  let tmp_file := file um +:+ "-write" in
  let st := <[tmp_file := users]> st in
  rename tmp_file (file um) st.

(** [add_user]: [Ok None] is the [False] it returns for a taken name. *)
Definition add_user (cfg : config) (um : UserManager) (urandom64 : string)
    (name password : string) (active : bool) (roles : list string)
    (authentication_method : option string) (st : disk)
  : result (option User) * disk :=
  match read um st with
  | Json.Obj users =>
      if Json.truthy (default Json.Null (users !! name)) then (Ok None, st)
      else
        let authentication_method :=
          match authentication_method with
          | None => get_default_authentication_method cfg
          | Some m => m
          end in
        let new_user : gmap string Json.value :=
          <["authentication_method" := Json.Str authentication_method]>
            (<["roles" := Json.Arr (map Json.Str roles)]>
               (<["active" := Json.Bool active]> ∅)) in
        let new_user : result (gmap string Json.value) :=
          if String.eqb authentication_method "hash" then
            Ok (<["hash" := Json.Str (Auth.make_salted_hash urandom64 password None)]> new_user)
          else if String.eqb authentication_method "cleartext" then
            Ok (<["password" := Json.Str password]> new_user)
          else Raise (NotImplementedError (Json.Str authentication_method)) in
        match new_user with
        | Raise e => (Raise e, st)
        | Ok new_user =>
            let users := <[name := Json.Obj new_user]> users in
            match write um (Json.Obj users) st with
            | Raise e => (Raise e, st)
            | Ok st' =>
                (Ok (Some (MkUser name (default Json.Null (users !! name)))), st')
            end
        end
  | _ => (Raise AttributeError, st)
  end.

Definition get_user (um : UserManager) (name : string) (st : disk)
  : result (option User) :=
  userdata ← dict_get (read um st) name;
  if negb (Json.truthy userdata) then Ok None
  else Ok (Some (MkUser name userdata)).

(** [users.pop(name, False)] removes the entry and yields its value;
    the table is written back only when that value is true. *)
Definition delete_user (um : UserManager) (name : string) (st : disk)
  : result bool * disk :=
  match read um st with
  | Json.Obj users =>
      let popped := default (Json.Bool false) (users !! name) in
      let users := delete name users in
      if negb (Json.truthy popped) then (Ok false, st)
      else
        match write um (Json.Obj users) st with
        | Raise e => (Raise e, st)
        | Ok st' => (Ok true, st')
        end
  | _ => (Raise AttributeError, st)
  end.

Definition update (um : UserManager) (name : string) (userdata : Json.value)
    (st : disk) : result unit * disk :=
  match read um st with
  | Json.Obj data =>
      match write um (Json.Obj (<[name := userdata]> data)) st with
      | Raise e => (Raise e, st)
      | Ok st' => (Ok tt, st')
      end
  | _ => (Raise TypeError, st)
  end.

(** [User.check_password] *)
Definition check_password (cfg : config) (urandom64 : string) (u : User)
    (password : string) : result bool :=
  authentication_method ← dict_get (data u) "authentication_method";
  let authentication_method :=
    match authentication_method with
    | Json.Null => Json.Str (get_default_authentication_method cfg)
    | m => m
    end in
  if Json.eq_str authentication_method "hash" then
    h ← dict_get (data u) "hash";
    Auth.check_hashed_password urandom64 password h
  else if Json.eq_str authentication_method "cleartext" then
    p ← dict_get (data u) "password";
    Ok (Json.eq_str p password)
  else Raise (NotImplementedError authentication_method).

(** An account record as [add_user] builds it: a dict with the three
    fields every account has. *)
Definition account_record (v : Json.value) : Prop :=
  exists fields, v = Json.Obj fields
    /\ is_Some (fields !! "active")
    /\ is_Some (fields !! "roles")
    /\ is_Some (fields !! "authentication_method").

(** The account file is absent or holds the table [users], every entry
    of which is an account record. *)
Definition account_table (um : UserManager) (st : disk)
    (users : gmap string Json.value) : Prop :=
  read um st = Json.Obj users
  /\ forall n v, users !! n = Some v -> account_record v.


End Users.

(** ** The file system under the content root

    Files and directories are keyed by their normalised path: a path is
    looked up the way the kernel resolves it when no component is a
    symbolic link and every directory it passes through exists. *)

Module Fs.

Record t : Type := Make {
  files : gmap string string;
  dirs : gset string
}.

(** Operations read and change the file system, and may raise. *)
Definition io (A : Type) : Type := t -> result A * t.

Definition ret {A} (a : A) : io A := fun fs => (Ok a, fs).
Definition raise {A} (e : exn) : io A := fun fs => (Raise e, fs).
Definition bind {A B} (m : io A) (k : A -> io B) : io B :=
  fun fs =>
    match m fs with
    | (Ok a, fs') => k a fs'
    | (Raise e, fs') => (Raise e, fs')
    end.
Definition key (p : string) : string := OsPath.normpath p.

(** The empty path names nothing. *)
Definition isdir (p : string) (fs : t) : bool :=
  negb (String.eqb p EmptyString) && bool_decide (key p ∈ dirs fs).
Definition isfile (p : string) (fs : t) : bool :=
  negb (String.eqb p EmptyString) && bool_decide (is_Some (files fs !! key p)).

(** [os.path.exists(p)] *)
Definition exists_ (p : string) (fs : t) : bool := isfile p fs || isdir p fs.

(** The directory holding [p]; for a bare name, the current one. *)
Definition parent (p : string) : string :=
  let d := OsPath.dirname (key p) in
  if String.eqb d EmptyString then "."%string else d.

(** [os.mkdir(p)] *)
Definition mkdir (p : string) : io unit := fun fs =>
  if String.eqb p EmptyString then (Raise (OSError ENOENT), fs)
  else if exists_ p fs then (Raise (OSError EEXIST), fs)
  else if isdir (parent p) fs
       then (Ok tt, Make (files fs) ({[key p]} ∪ dirs fs))
       else (Raise (OSError ENOENT), fs).

(** [os.makedirs(name)]: the recursion is on the head of the path,
    which is shorter than the path. *)
Fixpoint makedirs_fuel (fuel : nat) (name : string) : io unit := fun fs =>
  match fuel with
  | O => mkdir name fs
  | S fuel' =>
      let '(head, tail) := OsPath.split name in
      let '(head, tail) :=
        if String.eqb tail EmptyString then OsPath.split head else (head, tail) in
      if negb (String.eqb head EmptyString) && negb (String.eqb tail EmptyString)
         && negb (exists_ head fs)
      then
        match makedirs_fuel fuel' head fs with
        | (Raise (OSError EEXIST), fs') | (Ok tt, fs') =>
            if String.eqb tail "." then (Ok tt, fs') else mkdir name fs'
        | (Raise e, fs') => (Raise e, fs')
        end
      else mkdir name fs
  end.

Definition makedirs (name : string) : io unit :=
  makedirs_fuel (String.length name) name.

(** [open(p, 'w')]: creates the file or truncates it to length zero. *)
Definition open_w (p : string) : io unit := fun fs =>
  if String.eqb p EmptyString then (Raise (IOError ENOENT), fs)
  else if isdir p fs then (Raise (IOError EISDIR), fs)
  else if isdir (parent p) fs
       then (Ok tt, Make (<[key p := EmptyString]> (files fs)) (dirs fs))
       else (Raise (IOError ENOENT), fs).

(** Writing [data] at offset [pos] of a file of content [old]: a gap
    between the end of the file and [pos] reads as NUL bytes. *)
Definition splice (pos : nat) (data old : string) : string :=
  let gap := Py.str (repeat "000"%char (pos - String.length old)) in
  Py.take pos (old +:+ gap) +:+ data +:+ Py.drop (pos + String.length data) old.

(** A [write] through a handle on [p] whose offset is [pos]. *)
Definition pwrite (p : string) (pos : nat) (data : string) : io unit := fun fs =>
  match files fs !! key p with
  | Some old => (Ok tt, Make (<[key p := splice pos data old]> (files fs)) (dirs fs))
  | None => (Raise (IOError ENOENT), fs)
  end.

(** [open(p).read()] *)
Definition read (p : string) : io string := fun fs =>
  match files fs !! key p with
  | Some c => (Ok c, fs)
  | None => (Raise (IOError (if isdir p fs then EISDIR else ENOENT)), fs)
  end.

(** [os.rename(src, dst)] of a regular file. *)
Definition rename (src dst : string) : io unit := fun fs =>
  match files fs !! key src with
  | None => (Raise (OSError ENOENT), fs)
  | Some c =>
      if isdir dst fs then (Raise (OSError EISDIR), fs)
      else if isdir (parent dst) fs
           then (Ok tt, Make (<[key dst := c]> (delete (key src) (files fs))) (dirs fs))
           else (Raise (OSError ENOENT), fs)
  end.

(** [os.remove(p)] *)
Definition remove (p : string) : io unit := fun fs =>
  match files fs !! key p with
  | Some _ => (Ok tt, Make (delete (key p) (files fs)) (dirs fs))
  | None => (Raise (OSError (if isdir p fs then EISDIR else ENOENT)), fs)
  end.

(** [os.listdir(p)]: the names whose parent directory is [p]. *)
Definition listdir (p : string) (fs : t) : list string :=
  let keys := map fst (map_to_list (files fs)) ++ elements (dirs fs) in
  map (fun k => snd (OsPath.split k))
    (List.filter
       (fun k => String.eqb (key (parent k)) (key p) && negb (String.eqb k (key p)))
       keys).

End Fs.

Notation "x ←io m ; k" := (Fs.bind m (fun x => k))
  (at level 20, m at level 100, k at level 200, only parsing).
Notation "m ;;io k" := (Fs.bind m (fun _ => k))
  (at level 100, k at level 200, right associativity, only parsing).

(** ** The Markdown front end: whitespace normalisation and the
    meta-data header extension

    [Processors.out] hands the page text to the [markdown] package and
    reads the header back from [md.Meta].  The package is not part of
    the sources; its two preprocessors that decide [md.Meta] are written
    out here after the package's own code (the [NormalizeWhitespace]
    preprocessor and the [meta] extension's [MetaPreprocessor]).  Text is
    taken to be ASCII, where Python's Unicode-aware [strip] and [lower]
    agree with the byte-wise ones. *)

Module Markdown.

Abbreviation meta := (gmap string (list string)).

Definition STX : ascii := "002"%char.
Definition ETX : ascii := "003"%char.

Fixpoint remove_char (x : ascii) (s : string) : string :=
  match s with
  | EmptyString => EmptyString
  | String c s' => if Ascii.eqb c x then remove_char x s' else String c (remove_char x s')
  end.

(** [source.expandtabs(tab_length)], [col] being the current column. *)
Fixpoint expandtabs (tab_length col : nat) (s : string) : string :=
  match s with
  | EmptyString => EmptyString
  | String c s' =>
      if Ascii.eqb c "009" then
        let incr := (tab_length - col mod tab_length)%nat in
        Py.str (repeat " "%char incr) +:+ expandtabs tab_length (col + incr) s'
      else if Ascii.eqb c "010" || Ascii.eqb c "013" then
        String c (expandtabs tab_length 0 s')
      else String c (expandtabs tab_length (S col) s')
  end.

(** [re.sub] of "(?<=\n) +\n" by a newline: a run of spaces that
    directly follows a newline and is directly followed by one is
    dropped.  [pending] counts the spaces read since the last newline
    while nothing else has been read since. *)
Fixpoint blank_space_lines (pending : option nat) (s : string) : string :=
  match s with
  | EmptyString => Py.str (repeat " "%char (default 0%nat pending))
  | String c s' =>
      if Ascii.eqb c "010" then String c (blank_space_lines (Some 0%nat) s')
      else match pending with
           | Some n =>
               if Ascii.eqb c " " then blank_space_lines (Some (S n)) s'
               else Py.str (repeat " "%char n) +:+ String c (blank_space_lines None s')
           | None => String c (blank_space_lines None s')
           end
  end.

(** [NormalizeWhitespace.run(lines)] *)
Definition normalize_whitespace (lines : list string) : list string :=
  let source := Py.join (String "010" EmptyString) lines in
  let source := remove_char ETX (remove_char STX source) in
  let source :=
    Py.replace (String "013" EmptyString) (String "010" EmptyString)
      (Py.replace (String "013" (String "010" EmptyString)) (String "010" EmptyString) source)
    +:+ String "010" (String "010" EmptyString) in
  let source := expandtabs 4 0 source in
  let source := blank_space_lines None source in
  Py.split (String "010" EmptyString) source.

(** The longest prefix of [s] whose characters satisfy [f], and the rest. *)
Fixpoint span (f : ascii -> bool) (s : string) : string * string :=
  match s with
  | String c s' =>
      if f c then let '(a, b) := span f s' in (String c a, b) else (EmptyString, s)
  | EmptyString => (EmptyString, EmptyString)
  end.

(** The class [[A-Za-z0-9_-]] *)
Definition is_key_char (c : ascii) : bool :=
  let n := nat_of_ascii c in
  ((65 <=? n) && (n <=? 90) || (97 <=? n) && (n <=? 122)
   || (48 <=? n) && (n <=? 57) || (n =? 95) || (n =? 45))%nat.

(** [META_RE.match(line)]: up to three spaces, the group [key] (one or
    more characters of the class above), a colon, any white space,
    and the group [value] (the rest of the line). *)
Definition META_RE (line : string) : option (string * string) :=
  let '(indent, rest) := span (Ascii.eqb " ") line in
  if (String.length indent <=? 3)%nat then
    let '(key, rest) := span is_key_char rest in
    if String.eqb key EmptyString then None
    else match rest with
         | String ":" rest => Some (key, snd (span Py.is_space rest))
         | _ => None
         end
  else None.

(** [META_MORE_RE.match(line)]: four or more spaces, and the group
    [value] (the rest of the line). *)
Definition META_MORE_RE (line : string) : option string :=
  let '(indent, rest) := span (Ascii.eqb " ") line in
  if (4 <=? String.length indent)%nat then Some rest else None.

(** [meta[key].append(value)], or [meta[key] = [value]] for a new key *)
Definition append (m : meta) (key value : string) : meta :=
  <[key := default [] (m !! key) ++ [value]]> m.

(** [MetaPreprocessor.run(lines)]: the header read, and the lines left. *)
Fixpoint meta_run (lines : list string) (key : option string) (m : meta)
  : meta * list string :=
  match lines with
  | [] => (m, [])
  | line :: rest =>
      if String.eqb (Py.strip line) EmptyString then (m, rest)
      else
        match META_RE line with
        | Some (k, v) =>
            let k := Py.strip (Py.lower k) in
            meta_run rest (Some k) (append m k (Py.strip v))
        | None =>
            match META_MORE_RE line, key with
            | Some v, Some k => meta_run rest key (append m k (Py.strip v))
            | _, _ => (m, line :: rest)
            end
        end
  end.

(** [md.Meta] after [md.convert(source)]: [convert] returns at once on
    blank text, and then the attribute was never set. *)
Definition Meta (source : string) : option meta :=
  if String.eqb (Py.strip source) EmptyString then None
  else
    let lines := Py.split (String "010" EmptyString) source in
    Some (fst (meta_run (normalize_whitespace lines) None ∅)).

End Markdown.

(** ** Pages and the plain store ([Processors], [Page], [Wiki]) *)

Module Wiki.

Definition NL : string := String "010" EmptyString.
Definition CR : string := String "013" EmptyString.

(** A value of [Page._meta]: a string once set through [page.title] or
    [page.tags], a list of strings as [md.Meta] delivers it. *)
Inductive mval : Type :=
  | MStr (s : string)
  | MList (l : list string).

Definition of_Meta (m : Markdown.meta) : gmap string mval := MList <$> m.

(** *** [Processors.out]: the body and the header of a page text.
    The rendered HTML is the renderer's business and is left out. *)
Definition out (content : string) : result (string * Markdown.meta) :=
  match Py.split1 (NL +:+ NL) content with
  | [_; body] =>
      match Markdown.Meta content with
      | Some meta => Ok (body, meta)
      | None => Raise AttributeError
      end
  | _ => Raise IndexError
  end.

(** *** [repr] of a Unicode string and of a list of them (ASCII text) *)

Definition repr_char (quote c : ascii) : string :=
  let n := Sha512.byte_of c in
  if Ascii.eqb c quote || Ascii.eqb c "\" then String "\" (String c EmptyString)
  else if Ascii.eqb c "009" then "\t"%string
  else if Ascii.eqb c "010" then "\n"%string
  else if Ascii.eqb c "013" then "\r"%string
  else if (n <? 32) || (127 <=? n) then
    String "\" (String "x" (Py.str (Sha512.hex_byte n)))
  else String c EmptyString.

Fixpoint repr_body (quote : ascii) (s : string) : string :=
  match s with
  | EmptyString => EmptyString
  | String c s' => repr_char quote c +:+ repr_body quote s'
  end.

Definition repr_unicode (s : string) : string :=
  let quote : ascii :=
    if Py.contains "'" s && negb (Py.contains "034" s) then "034"%char else "'"%char in
  String "u" (String quote (repr_body quote s +:+ String quote EmptyString)).

Definition repr_list (l : list string) : string :=
  "[" +:+ Py.join ", " (map repr_unicode l) +:+ "]".

(** ["%s" % value] *)
Definition format (v : mval) : string :=
  match v with
  | MStr s => s
  | MList l => repr_list l
  end.

(** *** The store *)

Record Wiki : Type := MkWiki { root : string }.

(** [Wiki.path(url)] *)
Definition path (w : Wiki) (url : string) : string :=
  OsPath.join (root w) (url +:+ ".md").

Definition exists_ (w : Wiki) (url : string) (fs : Fs.t) : bool :=
  Fs.exists_ (path w url) fs.

(** Mode ['rU'] reads every line ending as a newline. *)
Definition universal_newlines (s : string) : string :=
  Py.replace CR NL (Py.replace (CR +:+ NL) NL s).

Definition load (w : Wiki) (url : string) : Fs.io string :=
  c ←io Fs.read (path w url); Fs.ret (universal_newlines c).

(** The arguments of the successive [f.write] calls of [save]. *)
Definition save_chunks (body : string) (meta : gmap string mval) : list string :=
  map (fun kv => fst kv +:+ ": " +:+ format (snd kv) +:+ NL) (map_to_list meta)
  ++ [NL; Py.replace (CR +:+ NL) NL body].

(** What the file holds once every chunk is written. *)
Definition encode (body : string) (meta : gmap string mval) : string :=
  Py.join EmptyString (save_chunks body meta).

(** [if not os.path.exists(folder): os.makedirs(folder)] *)
Definition ensure_folder (folder : string) : Fs.io unit := fun fs =>
  if negb (Fs.exists_ folder fs) then Fs.makedirs folder fs else (Ok tt, fs).

Fixpoint write_steps (p : string) (pos : nat) (chunks : list string)
  : list (Fs.io unit) :=
  match chunks with
  | [] => []
  | c :: cs => Fs.pwrite p pos c :: write_steps p (pos + String.length c) cs
  end.

(** [save] as the sequence of its effects on the disk: the folder, the
    [open] that truncates the target itself, then one write per chunk
    through the handle, whose offset advances. *)
Definition save_steps (w : Wiki) (url body : string) (meta : gmap string mval)
  : list (Fs.io unit) :=
  let path := path w url in
  ensure_folder (OsPath.dirname path)
    :: Fs.open_w path
    :: write_steps path 0 (save_chunks body meta).

Fixpoint run (steps : list (Fs.io unit)) : Fs.io unit :=
  match steps with
  | [] => Fs.ret tt
  | s :: rest => s ;;io run rest
  end.

Definition save (w : Wiki) (url body : string) (meta : gmap string mval)
  : Fs.io unit :=
  run (save_steps w url body meta).

Definition move (w : Wiki) (url newurl : string) : Fs.io unit :=
  let source := OsPath.join (root w) url +:+ ".md" in
  let target := OsPath.join (root w) newurl +:+ ".md" in
  let root := OsPath.normpath (root w) in
  let common := OsPath.commonprefix root (OsPath.normpath target) in
  if (String.length common <? String.length root)%nat then
    Fs.raise (RuntimeError
                ("Possible write attempt outside content directory: " +:+ newurl))
  else
    ensure_folder (OsPath.dirname target) ;;io
    Fs.rename source target.

Definition delete (w : Wiki) (url : string) : Fs.io bool :=
  let path := path w url in
  fun fs =>
    if negb (exists_ w url fs) then (Ok false, fs)
    else (Fs.remove path ;;io Fs.ret true) fs.

(** *** [Page] *)

Record Page : Type := MkPage {
  url : string;
  content : string;
  body : string;
  _meta : gmap string mval
}.

(** [Page(engine, url)]: [load], then [render]. *)
Definition get_page (w : Wiki) (url : string) : Fs.io Page :=
  content ←io load w url;
  match out content with
  | Ok (body, meta) => Fs.ret (MkPage url content body (of_Meta meta))
  | Raise e => Fs.raise e
  end.

(** [Page(engine, url, new=True)], whose [body] the editor form sets. *)
Definition new_page (url body : string) : Page :=
  MkPage url EmptyString body ∅.

(** [page[name]]: a value of length one yields its only element, which
    for a string of one character is that string. *)
Definition getitem (p : Page) (name : string) : result mval :=
  match _meta p !! name with
  | None => Raise KeyError
  | Some (MList [x]) => Ok (MStr x)
  | Some item => Ok item
  end.


Definition title (p : Page) : mval :=
  match getitem p "title" with
  | Ok v => v
  | Raise _ => MStr (url p)
  end.

Definition tags (p : Page) : mval :=
  match getitem p "tags" with
  | Ok v => v
  | Raise _ => MStr EmptyString
  end.


(** *** Records that survive a round trip through the file

    A key of lowercase letters, digits and underscores; a value of
    printable ASCII characters that neither begins nor ends with a
    space. *)

Definition is_lower_key_char (c : ascii) : bool :=
  let n := nat_of_ascii c in
  ((97 <=? n) && (n <=? 122) || (48 <=? n) && (n <=? 57) || (n =? 95))%nat.


Definition clean_key (k : string) : bool :=
  negb (String.eqb k EmptyString) && Py.all_chars is_lower_key_char k.






(** A plain name: not empty, without a slash, and neither [.] nor
    [..]. *)
Definition simple_name (s : string) : bool :=
  negb (String.eqb s EmptyString) && negb (Py.contains "/" s)
  && negb (String.eqb s ".") && negb (String.eqb s "..").

(** *** [index] and [search] *)

Definition endswith (suffix s : string) : bool :=
  Py.startswith (String.rev suffix) (String.rev s).

(** [name[:-3]] *)
Definition drop_last3 (name : string) : string :=
  Py.take (String.length name - 3) name.

(** The loop of [_walk] over the names of a directory.  Every call
    goes one directory down, so the number of directories bounds the
    depth. *)
Fixpoint walk (fuel : nat) (w : Wiki) (fs : Fs.t) (directory : string)
    (path_prefix : list string) : result (list Page) :=
  match fuel with
  | O => Ok []
  | S fuel' =>
      foldl
        (fun acc name =>
           pages ← acc;
           let fullname := OsPath.join directory name in
           if Fs.isdir fullname fs then
             more ← walk fuel' w fs fullname (path_prefix ++ [name]);
             Ok (pages ++ more)
           else if endswith ".md" name then
             let url :=
               match path_prefix with
               | [] => drop_last3 name
               | a :: p => fold_left OsPath.join (p ++ [drop_last3 name]) a
               end in
             page ← fst (get_page w (Py.replace "\" "/" url) fs);
             Ok (pages ++ [page])
           else Ok pages)
        (Ok []) (Fs.listdir directory fs)
  end.

(** [x.title.lower()]: a title that is a list has no [lower]. *)
Definition sort_key (p : Page) : result string :=
  match title p with
  | MStr s => Ok (Py.lower s)
  | MList _ => Raise AttributeError
  end.

(** [sorted(pages, key=...)]: a stable sort on the keys. *)
Fixpoint insert_sorted (x : string * Page) (l : list (string * Page))
  : list (string * Page) :=
  match l with
  | [] => [x]
  | y :: l' =>
      if String.ltb (fst x) (fst y) then x :: y :: l'
      else y :: insert_sorted x l'
  end.

Definition sorted (l : list (string * Page)) : list Page :=
  map snd (foldl (fun acc x => insert_sorted x acc) [] l).

Definition index (w : Wiki) (fs : Fs.t) : result (list Page) :=
  pages ← walk (S (size (Fs.dirs fs))) w fs (root w) [];
  keyed ← foldr (fun p acc => l ← acc; k ← sort_key p; Ok ((k, p) :: l)) (Ok []) pages;
  Ok (sorted keyed).

Inductive attr : Type := Title | Tags | Body.

(** [getattr(page, attr)] *)
Definition getattr (p : Page) (a : attr) : mval :=
  match a with
  | Title => title p
  | Tags => tags p
  | Body => MStr (body p)
  end.

Section Search.

(** [re.compile(term, flags).search(text)] is the regular-expression
    engine's: [regex_search term ignore_case text] tells whether the
    pattern [term] matches somewhere in [text]. *)
Variable regex_search : string -> bool -> string -> bool.

(** The inner loop: the first attribute that matches decides. *)
Fixpoint page_matches (term : string) (ignore_case : bool) (p : Page)
    (attrs : list attr) : result bool :=
  match attrs with
  | [] => Ok false
  | a :: rest =>
      match getattr p a with
      | MStr text =>
          if regex_search term ignore_case text then Ok true
          else page_matches term ignore_case p rest
      | MList _ => Raise TypeError
      end
  end.

Definition search_pages (term : string) (ignore_case : bool)
    (attrs : list attr) (pages : list Page) : result (list Page) :=
  foldl (fun acc page =>
           matched ← acc;
           hit ← page_matches term ignore_case page attrs;
           Ok (if hit : bool then matched ++ [page] else matched))
        (Ok []) pages.

(** [Wiki.search(term, ignore_case, attrs)] *)
Definition search (w : Wiki) (term : string) (ignore_case : bool)
    (attrs : list attr) (fs : Fs.t) : result (list Page) :=
  pages ← index w fs;
  search_pages term ignore_case attrs pages.

(** The defaults [ignore_case=True] and [attrs=['title', 'tags', 'body']]. *)
Definition search_default (w : Wiki) (term : string) (fs : Fs.t)
  : result (list Page) :=
  search w term true [Title; Tags; Body] fs.

End Search.

End Wiki.

(** ** Patterns without metacharacters

    For a term made of letters and digits only, the pattern matches the
    texts that contain the term, letter case set aside under
    [re.IGNORECASE]. *)

Module Re.

Fixpoint contains (sub s : string) : bool :=
  Py.startswith sub s ||
  match s with
  | EmptyString => false
  | String _ s' => contains sub s'
  end.

Definition literal_search (term : string) (ignore_case : bool) (text : string) : bool :=
  if ignore_case then contains (Py.lower term) (Py.lower text)
  else contains term text.

End Re.

(** ** Named interprocess locks

    Calls of decorated functions by several processes, interleaved at
    the grain of one effect on the shared state. *)

Module Locks.

Section Processes.

(** The state the processes share: the disk and what lives on it. *)
Variable S : Type.

Definition action : Type := S -> result unit * S.

(** Where a call of a decorated function stands. *)
Inductive phase : Type :=
  | Waiting                          (* the lock is not acquired yet *)
  | Running (rest : list action)     (* in the wrapped function *)
  | Failed (e : exn)                 (* the wrapped function raised *)
  | Done (r : result unit).          (* the lock is released *)

Record system : Type := MkSystem {
  shared : S;
  lock : option nat;
  procs : nat -> phase
}.

(** Modelled from the spec: the decorator
    [named_locks.interprocess_lock] (module [wiki/named_locks.py]),
    which acquires the lock before the wrapped operation and
    releases it unconditionally afterward, including on failure.
    [step body i] is one move of process [i], whose wrapped
    operation is [body i]; a process that waits moves only when
    the lock is free. *)
Inductive step (body : nat -> list action) (i : nat) : system -> system -> Prop :=
  | step_acquire st :
      procs st i = Waiting ->
      lock st = None ->
      step body i st (MkSystem (shared st) (Some i) (<[i := Running (body i)]> (procs st)))
  | step_ok st a rest s' :
      procs st i = Running (a :: rest) ->
      a (shared st) = (Ok tt, s') ->
      step body i st (MkSystem s' (lock st) (<[i := Running rest]> (procs st)))
  | step_raise st a rest e s' :
      procs st i = Running (a :: rest) ->
      a (shared st) = (Raise e, s') ->
      step body i st (MkSystem s' (lock st) (<[i := Failed e]> (procs st)))
  | step_return st :
      procs st i = Running [] ->
      step body i st (MkSystem (shared st) None (<[i := Done (Ok tt)]> (procs st)))
  | step_release st e :
      procs st i = Failed e ->
      step body i st (MkSystem (shared st) None (<[i := Done (Raise e)]> (procs st))).

(** Any number of moves, by any processes, in any order. *)
Inductive reachable (body : nat -> list action) : system -> system -> Prop :=
  | reach_refl st : reachable body st st
  | reach_step st st' st'' i :
      reachable body st st' -> step body i st' st'' -> reachable body st st''.

Definition initial (s : S) : system := MkSystem s None (fun _ => Waiting).

(** The wrapped operation run alone, start to end. *)
Fixpoint run (acts : list action) (s : S) : result unit * S :=
  match acts with
  | [] => (Ok tt, s)
  | a :: rest =>
      match a s with
      | (Ok tt, s') => run rest s'
      | (Raise e, s') => (Raise e, s')
      end
  end.

(** One move of process [i] as a function: a process that cannot
    move leaves the system as it is. *)
Definition move (body : nat -> list action) (i : nat) (st : system) : system :=
  match procs st i with
  | Waiting =>
      match lock st with
      | None => MkSystem (shared st) (Some i) (<[i := Running (body i)]> (procs st))
      | Some _ => st
      end
  | Running [] => MkSystem (shared st) None (<[i := Done (Ok tt)]> (procs st))
  | Running (a :: rest) =>
      match a (shared st) with
      | (Ok tt, s') => MkSystem s' (lock st) (<[i := Running rest]> (procs st))
      | (Raise e, s') => MkSystem s' (lock st) (<[i := Failed e]> (procs st))
      end
  | Failed e => MkSystem (shared st) None (<[i := Done (Raise e)]> (procs st))
  | Done _ => st
  end.

(** The system after the processes moved in the order [schedule]. *)
Definition exec (body : nat -> list action) (schedule : list nat) (st : system)
  : system :=
  fold_left (fun st i => move body i st) schedule st.

(** A process is in its critical section from the moment it has the
    lock to the moment it gives it back. *)
Definition in_critical_section (ph : phase) : Prop :=
  match ph with
  | Running _ | Failed _ => True
  | Waiting | Done _ => False
  end.

(** The states of a system whose calls happen one after the other:
    nobody but the holder of the lock is inside a call, the shared
    state is [good] whenever the lock is free, and while process [i]
    holds it the shared state is what the part of [body i] run so
    far made of a good state. *)
Definition serial (body : nat -> list action) (good : S -> Prop) (st : system)
  : Prop :=
  (forall j, lock st <> Some j -> ~ in_critical_section (procs st j))
  /\ match lock st with
     | None => good (shared st)
     | Some i =>
         exists s_in, good s_in /\
           match procs st i with
           | Running rest =>
               exists done, body i = done ++ rest /\ run done s_in = (Ok tt, shared st)
           | Failed e => run (body i) s_in = (Raise e, shared st)
           | _ => False
           end
     end.

End Processes.

Arguments Waiting {S}.
Arguments Running {S} rest.
Arguments Failed {S} e.
Arguments Done {S} r.
Arguments MkSystem {S} shared lock procs.
Arguments shared {S} s.
Arguments lock {S} s.
Arguments procs {S} s.
Arguments step {S} body i _ _.
Arguments reachable {S} body _ _.
Arguments initial {S} s.
Arguments run {S} acts s.
Arguments move {S} body i st.
Arguments exec {S} body schedule st.
Arguments in_critical_section {S} ph.
Arguments serial {S} body good st.

End Locks.

(** ** The versioned store ([WikiGit]) *)

Module WikiGit.

Record Commit : Type := MkCommit {
  commit : string;
  timestamp : Z;            (* seconds since the epoch *)
  author : string;
  data : option string
}.

Definition NUL : string := String "000" EmptyString.

(** [int(s)] for a decimal numeral: white space around it and a sign
    are accepted. *)
Fixpoint digits (acc : Z) (s : string) : option Z :=
  match s with
  | EmptyString => Some acc
  | String c s' =>
      let n := Sha512.byte_of c in
      if (48 <=? n) && (n <=? 57) then digits (10 * acc + (n - 48)) s' else None
  end.


Definition py_int (s : string) : result Z :=
  let s := Py.strip s in
  let '(sign, ds) :=
    match s with
    | String "-" r => (-1, r)
    | String "+" r => (1, r)
    | _ => (1, s)
    end in
  match ds with
  | EmptyString => Raise ValueError
  | _ => match digits 0 ds with
         | Some n => Ok (sign * n)
         | None => Raise ValueError
         end
  end.

Definition item (l : list string) (i : nat) : result string :=
  match l !! i with
  | Some x => Ok x
  | None => Raise IndexError
  end.

(** [Commit.from_gitlog(string)] *)
Definition from_gitlog (s : string) : result Commit :=
  let data := Py.split NUL s in
  d0 ← item data 0;
  d1 ← item data 1;
  d2 ← item data 2;
  t ← py_int d1;
  Ok (MkCommit d0 t d2 None).

(** The list comprehension: the first record that fails to parse
    raises. *)
Fixpoint parse_all (recs : list string) : result (list Commit) :=
  match recs with
  | [] => Ok []
  | r :: rest =>
      c ← from_gitlog r;
      cs ← parse_all rest;
      Ok (c :: cs)
  end.





Section Client.

(** The state of the repository, which is the version-control
    tool's. *)
Variable R : Type.

(** The [git] client: every command acts on the working tree and the
    repository, and raises [GitCommandError] when the tool fails. *)
Record Git : Type := MkGit {
  add : string -> Locks.action (Fs.t * R);
  git_commit : string -> option string -> Locks.action (Fs.t * R);
  mv : string -> string -> Locks.action (Fs.t * R);
  rm : string -> Locks.action (Fs.t * R);
  (** [log(path, format=...)] *)
  log : string -> Fs.t * R -> result string;
  (** [grep(term, G=True, i=ignore_case)] *)
  grep : string -> bool -> Fs.t * R -> result string
}.

Variable git : Git.
Variable w : Wiki.Wiki.

Definition lift (f : Fs.io unit) : Locks.action (Fs.t * R) :=
  fun s => let '(r, fs') := f (fst s) in (r, (fs', snd s)).

(** The body of [save], under the lock ["git-lock"]. *)
Definition save (url body : string) (meta : gmap string Wiki.mval)
    (author : option string) : list (Locks.action (Fs.t * R)) :=
  let author :=
    match author with
    | Some a => if String.eqb a EmptyString then "anonymouse"%string else a
    | None => "anonymouse"%string
    end in
  let author := author +:+ " <" +:+ author +:+ ">" in
  map lift (Wiki.save_steps w url body meta)
    ++ [add git (url +:+ ".md"); git_commit git "changed" (Some author)].

(** The body of [move], under the same lock. *)
Definition move (url newurl : string) : list (Locks.action (Fs.t * R)) :=
  [mv git (url +:+ ".md") (newurl +:+ ".md"); git_commit git "file moved" None].

(** The body of [delete], under the same lock: nothing is done for a
    page that does not exist. *)
Definition delete (url : string) : list (Locks.action (Fs.t * R)) :=
  [fun s =>
     if negb (Wiki.exists_ w url (fst s)) then (Ok tt, s)
     else Locks.run [rm git (url +:+ ".md"); git_commit git "file deleted" None] s].

(** [history(url, offset=0, limit=5)] *)
Definition history (url : string) (offset limit : Z) (s : Fs.t * R)
  : result (list Commit) :=
  out ← log git (url +:+ ".md") s;
  recs ← parse_all (Py.split Wiki.NL out);
  Ok (Py.slice recs offset limit).

(** [git add] and [git commit] record the working tree and leave it
    as it is. *)
Definition keeps_working_tree : Prop :=
  (forall path s, fst (snd (add git path s)) = fst s)
  /\ (forall m a s, fst (snd (git_commit git m a s)) = fst s).

(** Calls of [save] for one page by any number of processes, process
    [i] saving the body [bodies i] and the metadata [metas i]. *)
Definition savers (url : string) (bodies : nat -> string)
    (metas : nat -> gmap string Wiki.mval) (authors : nat -> option string)
  : nat -> list (Locks.action (Fs.t * R)) :=
  fun i => save url (bodies i) (metas i) (authors i).

(** The page file holds what it held at the start, or one whole
    encoded record. *)
Definition whole_record (url : string) (bodies : nat -> string)
    (metas : nat -> gmap string Wiki.mval) (before : option string)
    (s : Fs.t * R) : Prop :=
  Fs.files (fst s) !! Fs.key (Wiki.path w url) = before
  \/ exists i, Fs.files (fst s) !! Fs.key (Wiki.path w url)
               = Some (Wiki.encode (bodies i) (metas i)).

Variable regex_search : string -> bool -> string -> bool.

(** [r.split(':')[0][:-3]] *)
Definition grep_url (r : string) : string :=
  Wiki.drop_last3 (default EmptyString (head (Py.split ":" r))).

Fixpoint load_all (urls : list string) (fs : Fs.t) : result (list Wiki.Page) :=
  match urls with
  | [] => Ok []
  | u :: rest =>
      p ← fst (Wiki.get_page w u fs);
      ps ← load_all rest fs;
      Ok (p :: ps)
  end.

(** [search(term, ignore_case=True)]: only [GitCommandError] is
    caught, and the inherited search is then called with the term
    alone. *)
Definition search (term : string) (ignore_case : bool) (s : Fs.t * R)
  : result (list Wiki.Page) :=
  let attempt :=
    out ← grep git term ignore_case s;
    load_all (map grep_url (Py.split Wiki.NL out)) (fst s) in
  match attempt with
  | Raise GitCommandError => Wiki.search_default regex_search w term (fst s)
  | r => r
  end.

End Client.

Arguments MkGit {R}.
Arguments add {R}.
Arguments git_commit {R}.
Arguments mv {R}.
Arguments rm {R}.
Arguments log {R}.
Arguments grep {R}.
Arguments lift {R}.
Arguments save {R}.
Arguments move {R}.
Arguments delete {R}.
Arguments history {R}.
Arguments search {R}.
Arguments keeps_working_tree {R}.
Arguments savers {R}.
Arguments whole_record {R}.

End WikiGit.

(** ** Page addresses ([Processors.clean_url]) *)

Module Processors.

(** [re.sub('[ ]{2,}', ' ', url)]: every run of two or more spaces
    becomes one space. *)
Fixpoint collapse_spaces (url : string) : string :=
  match url with
  | String " " (String " " _ as rest) => collapse_spaces rest
  | String c rest => String c (collapse_spaces rest)
  | EmptyString => EmptyString
  end.

(** [clean_url(url)] on a byte string. *)
Definition clean_url (url : string) : string :=
  let pageStub := Py.strip (collapse_spaces url) in
  let pageStub := Py.replace " " "_" (Py.lower pageStub) in
  Py.replace "\" "/" (Py.replace "\\" "/" pageStub).

End Processors.

(** ** Lookups over the plain store ([Wiki.get], [get_bare],
    [get_by_title], [get_tags], [index_by_tag]) *)

Module WikiIndex.

(** [Wiki.get(url)] *)
Definition get (w : Wiki.Wiki) (url : string) : Fs.io (option Wiki.Page) := fun fs =>
  if Wiki.exists_ w url fs then (p ←io Wiki.get_page w url; Fs.ret (Some p)) fs
  else (Ok None, fs).

(** [Wiki.get_bare(url)]: [None] is the [False] returned for a page
    that exists.  The bare page has no body until the editor form sets
    one; it is the empty string here. *)
Definition get_bare (w : Wiki.Wiki) (url : string) (fs : Fs.t) : option Wiki.Page :=
  if Wiki.exists_ w url fs then None else Some (Wiki.new_page url EmptyString).

(** How a call ends that may stumble on a name nothing binds. *)
Inductive outcome (A : Type) : Type :=
  | Returned (a : A)
  | NameError (name : string).
Arguments Returned {A} a.
Arguments NameError {A} name.

(** [_walk] when [index] is given an [attr]: the first file [*.md]
    met reaches the line that reads the name [page], which neither
    [_walk], nor [index], nor the module binds. *)
Fixpoint walk_attr (fuel : nat) (fs : Fs.t) (directory : string) : outcome unit :=
  match fuel with
  | O => Returned tt
  | S fuel' =>
      foldl
        (fun acc name =>
           match acc with
           | NameError n => NameError n
           | Returned _ =>
               let fullname := OsPath.join directory name in
               if Fs.isdir fullname fs then walk_attr fuel' fs fullname
               else if Wiki.endswith ".md" name then NameError "page"
               else Returned tt
           end)
        (Returned tt) (Fs.listdir directory fs)
  end.

(** [index(attr)] for an [attr] that is given: the dict it returns is
    the empty one it started from. *)
Definition index_attr (w : Wiki.Wiki) (fs : Fs.t) : outcome (gmap string Wiki.Page) :=
  match walk_attr (S (size (Fs.dirs fs))) fs (Wiki.root w) with
  | Returned _ => Returned ∅
  | NameError n => NameError n
  end.

(** [Wiki.get_by_title(title)] *)
Definition get_by_title (w : Wiki.Wiki) (title : string) (fs : Fs.t)
  : outcome (option Wiki.Page) :=
  match index_attr w fs with
  | Returned pages => Returned (pages !! title)
  | NameError n => NameError n
  end.

(** One of the tags of [page] enters the table: [tags.get(tag)] is
    true for a list that is not empty. *)
Definition add_tag (page : Wiki.Page) (tags : gmap string (list Wiki.Page))
    (tag : string) : gmap string (list Wiki.Page) :=
  let tag := Py.strip tag in
  if String.eqb tag EmptyString then tags
  else match tags !! tag with
       | Some (q :: l) => <[tag := (q :: l) ++ [page]]> tags
       | _ => <[tag := [page]]> tags
       end.

(** The loop of [get_tags] over the pages: a page whose tags are a
    list has no [split]. *)
Definition collect_tags (pages : list Wiki.Page)
  : result (gmap string (list Wiki.Page)) :=
  foldl (fun acc page =>
           tags ← acc;
           match Wiki.tags page with
           | Wiki.MStr t => Ok (foldl (add_tag page) tags (Py.split "," t))
           | Wiki.MList _ => Raise AttributeError
           end)
        (Ok ∅) pages.

(** [Wiki.get_tags()] *)
Definition get_tags (w : Wiki.Wiki) (fs : Fs.t)
  : result (gmap string (list Wiki.Page)) :=
  pages ← Wiki.index w fs;
  collect_tags pages.

(** [tag in page.tags]: part of the text when the tags are a string,
    one of the elements when they are a list. *)
Definition has_tag (tag : string) (p : Wiki.Page) : bool :=
  match Wiki.tags p with
  | Wiki.MStr t => Re.contains tag t
  | Wiki.MList l => bool_decide (tag ∈ l)
  end.

(** [Wiki.index_by_tag(tag)] *)
Definition index_by_tag (w : Wiki.Wiki) (tag : string) (fs : Fs.t)
  : result (list Wiki.Page) :=
  pages ← Wiki.index w fs;
  let tagged := List.filter (has_tag tag) pages in
  keyed ← foldr (fun p acc => l ← acc; k ← Wiki.sort_key p; Ok ((k, p) :: l))
            (Ok []) tagged;
  Ok (Wiki.sorted keyed).

End WikiIndex.

(** ** The account object ([User]) *)

Module User.

(** [User.get(option)] *)
Definition get (u : Users.User) (option : string) : result Json.value :=
  Users.dict_get (Users.data u) option.

(** [User.save()] *)
Definition save (um : Users.UserManager) (u : Users.User) (st : gmap string Json.value)
  : result unit * gmap string Json.value :=
  Users.update um (Users.name u) (Users.data u) st.

(** [User.set(option, value)]: the record the object holds is changed,
    then saved; the object comes back with its new record. *)
Definition set (um : Users.UserManager) (u : Users.User) (option : string)
    (value : Json.value) (st : gmap string Json.value)
  : result Users.User * gmap string Json.value :=
  match Users.data u with
  | Json.Obj fields =>
      let u' := Users.MkUser (Users.name u) (Json.Obj (<[option := value]> fields)) in
      match save um u' st with
      | (Ok _, st') => (Ok u', st')
      | (Raise e, st') => (Raise e, st')
      end
  | _ => (Raise TypeError, st)
  end.

(** [User.is_active()] *)
Definition is_active (u : Users.User) : result Json.value := get u "active".

(** [User.get_id()] *)
Definition get_id (u : Users.User) : string := Users.name u.

End User.

(** ** The login form ([LoginForm]) *)

Module LoginForm.

(** What a validator of a field says: nothing, or the
    [ValidationError] it raises, which the form records against the
    field.  Any other exception goes through to the caller. *)
Inductive verdict : Type :=
  | Valid
  | ValidationError (message : string).

Definition validate_name (um : Users.UserManager) (name : string)
    (st : gmap string Json.value) : result verdict :=
  user ← Users.get_user um name st;
  match user with
  | None => Ok (ValidationError "This username does not exist.")
  | Some _ => Ok Valid
  end.

Definition validate_password (cfg : Users.config) (urandom64 : string)
    (um : Users.UserManager) (name password : string)
    (st : gmap string Json.value) : result verdict :=
  user ← Users.get_user um name st;
  match user with
  | None => Ok Valid
  | Some u =>
      ok ← Users.check_password cfg urandom64 u password;
      Ok (if ok : bool then Valid
          else ValidationError "Username and password do not match.")
  end.

End LoginForm.

(** ** One commit with its changes ([WikiGit.show]) *)

Module WikiGitShow.


End WikiGitShow.

(** ** The editor ([edit]) *)

Module Routes.



End Routes.

(** ** Sample data *)

Definition alice_record : Json.value :=
  Json.Obj (<["authentication_method" := Json.Str "cleartext"]>
              (<["roles" := Json.Arr []]>
                 (<["active" := Json.Bool true]>
                    (<["password" := Json.Str "pw"]> ∅)))).

(** Sixty-four bytes standing for one draw of [os.urandom(64)]. *)
Definition sample_salt : string := Py.str (map ascii_of_nat (seq 0 64)).



(** A client whose every query fails, as on a repository without
    commits. *)
Definition broken_git : WikiGit.Git unit :=
  WikiGit.MkGit (fun _ s => (Ok tt, s)) (fun _ _ s => (Ok tt, s))
    (fun _ _ s => (Ok tt, s)) (fun _ s => (Ok tt, s))
    (fun _ _ => Raise GitCommandError) (fun _ _ _ => Raise GitCommandError).

(** A client that finds no commit for any file: [log] prints nothing. *)
Definition silent_git : WikiGit.Git unit :=
  WikiGit.MkGit (fun _ s => (Ok tt, s)) (fun _ _ s => (Ok tt, s))
    (fun _ _ s => (Ok tt, s)) (fun _ s => (Ok tt, s))
    (fun _ _ => Ok EmptyString) (fun _ _ _ => Ok EmptyString).

Definition content_wiki : Wiki.Wiki := Wiki.MkWiki "content".

(** The content root with the single page [home]: title "Home", body
    "Hello". *)
Definition greeting_fs : Fs.t :=
  Fs.Make
    {[ "content/home.md"%string := "title: Home" +:+ Wiki.NL +:+ Wiki.NL +:+ "Hello" ]}
    {[ "."%string; "content"%string ]}.

Definition greeting_page : Wiki.Page :=
  Wiki.MkPage "home" ("title: Home" +:+ Wiki.NL +:+ Wiki.NL +:+ "Hello") "Hello"
    {[ "title"%string := Wiki.MList ["Home"%string] ]}.



(** The same root with a sub-folder [a]. *)
Definition nested_fs : Fs.t :=
  Fs.Make
    {[ "content/home.md"%string := "title: Home" +:+ Wiki.NL +:+ Wiki.NL +:+ "Hello" ]}
    {[ "."%string; "content"%string; "content/a"%string ]}.





(** The metadata saved over the page [home] in the examples. *)
Definition home_meta : gmap string Wiki.mval := {[ "title"%string := Wiki.MStr "Home" ]}.

(** Two writers of the page [home]. *)
Definition writer_body (i : nat) : string :=
  match i with O => "First"%string | _ => "Second"%string end.

Definition writer_meta (i : nat) : gmap string Wiki.mval :=
  match i with
  | O => {[ "title"%string := Wiki.MStr "One" ]}
  | _ => {[ "title"%string := Wiki.MStr "Another" ]}
  end.

Definition writers : nat -> list (Locks.action (Fs.t * unit)) :=
  WikiGit.savers silent_git content_wiki "home" writer_body writer_meta (fun _ => None).

(** Process 0 takes the lock; process 1 tries in between and has to
    wait; process 0 finishes and releases; then process 1 runs. *)
Definition contended_schedule : list nat :=
  [0; 1; 0; 1; 0; 0; 1; 0; 0; 0; 0; 0; 1; 1; 1; 1; 1; 1; 1; 1; 1]%nat.

(** The writes of the two plain saves, taken in turn without a lock. *)
Definition unlocked_interleaving : list (Fs.io unit) :=
  let a := Wiki.save_steps content_wiki "home" (writer_body 0) (writer_meta 0) in
  let b := Wiki.save_steps content_wiki "home" (writer_body 1) (writer_meta 1) in
  concat (zip_with (fun x y => [x; y]) a b).

(** The content root with two pages that carry tags. *)
Definition home_text : string :=
  "title: Home" +:+ Wiki.NL +:+ "tags: wiki, start" +:+ Wiki.NL +:+ Wiki.NL +:+ "Hello".

Definition about_text : string :=
  "title: about" +:+ Wiki.NL +:+ "tags: wiki" +:+ Wiki.NL +:+ Wiki.NL +:+ "About".

Definition tagged_fs : Fs.t :=
  Fs.Make
    {[ "content/home.md"%string := home_text; "content/about.md"%string := about_text ]}
    {[ "."%string; "content"%string ]}.

Definition tagged_home : Wiki.Page :=
  Wiki.MkPage "home" home_text "Hello"
    {[ "title"%string := Wiki.MList ["Home"%string];
       "tags"%string := Wiki.MList ["wiki, start"%string] ]}.

Definition tagged_about : Wiki.Page :=
  Wiki.MkPage "about" about_text "About"
    {[ "title"%string := Wiki.MList ["about"%string];
       "tags"%string := Wiki.MList ["wiki"%string] ]}.



(** * Properties *)

(** ** The library models on known values *)

Example sha512_abc :
  Sha512.hexdigest "abc"
  = "ddaf35a193617abacc417349ae20413112e6fa4e89a97ea20a9eeee64b55d39a2192992a274fc1a836ba3c23a3feebbd454d4423643ce80e2a9ac94fa54ca49f"%string.
Proof. vm_compute. reflexivity. Qed.

Example sha512_empty :
  Sha512.hexdigest EmptyString
  = "cf83e1357eefb8bdf1542850d66d8007d620e4050b5715dc83f4a921d36ce9ce47d0d13c5d85f2b0ff8318d2877eec2f63b931bd47417a81a538327af927da3e"%string.
Proof. vm_compute. reflexivity. Qed.

(** A message of two blocks: two hundred times the letter [a]. *)
Example sha512_two_blocks :
  Sha512.hexdigest (Py.str (repeat "a"%char 200))
  = "4b11459c33f52a22ee8236782714c150a3b2c60994e9acee17fe68947a3e6789f31e7668394592da7bef827cddca88c4e6f86e4df7ed1ae6cba71f3e98faee9f"%string.
Proof. vm_compute. reflexivity. Qed.

Example normpath_values :
  OsPath.normpath "content/../outside.md" = "outside.md"%string
  /\ OsPath.normpath "/a//b/./c/../d" = "/a/b/d"%string
  /\ OsPath.normpath "../../x" = "../../x"%string
  /\ OsPath.normpath "//a/.." = "//"%string
  /\ OsPath.normpath EmptyString = "."%string.
Proof. repeat split; vm_compute; reflexivity. Qed.

Example path_values :
  OsPath.join "content" "notes/today.md" = "content/notes/today.md"%string
  /\ OsPath.join "content/" "a.md" = "content/a.md"%string
  /\ OsPath.join "content" "/etc/x.md" = "/etc/x.md"%string
  /\ OsPath.dirname "content/notes/today.md" = "content/notes"%string
  /\ OsPath.dirname "today.md" = EmptyString
  /\ OsPath.commonprefix "content" "content2/x.md" = "content"%string.
Proof. repeat split; vm_compute; reflexivity. Qed.

Example string_values :
  Py.split "," "a,b,,c" = ["a"; "b"; EmptyString; "c"]%string
  /\ Py.split "," EmptyString = [EmptyString]
  /\ Py.split1 "xx" "axxbxxc" = ["a"; "bxxc"]%string
  /\ Py.replace "ab" "X" "cababd" = "cXXd"%string
  /\ Py.strip "  a b  " = "a b"%string
  /\ Py.slice [1; 2; 3; 4; 5; 6; 7] 0 5 = [1; 2; 3; 4; 5]
  /\ Py.slice [1; 2; 3] (-2) 5 = [2; 3]
  /\ Wiki.repr_list ["Today"; "notes"]%string = "[u'Today', u'notes']"%string.
Proof. repeat split; vm_compute; reflexivity. Qed.

(** The header extension on a hand-written page: keys are lowercased,
    values stripped, an indented line continues the last key, and the
    first blank line ends the header. *)
Example meta_values :
  map_to_list
    <$> Markdown.Meta ("Title:  Today " +:+ Wiki.NL +:+ "tags: a" +:+ Wiki.NL
                       +:+ "    b" +:+ Wiki.NL +:+ Wiki.NL +:+ "Hello" +:+ Wiki.NL +:+ "x: y")
  = Some [("title", ["Today"]); ("tags", ["a"; "b"])]%string.
Proof. vm_compute. reflexivity. Qed.

(** ** Strings *)

Lemma str_app_nil_l (t : string) : EmptyString +:+ t = t.
Proof. reflexivity. Qed.

Lemma str_app_cons (c : ascii) (s t : string) : String c s +:+ t = String c (s +:+ t).
Proof. reflexivity. Qed.

Lemma str_app_nil_r (s : string) : s +:+ EmptyString = s.
Proof. induction s as [|c s IH]; [reflexivity|]. rewrite str_app_cons, IH. reflexivity. Qed.

Lemma str_app_assoc (s t u : string) : (s +:+ t) +:+ u = s +:+ t +:+ u.
Proof.
  induction s as [|c s IH]; [reflexivity|].
  rewrite !str_app_cons, IH. reflexivity.
Qed.

Lemma str_length_app (s t : string) :
  String.length (s +:+ t) = (String.length s + String.length t)%nat.
Proof.
  induction s as [|c s IH]; [reflexivity|].
  rewrite str_app_cons. simpl. rewrite IH. reflexivity.
Qed.

Lemma take_app_length (s t : string) : Py.take (String.length s) (s +:+ t) = s.
Proof.
  induction s as [|c s IH]; [destruct t; reflexivity|].
  rewrite str_app_cons. simpl. rewrite IH. reflexivity.
Qed.

Lemma drop_app_length (s t : string) : Py.drop (String.length s) (s +:+ t) = t.
Proof.
  induction s as [|c s IH]; [destruct t; reflexivity|].
  rewrite str_app_cons. simpl. exact IH.
Qed.

Lemma take_drop (n : nat) (s : string) : Py.take n s +:+ Py.drop n s = s.
Proof.
  revert s. induction n as [|n IH]; intros [|c s]; try reflexivity.
  simpl. rewrite str_app_cons, IH. reflexivity.
Qed.

Lemma startswith_app (p s : string) : Py.startswith p (p +:+ s) = true.
Proof.
  induction p as [|c p IH]; [reflexivity|].
  rewrite str_app_cons. simpl. rewrite Ascii.eqb_refl. exact IH.
Qed.

Lemma startswith_spec (p s : string) :
  Py.startswith p s = true <-> exists t, s = p +:+ t.
Proof.
  split.
  - revert s. induction p as [|c p IH]; intros s H.
    + exists s. reflexivity.
    + destruct s as [|d s]; [discriminate|]. simpl in H.
      destruct (Ascii.eqb_spec c d) as [->|]; [|discriminate].
      destruct (IH _ H) as [t ->]. exists t. reflexivity.
  - intros [t ->]. apply startswith_app.
Qed.

(** ** [hexlify] and [unhexlify] are inverse to each other *)






(** ** Salted hashes *)





(** ** The account store *)

Lemma write_ok (um : Users.UserManager) (doc : Json.value) (st : gmap string Json.value) :
  Users.write um doc st =
  Ok (<[Users.file um := doc]> (delete (Users.file um +:+ "-write") st)).
Proof.
  unfold Users.write, Users.rename.
  rewrite lookup_insert_eq, delete_insert_eq. reflexivity.
Qed.

Lemma tmp_file_ne (um : Users.UserManager) :
  Users.file um +:+ "-write" <> Users.file um.
Proof.
  intros H. apply (f_equal String.length) in H.
  rewrite str_length_app in H. simpl in H. lia.
Qed.

Lemma read_after_write (um : Users.UserManager) (doc : Json.value)
    (st st' : gmap string Json.value) :
  Users.write um doc st = Ok st' -> Users.read um st' = doc.
Proof.
  rewrite write_ok. intros [= <-]. unfold Users.read.
  rewrite lookup_insert_eq. reflexivity.
Qed.

Lemma account_record_truthy (v : Json.value) :
  Users.account_record v -> Json.truthy v = true.
Proof.
  intros (fields & -> & [a Ha] & _). simpl.
  case_bool_decide as Hd; [|reflexivity].
  apply (elem_of_dom_2 (D := gset string)) in Ha. rewrite Hd in Ha.
  set_solver.
Qed.

(** C10. [delete_user] on a name the account table does not hold returns
    [False] and leaves the disk, the account file included, as it was;
    on a name it holds, it returns [True] and the file then holds the
    former table without that one entry, every other entry and every
    other file being unchanged. *)
Theorem delete_user_frame (um : Users.UserManager) (st : gmap string Json.value)
    (users : gmap string Json.value) (name : string) :
  Users.account_table um st users ->
  match users !! name with
  | None => Users.delete_user um name st = (Ok false, st)
  | Some _ =>
      exists st',
        Users.delete_user um name st = (Ok true, st')
        /\ Users.read um st' = Json.Obj (delete name users)
        /\ delete name users !! name = None
        /\ (forall other, other <> name -> delete name users !! other = users !! other)
        /\ (forall p, p <> Users.file um -> p <> Users.file um +:+ "-write" ->
                      st' !! p = st !! p)
  end.
Proof.
  intros [Hread Hrec]. unfold Users.delete_user. rewrite Hread.
  destruct (users !! name) as [v|] eqn:Hv; simpl.
  - rewrite (account_record_truthy v) by (eapply Hrec; exact Hv). simpl.
    rewrite write_ok. eexists. split; [reflexivity|].
    split; [|split; [|split]].
    + unfold Users.read. rewrite lookup_insert_eq. reflexivity.
    + apply lookup_delete_eq.
    + intros other Hne. apply lookup_delete_ne. congruence.
    + intros p Hp Htmp.
      rewrite lookup_insert_ne by congruence.
      rewrite lookup_delete_ne by congruence. reflexivity.
  - reflexivity.
Qed.

Lemma alice_is_account : Users.account_record alice_record.
Proof.
  eexists. split; [reflexivity|].
  split; [|split]; eexists; vm_compute; reflexivity.
Qed.

Lemma alice_table :
  Users.account_table (Users.new_manager "content")
    {[ "content/users.json"%string := Json.Obj {[ "alice"%string := alice_record ]} ]}
    {[ "alice"%string := alice_record ]}.
Proof.
  split; [reflexivity|].
  intros n v H. apply lookup_singleton_Some in H as [_ <-].
  exact alice_is_account.
Qed.

Lemma delete_user_frame_witness :
  (exists st',
      Users.delete_user (Users.new_manager "content") "alice"
        {[ "content/users.json"%string := Json.Obj {[ "alice"%string := alice_record ]} ]}
      = (Ok true, st')
      /\ Users.read (Users.new_manager "content") st' = Json.Obj ∅)
  /\ Users.delete_user (Users.new_manager "content") "bob"
       {[ "content/users.json"%string := Json.Obj {[ "alice"%string := alice_record ]} ]}
     = (Ok false,
        {[ "content/users.json"%string := Json.Obj {[ "alice"%string := alice_record ]} ]}).
Proof.
  split.
  - pose proof (delete_user_frame _ _ _ "alice" alice_table) as H.
    rewrite lookup_singleton_eq in H.
    destruct H as (st' & Hdel & Hread & _).
    exists st'. split; [exact Hdel|].
    rewrite Hread, delete_singleton_eq. reflexivity.
  - pose proof (delete_user_frame _ _ _ "bob" alice_table) as H.
    rewrite lookup_singleton_ne in H by discriminate. exact H.
Defined.







(** ** Search *)

Lemma search_fallback (R : Type) (git : WikiGit.Git R) (w : Wiki.Wiki)
    (regex_search : string -> bool -> string -> bool)
    (term : string) (ignore_case : bool) (s : Fs.t * R) :
  WikiGit.grep git term ignore_case s = Raise GitCommandError ->
  WikiGit.search git w regex_search term ignore_case s
  = Wiki.search regex_search w term true [Wiki.Title; Wiki.Tags; Wiki.Body] (fst s).
Proof.
  intros Hgrep. unfold WikiGit.search. rewrite Hgrep. reflexivity.
Qed.

(** C7 at a failing input.  The page [home] has the body "Hello"; the
    client's [grep] fails; the search is for "hello" with
    [ignore_case=False].  The fallback returns the page, which the plain
    search for that term and that flag does not return. *)
Theorem search_fallback_drops_ignore_case :
  WikiGit.grep broken_git "hello" false (greeting_fs, tt) = Raise GitCommandError
  /\ WikiGit.search broken_git content_wiki Re.literal_search "hello" false (greeting_fs, tt)
     = Ok [greeting_page]
  /\ Wiki.search Re.literal_search content_wiki "hello" false
       [Wiki.Title; Wiki.Tags; Wiki.Body] greeting_fs
     = Ok [].
Proof.
  split; [reflexivity|]. split.
  - rewrite search_fallback by reflexivity. vm_compute. reflexivity.
  - vm_compute. reflexivity.
Qed.

(** ** Splitting on a one-character separator *)

Lemma contains_app (x : ascii) (s t : string) :
  Py.contains x (s +:+ t) = Py.contains x s || Py.contains x t.
Proof.
  induction s as [|c s IH]; [reflexivity|].
  rewrite str_app_cons. simpl. rewrite IH. apply orb_assoc.
Qed.

Lemma find_sep_char_none (c : ascii) (l : string) :
  Py.contains c l = false ->
  Py.find_sep (String c EmptyString) l = None.
Proof.
  induction l as [|d l IH]; intros H; [reflexivity|].
  simpl in H. apply orb_false_elim in H as [Hd Hl].
  cbn [Py.find_sep Py.startswith]. rewrite Ascii.eqb_sym, Hd.
  rewrite (IH Hl). reflexivity.
Qed.

Lemma find_sep_char_app (c : ascii) (l rest : string) :
  Py.contains c l = false ->
  Py.find_sep (String c EmptyString) (l +:+ String c rest) = Some (l, rest).
Proof.
  induction l as [|d l IH]; intros H.
  - rewrite str_app_nil_l. cbn [Py.find_sep Py.startswith]. rewrite Ascii.eqb_refl.
    destruct rest; reflexivity.
  - simpl in H. apply orb_false_elim in H as [Hd Hl].
    rewrite str_app_cons. cbn [Py.find_sep Py.startswith]. rewrite Ascii.eqb_sym, Hd.
    rewrite (IH Hl). reflexivity.
Qed.

Lemma join_cons2 (sep x y : string) (l : list string) :
  Py.join sep (x :: y :: l) = x +:+ sep +:+ Py.join sep (y :: l).
Proof. reflexivity. Qed.

Lemma split_fuel_join (c : ascii) (ls : list string) :
  forall (l : string) (n : nat),
    Forall (fun x => Py.contains c x = false) (l :: ls) ->
    (length ls <= n)%nat ->
    Py.split_fuel n (String c EmptyString) (Py.join (String c EmptyString) (l :: ls))
    = l :: ls.
Proof.
  induction ls as [|l2 ls IH]; intros l n Hall Hn.
  - apply Forall_cons_1 in Hall as [Hl _]. cbn [Py.join].
    destruct n; [reflexivity|]. cbn [Py.split_fuel].
    rewrite (find_sep_char_none c l Hl). reflexivity.
  - apply Forall_cons_1 in Hall as [Hl Hall].
    destruct n as [|n]; [simpl in Hn; lia|].
    rewrite join_cons2, str_app_cons, str_app_nil_l. cbn [Py.split_fuel].
    rewrite (find_sep_char_app c l _ Hl). f_equal.
    apply IH; [exact Hall|]. simpl in Hn. lia.
Qed.

Lemma join_length_ge (c : ascii) (ls : list string) (l : string) :
  (length ls <= String.length (Py.join (String c EmptyString) (l :: ls)))%nat.
Proof.
  revert l. induction ls as [|l2 ls IH]; intros l; [simpl; lia|].
  rewrite join_cons2, str_length_app, str_app_cons, str_app_nil_l.
  specialize (IH l2). simpl in *. lia.
Qed.

Lemma split_join_char (c : ascii) (l : string) (ls : list string) :
  Forall (fun x => Py.contains c x = false) (l :: ls) ->
  Py.split (String c EmptyString) (Py.join (String c EmptyString) (l :: ls)) = l :: ls.
Proof.
  intros Hall. unfold Py.split. apply split_fuel_join; [exact Hall|].
  apply join_length_ge.
Qed.

(** ** History *)

















(** ** Confinement to the content root *)

Lemma commonprefix_short (a b : string) :
  (String.length (OsPath.commonprefix a b) <? String.length a)%nat = negb (Py.startswith a b).
Proof.
  revert b. induction a as [|c a IH]; intros b; [reflexivity|].
  destruct b as [|d b]; [reflexivity|]. simpl.
  destruct (Ascii.eqb c d); [|reflexivity].
  simpl. specialize (IH b).
  destruct (Py.startswith a b); simpl in *.
  - apply Nat.ltb_ge. apply Nat.ltb_ge in IH. lia.
  - apply Nat.ltb_lt. apply Nat.ltb_lt in IH. lia.
Qed.

Lemma simple_name_facts (s : string) :
  Wiki.simple_name s = true ->
  String.eqb s EmptyString = false /\ Py.contains "/" s = false
  /\ String.eqb s "." = false /\ String.eqb s ".." = false.
Proof.
  unfold Wiki.simple_name. intros H.
  apply andb_prop in H as [H H4]. apply andb_prop in H as [H H3].
  apply andb_prop in H as [H1 H2].
  repeat split; apply negb_true_iff; assumption.
Qed.

Lemma last_char_lacks (c : ascii) (s : string) :
  Py.contains c s = false -> Py.last_char s <> Some c.
Proof.
  induction s as [|d s IH]; [discriminate|]. cbn [Py.contains Py.last_char].
  intros H. apply orb_false_elim in H as [Hd Hs]. destruct s as [|e s].
  - intros [= ->]. rewrite Ascii.eqb_refl in Hd. discriminate.
  - apply IH, Hs.
Qed.

Lemma join_simple (r u : string) :
  Wiki.simple_name r = true -> Py.startswith "/" u = false ->
  OsPath.join r u = r +:+ "/" +:+ u.
Proof.
  intros Hr Hu. destruct (simple_name_facts r Hr) as (Hne & Hslash & _).
  unfold OsPath.join. rewrite Hu, Hne. unfold OsPath.endswith_slash.
  pose proof (last_char_lacks "/" r Hslash) as Hlast.
  destruct (Py.last_char r) as [c|]; [|reflexivity].
  destruct (Ascii.eqb_spec c "/") as [->|]; [contradiction|reflexivity].
Qed.

(** A file name [x.md] is none of the names [normpath] treats
    specially. *)
Lemma md_name_facts (x : string) :
  String.eqb (x +:+ ".md") EmptyString = false
  /\ String.eqb (x +:+ ".md") "." = false
  /\ String.eqb (x +:+ ".md") ".." = false.
Proof.
  repeat split; apply String.eqb_neq; intros H; apply (f_equal String.length) in H;
    rewrite str_length_app in H; simpl in H; lia.
Qed.

Lemma norm_step_push (initial : bool) (l : list string) (comp : string) :
  String.eqb comp EmptyString = false -> String.eqb comp "." = false ->
  String.eqb comp ".." = false ->
  OsPath.norm_step initial l comp = (l ++ [comp])%list.
Proof. intros H1 H2 H3. unfold OsPath.norm_step. rewrite H1, H2, H3. reflexivity. Qed.

Lemma norm_step_pop (r : string) :
  String.eqb r ".." = false -> OsPath.norm_step false [r] ".." = [].
Proof. intros H. unfold OsPath.norm_step. cbn. rewrite H. reflexivity. Qed.

Lemma normpath_simple (r : string) :
  Wiki.simple_name r = true -> OsPath.normpath r = r.
Proof.
  intros Hr. destruct (simple_name_facts r Hr) as (Hne & Hslash & Hdot & Hdots).
  unfold OsPath.normpath. rewrite Hne.
  assert (Py.startswith "/" r = false) as ->.
  { destruct r as [|c r]; [reflexivity|]. cbn [Py.contains] in Hslash.
    apply orb_false_elim in Hslash as [Hc _]. cbn [Py.startswith].
    rewrite Ascii.eqb_sym, Hc. reflexivity. }
  change (Py.split "/" r) with (Py.split "/" (Py.join "/" [r])).
  rewrite split_join_char by (repeat constructor; exact Hslash).
  cbn [fold_left Nat.eqb negb]. rewrite (norm_step_push false [] r Hne Hdot Hdots).
  cbn [app Py.join repeat Py.str string_of_list_ascii].
  rewrite str_app_nil_l, Hne. reflexivity.
Qed.

Lemma normpath_parent_sibling (r x : string) :
  Wiki.simple_name r = true -> Wiki.simple_name x = true ->
  OsPath.normpath (OsPath.join r ("../" +:+ x) +:+ ".md") = x +:+ ".md".
Proof.
  intros Hr Hx. destruct (simple_name_facts r Hr) as (Hne & Hslash & Hdot & Hdots).
  destruct (simple_name_facts x Hx) as (_ & Hxslash & _).
  destruct (md_name_facts x) as (Hm1 & Hm2 & Hm3).
  rewrite (join_simple r _ Hr) by reflexivity.
  assert (Hpath : (r +:+ "/" +:+ "../" +:+ x) +:+ ".md"
                  = Py.join "/" [r; ".."%string; x +:+ ".md"]).
  { cbn [Py.join]. rewrite !str_app_assoc. reflexivity. }
  rewrite Hpath. unfold OsPath.normpath.
  assert (String.eqb (Py.join "/" [r; ".."%string; x +:+ ".md"]) EmptyString = false) as ->.
  { apply String.eqb_neq. intros H. apply (f_equal String.length) in H.
    cbn [Py.join] in H. rewrite !str_length_app in H. simpl in H. lia. }
  assert (Py.startswith "/" (Py.join "/" [r; ".."%string; x +:+ ".md"]) = false) as ->.
  { destruct r as [|c r]; [discriminate|]. cbn [Py.contains] in Hslash.
    apply orb_false_elim in Hslash as [Hc _]. cbn [Py.join]. rewrite str_app_cons.
    cbn [Py.startswith]. rewrite Ascii.eqb_sym, Hc. reflexivity. }
  rewrite split_join_char.
  - cbn [fold_left Nat.eqb negb].
    rewrite (norm_step_push false [] r Hne Hdot Hdots). cbn [app].
    rewrite (norm_step_pop r Hdots).
    rewrite (norm_step_push false [] (x +:+ ".md") Hm1 Hm2 Hm3).
    cbn [app Py.join repeat Py.str string_of_list_ascii].
    rewrite str_app_nil_l, Hm1. reflexivity.
  - repeat apply Forall_cons_2; [exact Hslash|reflexivity| |apply Forall_nil_2].
    rewrite contains_app, Hxslash. reflexivity.
Qed.

Lemma move_refused (w : Wiki.Wiki) (url newurl : string) (fs : Fs.t) :
  Py.startswith (OsPath.normpath (Wiki.root w))
    (OsPath.normpath (OsPath.join (Wiki.root w) newurl +:+ ".md")) = false ->
  Wiki.move w url newurl fs
  = (Raise (RuntimeError
              ("Possible write attempt outside content directory: " +:+ newurl)), fs).
Proof.
  intros H. unfold Wiki.move. rewrite commonprefix_short, H. reflexivity.
Qed.

(** C2, as the code has it.  A destination whose normalised target path
    does not begin with the normalised content root makes [move] raise
    the escape error before any folder is made or any file renamed: the
    file system is left as it was.  This is so, for a content root that
    is a plain directory name, of every destination [../x] where [x] is
    a plain name and [x.md] does not begin with the root's name. *)
Theorem move_outside_root_refused :
  (forall (w : Wiki.Wiki) (url newurl : string) (fs : Fs.t),
      Py.startswith (OsPath.normpath (Wiki.root w))
        (OsPath.normpath (OsPath.join (Wiki.root w) newurl +:+ ".md")) = false ->
      Wiki.move w url newurl fs
      = (Raise (RuntimeError
                  ("Possible write attempt outside content directory: " +:+ newurl)), fs))
  /\ (forall (root x url : string) (fs : Fs.t),
         Wiki.simple_name root = true ->
         Wiki.simple_name x = true ->
         Py.startswith root (x +:+ ".md") = false ->
         Wiki.move (Wiki.MkWiki root) url ("../" +:+ x) fs
         = (Raise (RuntimeError
                     ("Possible write attempt outside content directory: " +:+ "../" +:+ x)),
            fs)).
Proof.
  split; [exact move_refused|].
  intros root x url fs Hroot Hx Hpre. apply move_refused. cbn [Wiki.root].
  rewrite (normpath_simple root Hroot), (normpath_parent_sibling root x Hroot Hx).
  exact Hpre.
Qed.

Lemma move_outside_root_refused_witness :
  Wiki.move content_wiki "home" "../outside" greeting_fs
  = (Raise (RuntimeError
              "Possible write attempt outside content directory: ../outside"),
     greeting_fs).
Proof.
  apply (proj2 move_outside_root_refused "content" "outside" "home" greeting_fs);
    reflexivity.
Defined.

(** C2 as stated fails.  [save] to the identifier [../outside] raises
    nothing and writes [outside.md] next to the content root; [move] to
    [a/../b], which also holds a [../] segment, raises nothing either
    and renames the page. *)
Lemma dotdot_identifier_accepted :
  (exists fs',
      Wiki.save content_wiki "../outside" "Hello" ∅ greeting_fs = (Ok tt, fs')
      /\ Fs.files greeting_fs !! "outside.md" = None
      /\ Fs.files fs' !! "outside.md" = Some (Wiki.NL +:+ "Hello"))
  /\ (exists fs',
         Wiki.move content_wiki "home" "a/../b" nested_fs = (Ok tt, fs')
         /\ Fs.files fs' !! "content/home.md" = None
         /\ Fs.files fs' !! "content/b.md" = Fs.files nested_fs !! "content/home.md").
Proof.
  split.
  - eexists. split; [vm_compute; reflexivity|]. split; vm_compute; reflexivity.
  - eexists. split; [vm_compute; reflexivity|]. split; vm_compute; reflexivity.
Qed.

(** ** [save] writes the target in place *)

Lemma drop_ge (n : nat) (s : string) :
  (String.length s <= n)%nat -> Py.drop n s = EmptyString.
Proof.
  revert s. induction n as [|n IH]; intros [|c s] H; try reflexivity.
  - simpl in H. lia.
  - simpl. apply IH. simpl in H. lia.
Qed.

Lemma splice_at_end (data old : string) :
  Fs.splice (String.length old) data old = old +:+ data.
Proof.
  unfold Fs.splice. rewrite Nat.sub_diag. cbn [repeat Py.str string_of_list_ascii].
  rewrite take_app_length, drop_ge by lia. rewrite str_app_nil_r. reflexivity.
Qed.

Lemma join_empty_cons (x : string) (l : list string) :
  Py.join EmptyString (x :: l) = x +:+ Py.join EmptyString l.
Proof.
  destruct l as [|y l]; [cbn; rewrite str_app_nil_r; reflexivity|].
  rewrite join_cons2. reflexivity.
Qed.

Lemma run_write_steps (path : string) (chunks : list string) :
  forall (k : nat) (files : gmap string string) (dirs : gset string) (c : string),
    files !! Fs.key path = Some c ->
    Wiki.run (firstn k (Wiki.write_steps path (String.length c) chunks))
      (Fs.Make files dirs)
    = (Ok tt,
       Fs.Make (<[Fs.key path := c +:+ Py.join EmptyString (firstn k chunks)]> files) dirs).
Proof.
  induction chunks as [|x chunks IH]; intros k files dirs c Hc.
  - rewrite !firstn_nil. cbn. rewrite str_app_nil_r, insert_id by exact Hc. reflexivity.
  - destruct k as [|k].
    + cbn. rewrite str_app_nil_r, insert_id by exact Hc. reflexivity.
    + cbn [Wiki.write_steps firstn Wiki.run]. unfold Fs.bind at 1.
      unfold Fs.pwrite at 1. cbn [Fs.files Fs.dirs]. rewrite Hc.
      rewrite splice_at_end.
      replace (String.length c + String.length x)%nat
        with (String.length (c +:+ x)) by apply str_length_app.
      rewrite IH by apply lookup_insert_eq.
      rewrite insert_insert_eq, join_empty_cons, str_app_assoc. reflexivity.
Qed.

Lemma mkdir_files (p : string) (fs : Fs.t) :
  Fs.files (snd (Fs.mkdir p fs)) = Fs.files fs.
Proof.
  unfold Fs.mkdir. destruct (String.eqb p EmptyString); [reflexivity|].
  destruct (Fs.exists_ p fs); [reflexivity|].
  destruct (Fs.isdir (Fs.parent p) fs); reflexivity.
Qed.

Lemma makedirs_files (fuel : nat) :
  forall (name : string) (fs : Fs.t),
    Fs.files (snd (Fs.makedirs_fuel fuel name fs)) = Fs.files fs.
Proof.
  induction fuel as [|fuel IH]; intros name fs; [apply mkdir_files|].
  cbn [Fs.makedirs_fuel].
  destruct (OsPath.split name) as [head tail].
  destruct (if String.eqb tail EmptyString then OsPath.split head else (head, tail))
    as [head' tail'].
  destruct (negb (String.eqb head' EmptyString) && negb (String.eqb tail' EmptyString)
            && negb (Fs.exists_ head' fs)); [|apply mkdir_files].
  specialize (IH head' fs).
  destruct (Fs.makedirs_fuel fuel head' fs) as [[[]|e] fs1]; cbn [snd] in IH.
  - destruct (String.eqb tail' "."); [exact IH|]. rewrite mkdir_files. exact IH.
  - destruct e as [| | | | | | | | |[]|]; try exact IH.
    destruct (String.eqb tail' "."); [exact IH|]. rewrite mkdir_files. exact IH.
Qed.

(** Making the folder of a page makes directories only. *)
Lemma ensure_folder_files (folder : string) (fs : Fs.t) :
  Fs.files (snd (Wiki.ensure_folder folder fs)) = Fs.files fs.
Proof.
  unfold Wiki.ensure_folder. destruct (negb (Fs.exists_ folder fs)); [|reflexivity].
  apply makedirs_files.
Qed.

Lemma write_steps_length (p : string) (l : list string) :
  forall pos, length (Wiki.write_steps p pos l) = length l.
Proof.
  induction l as [|x l IH]; intros pos; [reflexivity|]. cbn. rewrite IH. reflexivity.
Qed.

Lemma path_not_empty (w : Wiki.Wiki) (url : string) :
  String.eqb (Wiki.path w url) EmptyString = false.
Proof.
  apply String.eqb_neq. intros H. apply (f_equal String.length) in H.
  unfold Wiki.path, OsPath.join in H.
  destruct (Py.startswith "/" (url +:+ ".md"));
    [|destruct (String.eqb (Wiki.root w) EmptyString || OsPath.endswith_slash (Wiki.root w))];
    rewrite ?str_length_app in H; simpl in H; lia.
Qed.

Lemma save_stages (w : Wiki.Wiki) (url body : string) (meta : gmap string Wiki.mval)
    (fs fs1 : Fs.t) :
  Wiki.ensure_folder (OsPath.dirname (Wiki.path w url)) fs = (Ok tt, fs1) ->
  Fs.isdir (Fs.parent (Wiki.path w url)) fs1 = true ->
  Fs.isdir (Wiki.path w url) fs1 = false ->
  forall n,
    Wiki.run (firstn (2 + n) (Wiki.save_steps w url body meta)) fs
    = (Ok tt,
       Fs.Make (<[Fs.key (Wiki.path w url) :=
                    Py.join EmptyString (firstn n (Wiki.save_chunks body meta))]>
                  (Fs.files fs))
               (Fs.dirs fs1)).
Proof.
  intros Hfolder Hparent Hnotdir n.
  pose proof (ensure_folder_files (OsPath.dirname (Wiki.path w url)) fs) as Hfiles.
  rewrite Hfolder in Hfiles. cbn [snd] in Hfiles.
  unfold Wiki.save_steps. cbn [plus firstn Wiki.run].
  unfold Fs.bind at 1. rewrite Hfolder.
  unfold Fs.bind at 1. unfold Fs.open_w at 1.
  rewrite path_not_empty, Hnotdir, Hparent.
  change 0%nat with (String.length EmptyString).
  rewrite run_write_steps by apply lookup_insert_eq.
  rewrite insert_insert_eq, str_app_nil_l, Hfiles. reflexivity.
Qed.

Lemma save_completes (w : Wiki.Wiki) (url body : string) (meta : gmap string Wiki.mval)
    (fs fs1 : Fs.t) :
  Wiki.ensure_folder (OsPath.dirname (Wiki.path w url)) fs = (Ok tt, fs1) ->
  Fs.isdir (Fs.parent (Wiki.path w url)) fs1 = true ->
  Fs.isdir (Wiki.path w url) fs1 = false ->
  Wiki.save w url body meta fs
  = (Ok tt,
     Fs.Make (<[Fs.key (Wiki.path w url) := Wiki.encode body meta]> (Fs.files fs))
             (Fs.dirs fs1)).
Proof.
  intros Hfolder Hparent Hnotdir. unfold Wiki.save, Wiki.encode.
  rewrite <- (firstn_all (Wiki.save_chunks body meta)) at 1.
  rewrite <- (save_stages w url body meta fs fs1 Hfolder Hparent Hnotdir).
  f_equal. symmetry. apply firstn_all2.
  unfold Wiki.save_steps. cbn [length plus]. rewrite write_steps_length. lia.
Qed.




(** ** Finding and replacing a separator *)

Lemma find_sep_spec (sep s pre post : string) :
  Py.find_sep sep s = Some (pre, post) -> s = pre +:+ sep +:+ post.
Proof.
  revert pre. induction s as [|c s IH]; intros pre H.
  - cbn [Py.find_sep] in H. destruct (Py.startswith sep EmptyString) eqn:E; [|discriminate].
    injection H as <- <-. apply startswith_spec in E as [t Ht].
    rewrite str_app_nil_l. rewrite Ht at 2. rewrite drop_app_length. exact Ht.
  - cbn [Py.find_sep] in H. destruct (Py.startswith sep (String c s)) eqn:E.
    + injection H as <- <-. apply startswith_spec in E as [t Ht].
      rewrite str_app_nil_l. rewrite Ht at 2. rewrite drop_app_length. exact Ht.
    + destruct (Py.find_sep sep s) as [[a b]|] eqn:F; [|discriminate].
      injection H as <- <-. rewrite str_app_cons. f_equal. apply IH. reflexivity.
Qed.

Lemma find_sep_absent (c : ascii) (sep s : string) :
  Py.contains c s = false -> Py.find_sep (String c sep) s = None.
Proof.
  induction s as [|d s IH]; intros H; [reflexivity|].
  simpl in H. apply orb_false_elim in H as [Hd Hs].
  cbn [Py.find_sep Py.startswith]. rewrite Ascii.eqb_sym, Hd, (IH Hs). reflexivity.
Qed.

Lemma replace_absent (c : ascii) (sep new s : string) :
  Py.contains c s = false -> Py.replace (String c sep) new s = s.
Proof.
  intros H. unfold Py.replace, Py.split.
  destruct (String.length s); cbn [Py.split_fuel];
    rewrite ?(find_sep_absent c sep s H); reflexivity.
Qed.

Lemma join_split_fuel (sep : string) (n : nat) :
  forall s, Py.join sep (Py.split_fuel n sep s) = s.
Proof.
  induction n as [|n IH]; intros s; [reflexivity|].
  cbn [Py.split_fuel]. destruct (Py.find_sep sep s) as [[pre post]|] eqn:F; [|reflexivity].
  specialize (IH post). apply find_sep_spec in F. subst s.
  destruct (Py.split_fuel n sep post) as [|x l] eqn:E.
  - destruct n; cbn in E; [discriminate|].
    destruct (Py.find_sep sep post) as [[? ?]|]; discriminate.
  - rewrite join_cons2, IH. reflexivity.
Qed.

Lemma length_join_le (old new : string) (l : list string) :
  (String.length new <= String.length old)%nat ->
  (String.length (Py.join new l) <= String.length (Py.join old l))%nat.
Proof.
  intros Hle. induction l as [|x [|y l] IH]; [simpl; lia|simpl; lia|].
  rewrite !join_cons2, !str_length_app. lia.
Qed.

Lemma replace_length_le (old new s : string) :
  (String.length new <= String.length old)%nat ->
  (String.length (Py.replace old new s) <= String.length s)%nat.
Proof.
  intros Hle. unfold Py.replace, Py.split.
  rewrite <- (join_split_fuel old (String.length s) s) at 3.
  apply length_join_le, Hle.
Qed.

Lemma universal_newlines_length (s : string) :
  (String.length (Wiki.universal_newlines s) <= String.length s)%nat.
Proof.
  unfold Wiki.universal_newlines.
  etransitivity; [apply replace_length_le; simpl; lia|].
  apply replace_length_le. simpl. lia.
Qed.

(** ** A record without metadata *)

Lemma encode_empty (body : string) :
  Wiki.encode body ∅ = Wiki.NL +:+ Py.replace (Wiki.CR +:+ Wiki.NL) Wiki.NL body.
Proof.
  unfold Wiki.encode, Wiki.save_chunks. rewrite map_to_list_empty.
  cbn [map app]. rewrite !join_empty_cons. cbn [Py.join]. rewrite str_app_nil_r.
  reflexivity.
Qed.

(** Whatever the body, reading back a record saved without metadata
    never yields that body: the text after the first blank line, when
    there is one, is shorter. *)
Lemma empty_metadata_body_lost (body b : string) (m : Markdown.meta) :
  Wiki.out (Wiki.universal_newlines (Wiki.encode body ∅)) = Ok (b, m) ->
  (String.length b < String.length (Py.replace (Wiki.CR +:+ Wiki.NL) Wiki.NL body))%nat.
Proof.
  intros H. unfold Wiki.out, Py.split1 in H.
  destruct (Py.find_sep (Wiki.NL +:+ Wiki.NL) _) as [[pre post]|] eqn:F; [|discriminate].
  destruct (Markdown.Meta _); [|discriminate]. injection H as <- _.
  apply find_sep_spec in F. apply (f_equal String.length) in F.
  pose proof (universal_newlines_length (Wiki.encode body ∅)) as Hlen.
  rewrite F, encode_empty in Hlen. rewrite !str_length_app in Hlen.
  simpl in Hlen. lia.
Qed.

(** C9 at a failing input.  The page [notes/today] is saved with no
    metadata and the body "Hello": the file holds a newline and the
    body, with no blank line that [Processors.out] could split at, and
    loading the page raises [IndexError]. *)
Theorem empty_metadata_page_unreadable :
  Wiki.encode "Hello" ∅ = Wiki.NL +:+ "Hello"
  /\ Wiki.out (Wiki.universal_newlines (Wiki.encode "Hello" ∅)) = Raise IndexError
  /\ (exists fs',
         Wiki.save content_wiki "notes/today" "Hello" ∅ greeting_fs = (Ok tt, fs')
         /\ Fs.files fs' !! "content/notes/today.md" = Some (Wiki.NL +:+ "Hello")
         /\ fst (Wiki.get_page content_wiki "notes/today" fs') = Raise IndexError).
Proof.
  split; [vm_compute; reflexivity|]. split; [vm_compute; reflexivity|].
  eexists. split; [vm_compute; reflexivity|]. split; vm_compute; reflexivity.
Qed.

(** ** Characters of clean keys and values *)


Lemma all_chars_app (f : ascii -> bool) (s t : string) :
  Py.all_chars f (s +:+ t) = Py.all_chars f s && Py.all_chars f t.
Proof.
  induction s as [|c s IH]; [reflexivity|].
  rewrite str_app_cons. simpl. rewrite IH. apply andb_assoc.
Qed.







Lemma rstrip_last (v : string) :
  match Py.last_char v with
  | Some c => Py.is_space c = false
  | None => True
  end -> Py.rstrip v = v.
Proof.
  induction v as [|c v IH]; [reflexivity|].
  cbn [Py.last_char Py.rstrip]. destruct v as [|d v].
  - intros ->. reflexivity.
  - intros H. rewrite (IH H). reflexivity.
Qed.







(** ** The header text seen by the whitespace normaliser *)












(** ** Splitting the normalised text into lines *)

Lemma find_sep_length (sep s pre post : string) :
  Py.find_sep sep s = Some (pre, post) ->
  String.length s = (String.length pre + String.length sep + String.length post)%nat.
Proof.
  intros H. apply find_sep_spec in H. subst s. rewrite !str_length_app. lia.
Qed.

Lemma split_fuel_enough (c : ascii) (sep : string) (n : nat) :
  forall m s, (String.length s <= n)%nat -> (String.length s <= m)%nat ->
    Py.split_fuel n (String c sep) s = Py.split_fuel m (String c sep) s.
Proof.
  induction n as [|n IH]; intros m s Hn Hm.
  - destruct s; [|simpl in Hn; lia]. destruct m; reflexivity.
  - destruct m as [|m].
    + destruct s; [reflexivity|simpl in Hm; lia].
    + cbn [Py.split_fuel].
      destruct (Py.find_sep (String c sep) s) as [[pre post]|] eqn:F; [|reflexivity].
      apply find_sep_length in F. cbn [String.length] in F.
      f_equal. apply IH; lia.
Qed.

Lemma split_line (c : ascii) (line rest : string) :
  Py.contains c line = false ->
  Py.split (String c EmptyString) (line +:+ String c rest)
  = line :: Py.split (String c EmptyString) rest.
Proof.
  intros H. unfold Py.split. rewrite str_length_app. cbn [String.length].
  rewrite Nat.add_succ_r. cbn [Py.split_fuel].
  rewrite (find_sep_char_app c line rest H). f_equal.
  apply split_fuel_enough; lia.
Qed.


(** ** The body and the header read back from a saved page *)












(** ** Saving a page and loading it again *)









(** ** Calls under a lock happen one after the other *)

Section Serial.

Context {S : Type}.
Variable body : nat -> list (Locks.action S).
Variable good : S -> Prop.

(** Every call, run alone from a good state, ends in a good state,
    whether it returns or raises. *)
Hypothesis calls_keep_good :
  forall i s r s', good s -> Locks.run (body i) s = (r, s') -> good s'.

Lemma run_snoc (acts : list (Locks.action S)) (a : Locks.action S) (s s1 : S) :
  Locks.run acts s = (Ok tt, s1) -> Locks.run (acts ++ [a]) s = Locks.run [a] s1.
Proof.
  revert s. induction acts as [|b acts IH]; intros s H.
  - cbn in H. injection H as ->. reflexivity.
  - cbn [app Locks.run] in *. destruct (b s) as [[[]|e] s2]; [apply IH, H|discriminate].
Qed.

Lemma run_raise_at (acts rest : list (Locks.action S)) (a : Locks.action S)
    (s s1 s2 : S) (e : exn) :
  Locks.run acts s = (Ok tt, s1) -> a s1 = (Raise e, s2) ->
  Locks.run (acts ++ a :: rest) s = (Raise e, s2).
Proof.
  revert s. induction acts as [|b acts IH]; intros s H Ha.
  - cbn in H. injection H as ->. cbn. rewrite Ha. reflexivity.
  - cbn [app Locks.run] in *. destruct (b s) as [[[]|e'] s3]; [apply IH; assumption|discriminate].
Qed.

Lemma holder_in_section (st : Locks.system S) (i : nat) :
  Locks.serial body good st ->
  Locks.in_critical_section (Locks.procs st i) -> Locks.lock st = Some i.
Proof.
  intros [Hout _] Hin. destruct (decide (Locks.lock st = Some i)) as [|Hne]; [assumption|].
  destruct (Hout i Hne Hin).
Qed.

Lemma serial_initial (s0 : S) : good s0 -> Locks.serial body good (Locks.initial s0).
Proof. intros H. split; [intros j _ []|exact H]. Qed.

Lemma serial_step (i : nat) (st st' : Locks.system S) :
  Locks.serial body good st -> Locks.step body i st st' -> Locks.serial body good st'.
Proof.
  intros Hser Hstep. pose proof Hser as [Hout Hin].
  destruct Hstep as [st Hw Hfree|st a rest s' Hrun Ha|st a rest e s' Hrun Ha|st Hrun|st e Hf].
  - rewrite Hfree in Hin. split; cbn [Locks.lock Locks.procs Locks.shared].
    + intros j Hj. rewrite fn_lookup_insert_ne by congruence.
      apply Hout. rewrite Hfree. discriminate.
    + exists (Locks.shared st). split; [exact Hin|].
      rewrite fn_lookup_insert. exists []. split; reflexivity.
  - assert (Hlock : Locks.lock st = Some i)
      by (apply holder_in_section; [exact Hser|rewrite Hrun; exact I]).
    rewrite Hlock, Hrun in Hin. destruct Hin as (s_in & Hgood & done & Hbody & Hdone).
    split; cbn [Locks.lock Locks.procs Locks.shared].
    + intros j Hj. rewrite fn_lookup_insert_ne by congruence. apply Hout, Hj.
    + rewrite Hlock. exists s_in. split; [exact Hgood|].
      rewrite fn_lookup_insert. exists (done ++ [a]). split.
      * rewrite Hbody, <- app_assoc. reflexivity.
      * rewrite (run_snoc _ _ _ _ Hdone). cbn. rewrite Ha. reflexivity.
  - assert (Hlock : Locks.lock st = Some i)
      by (apply holder_in_section; [exact Hser|rewrite Hrun; exact I]).
    rewrite Hlock, Hrun in Hin. destruct Hin as (s_in & Hgood & done & Hbody & Hdone).
    split; cbn [Locks.lock Locks.procs Locks.shared].
    + intros j Hj. rewrite fn_lookup_insert_ne by congruence. apply Hout, Hj.
    + rewrite Hlock. exists s_in. split; [exact Hgood|].
      rewrite fn_lookup_insert, Hbody. eapply run_raise_at; eassumption.
  - assert (Hlock : Locks.lock st = Some i)
      by (apply holder_in_section; [exact Hser|rewrite Hrun; exact I]).
    rewrite Hlock, Hrun in Hin. destruct Hin as (s_in & Hgood & done & Hbody & Hdone).
    rewrite app_nil_r in Hbody. subst done.
    split; cbn [Locks.lock Locks.procs Locks.shared].
    + intros j _. destruct (decide (i = j)) as [<-|Hne].
      * rewrite fn_lookup_insert. intros [].
      * rewrite fn_lookup_insert_ne by exact Hne. apply Hout. congruence.
    + eapply calls_keep_good; eassumption.
  - assert (Hlock : Locks.lock st = Some i)
      by (apply holder_in_section; [exact Hser|rewrite Hf; exact I]).
    rewrite Hlock, Hf in Hin. destruct Hin as (s_in & Hgood & Hraise).
    split; cbn [Locks.lock Locks.procs Locks.shared].
    + intros j _. destruct (decide (i = j)) as [<-|Hne].
      * rewrite fn_lookup_insert. intros [].
      * rewrite fn_lookup_insert_ne by exact Hne. apply Hout. congruence.
    + eapply calls_keep_good; eassumption.
Qed.

Lemma serial_preserved (st0 st : Locks.system S) :
  Locks.serial body good st0 -> Locks.reachable body st0 st -> Locks.serial body good st.
Proof.
  intros H0 Hreach. induction Hreach as [|st0 st' st'' i _ IH Hstep]; [exact H0|].
  eapply serial_step; [apply IH, H0|exact Hstep].
Qed.

Lemma serial_reachable (s0 : S) (st : Locks.system S) :
  good s0 -> Locks.reachable body (Locks.initial s0) st -> Locks.serial body good st.
Proof. intros H0. apply serial_preserved, serial_initial, H0. Qed.

End Serial.

(** The executable scheduler makes moves of the step relation only. *)
Lemma move_reachable {S : Type} (body : nat -> list (Locks.action S)) (i : nat)
    (st0 st : Locks.system S) :
  Locks.reachable body st0 st -> Locks.reachable body st0 (Locks.move body i st).
Proof.
  intros H. unfold Locks.move.
  destruct (Locks.procs st i) as [|[|a rest]|e|r] eqn:Hp.
  - destruct (Locks.lock st) eqn:Hl; [exact H|].
    eapply Locks.reach_step; [exact H|]. apply Locks.step_acquire; assumption.
  - eapply Locks.reach_step; [exact H|]. apply Locks.step_return; assumption.
  - destruct (a (Locks.shared st)) as [[[]|e] s'] eqn:Ha.
    + eapply Locks.reach_step; [exact H|]. eapply Locks.step_ok; eassumption.
    + eapply Locks.reach_step; [exact H|]. eapply Locks.step_raise; eassumption.
  - eapply Locks.reach_step; [exact H|]. apply Locks.step_release; assumption.
  - exact H.
Qed.

Lemma exec_reachable {S : Type} (body : nat -> list (Locks.action S)) (schedule : list nat) :
  forall st0 st : Locks.system S,
    Locks.reachable body st0 st -> Locks.reachable body st0 (Locks.exec body schedule st).
Proof.
  induction schedule as [|i schedule IH]; intros st0 st H; [exact H|].
  cbn [Locks.exec fold_left]. apply IH, move_reachable, H.
Qed.

(** ** Saves of the versioned store *)

Lemma run_append {S : Type} (a b : list (Locks.action S)) (s : S) :
  Locks.run (a ++ b) s
  = match Locks.run a s with
    | (Ok tt, s1) => Locks.run b s1
    | (Raise e, s1) => (Raise e, s1)
    end.
Proof.
  revert s. induction a as [|x a IH]; intros s; [reflexivity|].
  cbn [app Locks.run]. destruct (x s) as [[[]|e] s1]; [apply IH|reflexivity].
Qed.

Lemma run_lift {R : Type} (steps : list (Fs.io unit)) (fs : Fs.t) (r : R) :
  Locks.run (map WikiGit.lift steps) (fs, r)
  = (fst (Wiki.run steps fs), (snd (Wiki.run steps fs), r)).
Proof.
  revert fs. induction steps as [|x steps IH]; intros fs; [reflexivity|].
  cbn [map Locks.run Wiki.run]. unfold WikiGit.lift at 1, Fs.bind. cbn [fst snd].
  destruct (x fs) as [[[]|e] fs1]; [apply IH|reflexivity].
Qed.

(** A plain [save] leaves the page file as it was, when it fails before
    it could open the file, or leaves the whole encoded record in it. *)
Lemma save_outcome (w : Wiki.Wiki) (url body : string) (meta : gmap string Wiki.mval)
    (fs : Fs.t) :
  Fs.files (snd (Wiki.save w url body meta fs)) !! Fs.key (Wiki.path w url)
  = Fs.files fs !! Fs.key (Wiki.path w url)
  \/ Fs.files (snd (Wiki.save w url body meta fs)) !! Fs.key (Wiki.path w url)
     = Some (Wiki.encode body meta).
Proof.
  pose proof (ensure_folder_files (OsPath.dirname (Wiki.path w url)) fs) as Hfiles.
  destruct (Wiki.ensure_folder (OsPath.dirname (Wiki.path w url)) fs) as [[[]|e] fs1] eqn:Hfolder;
    cbn [snd] in Hfiles.
  - destruct (Fs.isdir (Wiki.path w url) fs1) eqn:Hnotdir;
      [|destruct (Fs.isdir (Fs.parent (Wiki.path w url)) fs1) eqn:Hparent].
    + left. unfold Wiki.save, Wiki.save_steps. cbn [Wiki.run]. unfold Fs.bind at 1.
      rewrite Hfolder. unfold Fs.bind at 1, Fs.open_w at 1.
      rewrite path_not_empty, Hnotdir.
      cbn [snd]. rewrite Hfiles. reflexivity.
    + right. rewrite (save_completes _ _ _ _ _ _ Hfolder Hparent Hnotdir).
      cbn [snd Fs.files]. apply lookup_insert_eq.
    + left. unfold Wiki.save, Wiki.save_steps. cbn [Wiki.run]. unfold Fs.bind at 1.
      rewrite Hfolder. unfold Fs.bind at 1, Fs.open_w at 1.
      rewrite path_not_empty, Hnotdir, Hparent.
      cbn [snd]. rewrite Hfiles. reflexivity.
  - left. unfold Wiki.save, Wiki.save_steps. cbn [Wiki.run]. unfold Fs.bind at 1.
    rewrite Hfolder. cbn [snd]. rewrite Hfiles. reflexivity.
Qed.

Lemma savers_keep_whole_record {R : Type} (git : WikiGit.Git R) (w : Wiki.Wiki)
    (url : string) (bodies : nat -> string) (metas : nat -> gmap string Wiki.mval)
    (authors : nat -> option string) (before : option string) :
  WikiGit.keeps_working_tree git ->
  forall i s r s',
    WikiGit.whole_record w url bodies metas before s ->
    Locks.run (WikiGit.savers git w url bodies metas authors i) s = (r, s') ->
    WikiGit.whole_record w url bodies metas before s'.
Proof.
  intros [Hadd Hcommit] i [fs repo] r s' Hgood Hrun.
  assert (Hfile : Fs.files (fst s') !! Fs.key (Wiki.path w url)
                  = Fs.files (snd (Wiki.save w url (bodies i) (metas i) fs))
                      !! Fs.key (Wiki.path w url)).
  { unfold WikiGit.savers, WikiGit.save in Hrun.
    rewrite run_append, run_lift in Hrun. fold (Wiki.save w url (bodies i) (metas i)) in Hrun.
    destruct (Wiki.save w url (bodies i) (metas i) fs) as [[[]|e] fs1]; cbn [fst snd] in *.
    - cbn [Locks.run] in Hrun.
      pose proof (Hadd (url +:+ ".md") (fs1, repo)) as H1.
      destruct (WikiGit.add git (url +:+ ".md") (fs1, repo)) as [[[]|e] s1]; cbn [fst snd] in H1.
      + match type of Hrun with context [WikiGit.git_commit git ?m ?a s1] =>
          pose proof (Hcommit m a s1) as H2;
          destruct (WikiGit.git_commit git m a s1) as [[[]|e] s2]
        end; cbn [fst snd] in H2; injection Hrun as _ <-; rewrite H2, H1; reflexivity.
      + injection Hrun as _ <-. rewrite H1. reflexivity.
    - injection Hrun as _ <-. reflexivity. }
  unfold WikiGit.whole_record in *. rewrite Hfile.
  destruct (save_outcome w url (bodies i) (metas i) fs) as [-> | ->].
  - exact Hgood.
  - right. exists i. reflexivity.
Qed.

(** C4.  Any number of processes call the versioned store's [save] for
    one page, each call taking the lock before its first effect and
    giving it back after its last, also when it raised.  In every state
    the system can reach: at most one process is inside its call; a call
    that is over, by a return or by an exception, no longer holds the
    lock; and whenever the lock is free the page file holds what it held
    at the start or the whole encoded record of one of the calls, never
    a mix of the writes of two of them. *)
Theorem locked_saves_never_interleave {R : Type} (git : WikiGit.Git R) (w : Wiki.Wiki)
    (url : string) (bodies : nat -> string) (metas : nat -> gmap string Wiki.mval)
    (authors : nat -> option string) (s0 : Fs.t * R) (st : Locks.system (Fs.t * R)) :
  WikiGit.keeps_working_tree git ->
  Locks.reachable (WikiGit.savers git w url bodies metas authors) (Locks.initial s0) st ->
  (forall i j, Locks.in_critical_section (Locks.procs st i) ->
               Locks.in_critical_section (Locks.procs st j) -> i = j)
  /\ (forall i r, Locks.procs st i = Locks.Done r -> Locks.lock st <> Some i)
  /\ (Locks.lock st = None ->
      WikiGit.whole_record w url bodies metas
        (Fs.files (fst s0) !! Fs.key (Wiki.path w url)) (Locks.shared st)).
Proof.
  intros Hgit Hreach.
  assert (Hser : Locks.serial (WikiGit.savers git w url bodies metas authors)
                   (WikiGit.whole_record w url bodies metas
                      (Fs.files (fst s0) !! Fs.key (Wiki.path w url))) st).
  { eapply serial_reachable; [|left; reflexivity|exact Hreach].
    intros i s r s'. apply savers_keep_whole_record, Hgit. }
  split; [|split].
  - intros i j Hi Hj.
    pose proof (holder_in_section _ _ _ i Hser Hi) as H1.
    pose proof (holder_in_section _ _ _ j Hser Hj) as H2. congruence.
  - intros i r Hdone Hlock. destruct Hser as [_ Hin].
    rewrite Hlock, Hdone in Hin. destruct Hin as (_ & _ & []).
  - intros Hfree. destruct Hser as [_ Hin]. rewrite Hfree in Hin. exact Hin.
Qed.

Lemma silent_git_keeps_tree : WikiGit.keeps_working_tree silent_git.
Proof. split; reflexivity. Qed.

(** Two writers of [home] under contention: when both are done the file
    holds the record of the one that came second, whole. *)
Lemma locked_saves_never_interleave_witness :
  Locks.lock (Locks.exec writers contended_schedule (Locks.initial (greeting_fs, tt))) = None
  /\ WikiGit.whole_record content_wiki "home" writer_body writer_meta
       (Fs.files greeting_fs !! "content/home.md")
       (Locks.shared (Locks.exec writers contended_schedule (Locks.initial (greeting_fs, tt))))
  /\ Fs.files (fst (Locks.shared
                      (Locks.exec writers contended_schedule (Locks.initial (greeting_fs, tt)))))
       !! "content/home.md"
     = Some ("title: Another" +:+ Wiki.NL +:+ Wiki.NL +:+ "Second").
Proof.
  split; [vm_compute; reflexivity|]. split; [|vm_compute; reflexivity].
  apply (locked_saves_never_interleave silent_git content_wiki "home" writer_body
           writer_meta (fun _ => None) (greeting_fs, tt)).
  - exact silent_git_keeps_tree.
  - apply exec_reachable, Locks.reach_refl.
  - vm_compute. reflexivity.
Defined.

(** Without the lock the same two saves, their writes taken in turn,
    leave a file that is neither record. *)
Example unlocked_saves_interleave :
  Fs.files (snd (Wiki.run unlocked_interleaving greeting_fs)) !! "content/home.md"
  = Some ("title: Anot" +:+ Wiki.NL +:+ "FirsSecond").
Proof. vm_compute. reflexivity. Qed.

(** ** Text left by [replace] *)

Lemma all_chars_split_fuel (f : ascii -> bool) (old : string) (n : nat) :
  forall s, Py.all_chars f s = true ->
    Forall (fun x => Py.all_chars f x = true) (Py.split_fuel n old s).
Proof.
  induction n as [|n IH]; intros s Hs; [repeat constructor; exact Hs|].
  cbn [Py.split_fuel]. destruct (Py.find_sep old s) as [[pre post]|] eqn:F.
  - apply find_sep_spec in F. subst s.
    rewrite !all_chars_app in Hs. apply andb_prop in Hs as [Hpre Hs].
    apply andb_prop in Hs as [_ Hpost]. constructor; [exact Hpre|apply IH, Hpost].
  - repeat constructor. exact Hs.
Qed.

Lemma all_chars_join (f : ascii -> bool) (sep : string) (l : list string) :
  Py.all_chars f sep = true ->
  Forall (fun x => Py.all_chars f x = true) l ->
  Py.all_chars f (Py.join sep l) = true.
Proof.
  intros Hsep H. induction H as [|x l Hx Hl IH]; [reflexivity|].
  destruct l as [|y l]; [exact Hx|].
  rewrite join_cons2, !all_chars_app, Hx, Hsep, IH. reflexivity.
Qed.

Lemma all_chars_replace (f : ascii -> bool) (old new s : string) :
  Py.all_chars f s = true -> Py.all_chars f new = true ->
  Py.all_chars f (Py.replace old new s) = true.
Proof.
  intros Hs Hnew. unfold Py.replace, Py.split.
  apply all_chars_join; [exact Hnew|]. apply all_chars_split_fuel, Hs.
Qed.

Lemma lacks_all_chars (c : ascii) (s : string) :
  Py.contains c s = false <-> Py.all_chars (fun x => negb (Ascii.eqb x c)) s = true.
Proof.
  induction s as [|d s IH]; [split; reflexivity|].
  cbn [Py.contains Py.all_chars]. rewrite orb_false_iff, andb_true_iff, negb_true_iff, IH.
  reflexivity.
Qed.

Lemma lacks_replace (c : ascii) (old new s : string) :
  Py.contains c s = false -> Py.contains c new = false ->
  Py.contains c (Py.replace old new s) = false.
Proof.
  rewrite !lacks_all_chars. apply all_chars_replace.
Qed.

Lemma find_sep_char_found (c : ascii) (s pre post : string) :
  Py.find_sep (String c EmptyString) s = Some (pre, post) -> Py.contains c pre = false.
Proof.
  revert pre. induction s as [|d s IH]; intros pre H.
  - cbn in H. discriminate H.
  - cbn [Py.find_sep Py.startswith] in H. destruct (Ascii.eqb c d) eqn:E.
    + injection H as <- <-. reflexivity.
    + destruct (Py.find_sep (String c EmptyString) s) as [[a b]|] eqn:F; [|discriminate H].
      injection H as <- <-. cbn [Py.contains]. rewrite Ascii.eqb_sym, E. apply (IH a). reflexivity.
Qed.

Lemma find_sep_char_missing (c : ascii) (s : string) :
  Py.find_sep (String c EmptyString) s = None -> Py.contains c s = false.
Proof.
  induction s as [|d s IH]; intros H; [reflexivity|].
  cbn [Py.find_sep Py.startswith] in H. destruct (Ascii.eqb c d) eqn:E; [discriminate H|].
  destruct (Py.find_sep (String c EmptyString) s) as [[a b]|] eqn:F; [discriminate H|].
  cbn [Py.contains]. rewrite Ascii.eqb_sym, E. apply IH. reflexivity.
Qed.

Lemma split_char_pieces (c : ascii) (n : nat) :
  forall s, (String.length s <= n)%nat ->
    Forall (fun x => Py.contains c x = false) (Py.split_fuel n (String c EmptyString) s).
Proof.
  induction n as [|n IH]; intros s Hn.
  - destruct s; [|simpl in Hn; lia]. repeat constructor.
  - cbn [Py.split_fuel].
    destruct (Py.find_sep (String c EmptyString) s) as [[pre post]|] eqn:F.
    + constructor; [apply (find_sep_char_found c s pre post F)|].
      apply IH. apply find_sep_length in F. cbn [String.length] in F. lia.
    + repeat constructor. apply find_sep_char_missing, F.
Qed.

Lemma lacks_join (c : ascii) (sep : string) (l : list string) :
  Py.contains c sep = false ->
  Forall (fun x => Py.contains c x = false) l ->
  Py.contains c (Py.join sep l) = false.
Proof.
  intros Hsep H. apply lacks_all_chars. apply all_chars_join.
  - apply lacks_all_chars, Hsep.
  - eapply Forall_impl; [exact H|]. intros x Hx. apply lacks_all_chars, Hx.
Qed.

(** Replacing every occurrence of a character leaves none behind. *)
Lemma replace_char_gone (c : ascii) (new s : string) :
  Py.contains c new = false ->
  Py.contains c (Py.replace (String c EmptyString) new s) = false.
Proof.
  intros Hnew. unfold Py.replace, Py.split.
  apply lacks_join; [exact Hnew|]. apply split_char_pieces. lia.
Qed.

(** ** The ends of a text *)

Lemma last_char_app (s t : string) :
  t <> EmptyString -> Py.last_char (s +:+ t) = Py.last_char t.
Proof.
  intros Ht. induction s as [|c s IH]; [reflexivity|].
  rewrite str_app_cons. cbn [Py.last_char]. rewrite IH.
  destruct (s +:+ t) eqn:E; [|reflexivity].
  destruct s; [|discriminate E]. rewrite str_app_nil_l in E. contradiction.
Qed.

Lemma lstrip_first (s : string) :
  match Py.lstrip s with
  | String c _ => Py.is_space c = false
  | EmptyString => True
  end.
Proof.
  induction s as [|c s IH]; [exact I|].
  cbn [Py.lstrip]. destruct (Py.is_space c) eqn:E; [exact IH|exact E].
Qed.

Lemma rstrip_first (s : string) :
  match s with String c _ => Py.is_space c = false | EmptyString => True end ->
  match Py.rstrip s with String c _ => Py.is_space c = false | EmptyString => True end.
Proof.
  destruct s as [|c s]; [intros _; exact I|]. intros H. cbn [Py.rstrip].
  destruct (Py.rstrip s); [rewrite H|]; exact H.
Qed.

Lemma rstrip_ends (s : string) :
  match Py.last_char (Py.rstrip s) with
  | Some c => Py.is_space c = false
  | None => True
  end.
Proof.
  induction s as [|c s IH]; [exact I|].
  cbn [Py.rstrip]. destruct (Py.rstrip s) as [|d r] eqn:E.
  - destruct (Py.is_space c) eqn:Ec; [exact I|exact Ec].
  - cbn [Py.last_char]. exact IH.
Qed.

Lemma lstrip_id (s : string) :
  match s with String c _ => Py.is_space c = false | EmptyString => True end ->
  Py.lstrip s = s.
Proof. destruct s as [|c s]; [reflexivity|]. intros H. cbn [Py.lstrip]. rewrite H. reflexivity. Qed.

Lemma strip_id (s : string) :
  match s with String c _ => Py.is_space c = false | EmptyString => True end ->
  match Py.last_char s with Some c => Py.is_space c = false | None => True end ->
  Py.strip s = s.
Proof.
  intros H1 H2. unfold Py.strip. rewrite (lstrip_id s H1). apply rstrip_last, H2.
Qed.

Lemma strip_ends (s : string) :
  match Py.strip s with String c _ => Py.is_space c = false | EmptyString => True end
  /\ match Py.last_char (Py.strip s) with Some c => Py.is_space c = false | None => True end.
Proof.
  unfold Py.strip. split; [apply rstrip_first, lstrip_first|apply rstrip_ends].
Qed.

Lemma lower_char_space (c : ascii) : Py.is_space (Py.lower_char c) = Py.is_space c.
Proof. destruct c as [[] [] [] [] [] [] [] []]; reflexivity. Qed.

Lemma lower_char_idem (c : ascii) : Py.lower_char (Py.lower_char c) = Py.lower_char c.
Proof. destruct c as [[] [] [] [] [] [] [] []]; reflexivity. Qed.

Lemma last_char_lower (s : string) :
  Py.last_char (Py.lower s) = Py.lower_char <$> Py.last_char s.
Proof.
  induction s as [|c s IH]; [reflexivity|].
  cbn [Py.lower Py.last_char]. destruct s as [|d s]; [reflexivity|]. exact IH.
Qed.

Lemma lower_lowered (s : string) :
  Py.all_chars (fun c => Ascii.eqb (Py.lower_char c) c) (Py.lower s) = true.
Proof.
  induction s as [|c s IH]; [reflexivity|].
  cbn [Py.lower Py.all_chars]. rewrite lower_char_idem, Ascii.eqb_refl. exact IH.
Qed.

Lemma lower_fixed (s : string) :
  Py.all_chars (fun c => Ascii.eqb (Py.lower_char c) c) s = true -> Py.lower s = s.
Proof.
  induction s as [|c s IH]; [reflexivity|]. cbn [Py.all_chars Py.lower].
  intros H. apply andb_prop in H as [Hc Hs]. apply Ascii.eqb_eq in Hc.
  rewrite Hc, (IH Hs). reflexivity.
Qed.

(** [replace] keeps the ends of a text free of white space when what
    it puts in has none at its own ends. *)
Lemma split_fuel_first (old : string) (n : nat) (s : string) :
  old <> EmptyString ->
  match s with String c _ => Py.is_space c = false | EmptyString => True end ->
  forall new, match new with String c _ => Py.is_space c = false | EmptyString => False end ->
  match Py.join new (Py.split_fuel n old s) with
  | String c _ => Py.is_space c = false
  | EmptyString => True
  end.
Proof.
  intros Hold Hs new Hnew. destruct n as [|n]; [exact Hs|].
  cbn [Py.split_fuel]. destruct (Py.find_sep old s) as [[pre post]|] eqn:F; [|exact Hs].
  apply find_sep_spec in F. subst s.
  destruct (Py.split_fuel n old post) as [|x l] eqn:E.
  - destruct n; cbn in E; [discriminate|].
    destruct (Py.find_sep old post) as [[? ?]|]; discriminate.
  - rewrite join_cons2. destruct pre as [|c pre].
    + rewrite str_app_nil_l. destruct new as [|d new]; [contradiction|].
      rewrite str_app_cons. exact Hnew.
    + rewrite str_app_cons. rewrite str_app_cons in Hs. exact Hs.
Qed.

Lemma join_split_fuel_nonempty (old new : string) (n : nat) (s : string) :
  new <> EmptyString -> s <> EmptyString ->
  Py.join new (Py.split_fuel n old s) <> EmptyString.
Proof.
  intros Hnew Hs. destruct n as [|n]; [exact Hs|].
  cbn [Py.split_fuel]. destruct (Py.find_sep old s) as [[pre post]|] eqn:F; [|exact Hs].
  destruct (Py.split_fuel n old post) as [|x l] eqn:E.
  - destruct n; cbn in E; [discriminate|].
    destruct (Py.find_sep old post) as [[? ?]|]; discriminate.
  - rewrite join_cons2. intros H. apply (f_equal String.length) in H.
    rewrite !str_length_app in H. destruct new; [contradiction|]. simpl in H. lia.
Qed.

Lemma split_fuel_last (old new : string) (n : nat) :
  old <> EmptyString ->
  match Py.last_char new with Some c => Py.is_space c = false | None => False end ->
  forall s,
    match Py.last_char s with Some c => Py.is_space c = false | None => True end ->
    match Py.last_char (Py.join new (Py.split_fuel n old s)) with
    | Some c => Py.is_space c = false
    | None => True
    end.
Proof.
  intros Hold Hnew. induction n as [|n IH]; intros s Hs; [exact Hs|].
  cbn [Py.split_fuel]. destruct (Py.find_sep old s) as [[pre post]|] eqn:F; [|exact Hs].
  apply find_sep_spec in F. subst s.
  assert (Hnew' : new <> EmptyString) by (intros ->; exact Hnew).
  destruct (Py.split_fuel n old post) as [|x l] eqn:E.
  - destruct n; cbn in E; [discriminate|].
    destruct (Py.find_sep old post) as [[? ?]|]; discriminate.
  - rewrite join_cons2. destruct post as [|c post].
    + assert (x :: l = [EmptyString]) as Hxl.
      { rewrite <- E. destruct n; [reflexivity|]. cbn [Py.split_fuel].
        destruct old as [|o old]; [contradiction|]. reflexivity. }
      injection Hxl as -> ->. cbn [Py.join]. rewrite str_app_nil_r.
      rewrite last_char_app by exact Hnew'.
      destruct (Py.last_char new); [exact Hnew|contradiction].
    + specialize (IH (String c post)). rewrite E in IH.
      rewrite <- str_app_assoc, last_char_app.
      * apply IH. rewrite <- str_app_assoc, last_char_app in Hs by discriminate. exact Hs.
      * rewrite <- E. apply join_split_fuel_nonempty; [exact Hnew'|discriminate].
Qed.

Lemma replace_ends (old new s : string) :
  old <> EmptyString ->
  match new with String c _ => Py.is_space c = false | EmptyString => False end ->
  match Py.last_char new with Some c => Py.is_space c = false | None => False end ->
  match s with String c _ => Py.is_space c = false | EmptyString => True end ->
  match Py.last_char s with Some c => Py.is_space c = false | None => True end ->
  match Py.replace old new s with String c _ => Py.is_space c = false | EmptyString => True end
  /\ match Py.last_char (Py.replace old new s) with
     | Some c => Py.is_space c = false
     | None => True
     end.
Proof.
  intros Hold Hn1 Hn2 Hs1 Hs2. unfold Py.replace, Py.split. split.
  - apply split_fuel_first; assumption.
  - apply split_fuel_last; assumption.
Qed.

Lemma lower_ends (s : string) :
  match s with String c _ => Py.is_space c = false | EmptyString => True end ->
  match Py.last_char s with Some c => Py.is_space c = false | None => True end ->
  match Py.lower s with String c _ => Py.is_space c = false | EmptyString => True end
  /\ match Py.last_char (Py.lower s) with
     | Some c => Py.is_space c = false
     | None => True
     end.
Proof.
  intros H1 H2. split.
  - destruct s as [|c s]; [exact I|]. cbn [Py.lower]. rewrite lower_char_space. exact H1.
  - rewrite last_char_lower. destruct (Py.last_char s) as [c|]; [|exact I].
    cbn. rewrite lower_char_space. exact H2.
Qed.

(** ** [clean_url] *)

Lemma collapse_spaces_absent (s : string) :
  Py.contains " " s = false -> Processors.collapse_spaces s = s.
Proof.
  induction s as [|c s IH]; [reflexivity|]. cbn [Py.contains]. intros H.
  apply orb_false_elim in H as [Hc Hs]. cbn [Processors.collapse_spaces].
  rewrite (IH Hs).
  destruct c as [[] [] [] [] [] [] [] []]; try reflexivity. discriminate Hc.
Qed.

Lemma clean_url_facts (url : string) :
  Py.contains " " (Processors.clean_url url) = false
  /\ Py.contains "\" (Processors.clean_url url) = false
  /\ Py.lower (Processors.clean_url url) = Processors.clean_url url
  /\ Py.strip (Processors.clean_url url) = Processors.clean_url url.
Proof.
  unfold Processors.clean_url.
  set (t := Py.strip (Processors.collapse_spaces url)).
  destruct (strip_ends (Processors.collapse_spaces url)) as [Ht1 Ht2]. fold t in Ht1, Ht2.
  destruct (lower_ends t Ht1 Ht2) as [Hl1 Hl2].
  destruct (replace_ends " " "_" (Py.lower t)) as [Ha1 Ha2];
    [discriminate|reflexivity|reflexivity|exact Hl1|exact Hl2|].
  destruct (replace_ends "\\" "/" (Py.replace " " "_" (Py.lower t))) as [Hb1 Hb2];
    [discriminate|reflexivity|reflexivity|exact Ha1|exact Ha2|].
  destruct (replace_ends "\" "/" (Py.replace "\\" "/" (Py.replace " " "_" (Py.lower t))))
    as [Hc1 Hc2]; [discriminate|reflexivity|reflexivity|exact Hb1|exact Hb2|].
  split; [|split; [|split]].
  - apply lacks_replace; [|reflexivity]. apply lacks_replace; [|reflexivity].
    apply replace_char_gone. reflexivity.
  - apply replace_char_gone. reflexivity.
  - apply lower_fixed. repeat (apply all_chars_replace; [|reflexivity]).
    apply lower_lowered.
  - apply strip_id; assumption.
Qed.

Lemma clean_url_fixed (r : string) :
  Py.contains " " r = false -> Py.contains "\" r = false ->
  Py.lower r = r -> Py.strip r = r -> Processors.clean_url r = r.
Proof.
  intros Hsp Hbs Hlow Hstrip. unfold Processors.clean_url.
  rewrite (collapse_spaces_absent r Hsp), Hstrip, Hlow.
  rewrite (replace_absent " " EmptyString "_" r Hsp).
  rewrite (replace_absent "\" "\" "/" r Hbs).
  apply (replace_absent "\" EmptyString "/" r Hbs).
Qed.

(** X1.  Whatever address is typed, [clean_url] returns one that
    holds no space, no backslash and no capital letter, and that
    neither begins nor ends with white space. *)
Theorem clean_url_shape (url : string) :
  Py.contains " " (Processors.clean_url url) = false
  /\ Py.contains "\" (Processors.clean_url url) = false
  /\ Py.lower (Processors.clean_url url) = Processors.clean_url url
  /\ Py.strip (Processors.clean_url url) = Processors.clean_url url.
Proof. apply clean_url_facts. Qed.

(** X2.  Cleaning an address that is already clean changes nothing:
    [clean_url] applied twice is [clean_url] applied once. *)
Theorem clean_url_idempotent (url : string) :
  Processors.clean_url (Processors.clean_url url) = Processors.clean_url url.
Proof.
  destruct (clean_url_facts url) as (H1 & H2 & H3 & H4).
  apply clean_url_fixed; assumption.
Qed.

(** ** [load] reads every line end as a newline *)



(** ** Paths made of plain names *)

Lemma simple_name_first (x : string) :
  Wiki.simple_name x = true -> exists c r, x = String c r /\ Ascii.eqb c "/" = false.
Proof.
  intros H. destruct (simple_name_facts x H) as (Hne & Hslash & _).
  destruct x as [|c r]; [discriminate Hne|]. exists c, r. split; [reflexivity|].
  cbn [Py.contains] in Hslash. apply orb_false_elim in Hslash as [Hc _]. exact Hc.
Qed.

Lemma simple_md (x : string) :
  Wiki.simple_name x = true -> Wiki.simple_name (x +:+ ".md") = true.
Proof.
  intros H. destruct (simple_name_facts x H) as (_ & Hslash & _).
  destruct (md_name_facts x) as (H1 & H2 & H3).
  unfold Wiki.simple_name. rewrite H1, H2, H3, contains_app, Hslash. reflexivity.
Qed.

Lemma join_comps_first (x : string) (l : list string) :
  Wiki.simple_name x = true ->
  exists c r, Py.join "/" (x :: l) = String c r /\ Ascii.eqb c "/" = false.
Proof.
  intros H. destruct (simple_name_first x H) as (c & r & -> & Hc).
  destruct l as [|y l].
  - exists c, r. split; [reflexivity|exact Hc].
  - rewrite join_cons2, str_app_cons. eexists c, _. split; [reflexivity|exact Hc].
Qed.

Lemma fold_norm_step (l : list string) :
  Forall (fun x => Wiki.simple_name x = true) l ->
  forall acc, fold_left (OsPath.norm_step false) l acc = (acc ++ l)%list.
Proof.
  induction 1 as [|x l Hx Hl IH]; intros acc; [rewrite app_nil_r; reflexivity|].
  destruct (simple_name_facts x Hx) as (H1 & _ & H2 & H3).
  cbn [fold_left]. rewrite (norm_step_push false acc x H1 H2 H3), IH, <- app_assoc.
  reflexivity.
Qed.

Lemma simple_names_no_slash (l : list string) :
  Forall (fun x => Wiki.simple_name x = true) l ->
  Forall (fun x => Py.contains "/" x = false) l.
Proof.
  intros H. eapply Forall_impl; [exact H|].
  intros x Hx. apply (simple_name_facts x Hx).
Qed.

(** A relative path made of plain names is its own normal form. *)
Lemma normpath_comps (x : string) (l : list string) :
  Forall (fun x => Wiki.simple_name x = true) (x :: l) ->
  OsPath.normpath (Py.join "/" (x :: l)) = Py.join "/" (x :: l).
Proof.
  intros H. pose proof (Forall_inv H) as Hx.
  destruct (join_comps_first x l Hx) as (c & r & E & Hc).
  unfold OsPath.normpath.
  assert (String.eqb (Py.join "/" (x :: l)) EmptyString = false) as Hne
    by (rewrite E; reflexivity).
  assert (Py.startswith "/" (Py.join "/" (x :: l)) = false) as Hst.
  { rewrite E. cbn [Py.startswith]. rewrite Ascii.eqb_sym, Hc. reflexivity. }
  rewrite Hne, Hst. rewrite split_join_char by (apply simple_names_no_slash, H).
  cbn [Nat.eqb negb]. rewrite (fold_norm_step _ H []). cbn [app repeat Py.str string_of_list_ascii].
  rewrite str_app_nil_l, Hne. reflexivity.
Qed.

(** Going up from a plain directory and down again through plain
    names. *)
Lemma normpath_up_down (r x : string) (l : list string) :
  Wiki.simple_name r = true ->
  Forall (fun x => Wiki.simple_name x = true) (x :: l) ->
  OsPath.normpath (Py.join "/" (r :: ".."%string :: x :: l)) = Py.join "/" (x :: l).
Proof.
  intros Hr H. pose proof (Forall_inv H) as Hx.
  destruct (simple_name_facts r Hr) as (Hr1 & Hr2 & Hr3 & Hr4).
  destruct (join_comps_first r (".."%string :: x :: l) Hr) as (c & t & E & Hc).
  destruct (join_comps_first x l Hx) as (c' & t' & E' & Hc').
  unfold OsPath.normpath.
  assert (String.eqb (Py.join "/" (r :: ".."%string :: x :: l)) EmptyString = false) as Hne
    by (rewrite E; reflexivity).
  assert (Py.startswith "/" (Py.join "/" (r :: ".."%string :: x :: l)) = false) as Hst.
  { rewrite E. cbn [Py.startswith]. rewrite Ascii.eqb_sym, Hc. reflexivity. }
  rewrite Hne, Hst. rewrite split_join_char.
  - cbn [Nat.eqb negb fold_left].
    rewrite (norm_step_push false [] r Hr1 Hr3 Hr4). cbn [app].
    rewrite (norm_step_pop r Hr4).
    destruct (simple_name_facts x Hx) as (Hx1 & _ & Hx3 & Hx4).
    rewrite (norm_step_push false [] x Hx1 Hx3 Hx4).
    rewrite (fold_norm_step _ (Forall_inv_tail H)).
    cbn [app repeat Py.str string_of_list_ascii]. rewrite str_app_nil_l, E'. reflexivity.
  - constructor; [exact Hr2|]. constructor; [reflexivity|]. apply simple_names_no_slash, H.
Qed.

Lemma normpath_up (r : string) :
  Wiki.simple_name r = true -> OsPath.normpath (r +:+ "/..") = "."%string.
Proof.
  intros Hr. destruct (simple_name_facts r Hr) as (Hr1 & Hr2 & Hr3 & Hr4).
  destruct (join_comps_first r [".."%string] Hr) as (c & t & E & Hc).
  change (r +:+ "/..") with (Py.join "/" [r; ".."%string]).
  unfold OsPath.normpath.
  assert (String.eqb (Py.join "/" [r; ".."%string]) EmptyString = false) as Hne
    by (rewrite E; reflexivity).
  assert (Py.startswith "/" (Py.join "/" [r; ".."%string]) = false) as Hst.
  { rewrite E. cbn [Py.startswith]. rewrite Ascii.eqb_sym, Hc. reflexivity. }
  rewrite Hne, Hst. rewrite split_join_char.
  - cbn [Nat.eqb negb fold_left].
    rewrite (norm_step_push false [] r Hr1 Hr3 Hr4). cbn [app].
    rewrite (norm_step_pop r Hr4). reflexivity.
  - constructor; [exact Hr2|]. constructor; [reflexivity|constructor].
Qed.

Lemma rfind_slash_none (x : string) :
  Py.contains "/" x = false -> OsPath.rfind_slash_succ x = 0%nat.
Proof.
  induction x as [|c x IH]; [reflexivity|]. cbn [Py.contains]. intros H.
  apply orb_false_elim in H as [Hc Hx]. cbn [OsPath.rfind_slash_succ].
  rewrite (IH Hx), Hc. reflexivity.
Qed.

Lemma rfind_slash_app (d x : string) :
  Py.contains "/" x = false ->
  OsPath.rfind_slash_succ (d +:+ "/" +:+ x) = S (String.length d).
Proof.
  intros Hx. induction d as [|c d IH].
  - rewrite str_app_nil_l. change ("/" +:+ x) with (String "/" x).
    cbn [OsPath.rfind_slash_succ]. rewrite (rfind_slash_none x Hx). reflexivity.
  - rewrite str_app_cons. cbn [OsPath.rfind_slash_succ String.length]. rewrite IH. reflexivity.
Qed.

Lemma all_slashes_app (d t : string) :
  OsPath.all_slashes (d +:+ t) = OsPath.all_slashes d && OsPath.all_slashes t.
Proof.
  induction d as [|c d IH]; [reflexivity|]. rewrite str_app_cons.
  cbn [OsPath.all_slashes]. rewrite IH, andb_assoc. reflexivity.
Qed.

Lemma rstrip_slash_end (d : string) :
  match Py.last_char d with Some c => Ascii.eqb c "/" = false | None => False end ->
  OsPath.rstrip_slash (d +:+ "/") = d /\ OsPath.all_slashes d = false.
Proof.
  induction d as [|c d IH]; [contradiction|]. intros H. rewrite str_app_cons.
  cbn [OsPath.rstrip_slash OsPath.all_slashes]. destruct d as [|e d].
  - cbn [Py.last_char] in H. rewrite str_app_nil_l. cbn. rewrite H. split; reflexivity.
  - cbn [Py.last_char] in H. destruct (IH H) as [-> ->]. rewrite andb_false_r.
    split; reflexivity.
Qed.

(** [os.path.split] of a path that ends with a plain name. *)
Lemma split_child (d x : string) :
  match Py.last_char d with Some c => Ascii.eqb c "/" = false | None => False end ->
  Py.contains "/" x = false ->
  OsPath.split (d +:+ "/" +:+ x) = (d, x).
Proof.
  intros Hd Hx. unfold OsPath.split. rewrite (rfind_slash_app d x Hx).
  assert (Hlen : S (String.length d) = String.length (d +:+ "/")).
  { rewrite str_length_app. simpl. lia. }
  rewrite Hlen, <- str_app_assoc, take_app_length, drop_app_length.
  destruct (rstrip_slash_end d Hd) as [Hr Ha].
  rewrite all_slashes_app, Ha, Hr. cbn [andb negb].
  destruct (d +:+ "/") eqn:E; [|reflexivity].
  destruct d; discriminate E.
Qed.

Lemma split_bare (x : string) :
  Py.contains "/" x = false -> OsPath.split x = (EmptyString, x).
Proof.
  intros Hx. unfold OsPath.split. rewrite (rfind_slash_none x Hx). reflexivity.
Qed.

Lemma simple_last (x : string) :
  Wiki.simple_name x = true ->
  match Py.last_char x with Some c => Ascii.eqb c "/" = false | None => False end.
Proof.
  intros H. destruct (simple_name_facts x H) as (Hne & Hslash & _).
  pose proof (last_char_lacks "/" x Hslash) as Hl.
  destruct x as [|c x]; [discriminate Hne|].
  destruct (Py.last_char (String c x)) as [e|] eqn:E.
  - destruct (Ascii.eqb_spec e "/") as [->|]; [contradiction|reflexivity].
  - clear -E. revert c E. induction x as [|d x IH]; intros c E; [discriminate E|].
    cbn [Py.last_char] in E. apply (IH d). exact E.
Qed.

Lemma last_char_child (d x : string) :
  Wiki.simple_name x = true ->
  match Py.last_char (d +:+ "/" +:+ x) with
  | Some c => Ascii.eqb c "/" = false
  | None => False
  end.
Proof.
  intros Hx. destruct (simple_name_facts x Hx) as (Hne & _).
  rewrite <- str_app_assoc, last_char_app.
  - apply simple_last, Hx.
  - intros ->. discriminate Hne.
Qed.

(** ** Removing a page *)

Lemma isfile_path (w : Wiki.Wiki) (url : string) (fs : Fs.t) :
  Fs.isfile (Wiki.path w url) fs
  = bool_decide (is_Some (Fs.files fs !! Fs.key (Wiki.path w url))).
Proof. unfold Fs.isfile. rewrite path_not_empty. reflexivity. Qed.

(** X4.  [delete] of a page that is not there returns [False] and
    changes nothing.  [delete] of a page whose file is there returns
    [True] and removes that file and nothing else; afterwards the page
    does not exist: a second [delete] returns [False], [get] returns
    [None] and [get_bare] a blank page.  When the page's path is a
    directory and no file, [delete] raises [OSError] and changes
    nothing. *)
Theorem delete_removes_page (w : Wiki.Wiki) (url : string) (fs : Fs.t) :
  (Wiki.exists_ w url fs = false -> Wiki.delete w url fs = (Ok false, fs))
  /\ (forall c, Fs.files fs !! Fs.key (Wiki.path w url) = Some c ->
      exists fs',
        Wiki.delete w url fs = (Ok true, fs')
        /\ Fs.files fs' = delete (Fs.key (Wiki.path w url)) (Fs.files fs)
        /\ Fs.dirs fs' = Fs.dirs fs
        /\ (Fs.isdir (Wiki.path w url) fs = false ->
            Wiki.exists_ w url fs' = false
            /\ Wiki.delete w url fs' = (Ok false, fs')
            /\ WikiIndex.get w url fs' = (Ok None, fs')
            /\ WikiIndex.get_bare w url fs' = Some (Wiki.new_page url EmptyString)))
  /\ (Fs.files fs !! Fs.key (Wiki.path w url) = None ->
      Fs.isdir (Wiki.path w url) fs = true ->
      exists code, Wiki.delete w url fs = (Raise (OSError code), fs)).
Proof.
  split; [|split].
  - intros H. unfold Wiki.delete. rewrite H. reflexivity.
  - intros c Hc.
    assert (Hex : Wiki.exists_ w url fs = true).
    { unfold Wiki.exists_, Fs.exists_. rewrite isfile_path, Hc.
      rewrite bool_decide_eq_true_2 by (eexists; reflexivity). reflexivity. }
    exists (Fs.Make (delete (Fs.key (Wiki.path w url)) (Fs.files fs)) (Fs.dirs fs)).
    split; [|split; [reflexivity|split; [reflexivity|]]].
    + unfold Wiki.delete. rewrite Hex. cbn [negb]. unfold Fs.bind, Fs.remove. rewrite Hc.
      reflexivity.
    + intros Hdir.
      assert (Hex' : Wiki.exists_ w url
                       (Fs.Make (delete (Fs.key (Wiki.path w url)) (Fs.files fs)) (Fs.dirs fs))
                     = false).
      { unfold Wiki.exists_, Fs.exists_. rewrite isfile_path. cbn [Fs.files].
        rewrite lookup_delete_eq. rewrite bool_decide_eq_false_2 by (intros [? ?]; discriminate).
        exact Hdir. }
      split; [exact Hex'|]. split; [|split].
      * unfold Wiki.delete. rewrite Hex'. reflexivity.
      * unfold WikiIndex.get. rewrite Hex'. reflexivity.
      * unfold WikiIndex.get_bare. rewrite Hex'. reflexivity.
  - intros Hnone Hdir. exists EISDIR.
    unfold Wiki.delete, Wiki.exists_, Fs.exists_. rewrite Hdir, orb_true_r.
    cbn [negb]. unfold Fs.bind, Fs.remove. rewrite Hnone, Hdir. reflexivity.
Qed.

Lemma delete_removes_page_witness :
  exists fs',
    Wiki.delete content_wiki "home" greeting_fs = (Ok true, fs')
    /\ Fs.files fs' = delete (Fs.key (Wiki.path content_wiki "home")) (Fs.files greeting_fs)
    /\ Wiki.delete content_wiki "home" fs' = (Ok false, fs')
    /\ Wiki.delete content_wiki "away" greeting_fs = (Ok false, greeting_fs).
Proof.
  destruct (proj1 (proj2 (delete_removes_page content_wiki "home" greeting_fs))
              ("title: Home" +:+ Wiki.NL +:+ Wiki.NL +:+ "Hello") eq_refl)
    as (fs' & Hdel & Hfiles & _ & Hrest).
  destruct (Hrest eq_refl) as (_ & Hagain & _).
  exists fs'. split; [exact Hdel|]. split; [exact Hfiles|]. split; [exact Hagain|].
  apply (proj1 (delete_removes_page content_wiki "away" greeting_fs)). reflexivity.
Defined.

(** ** Renaming a page *)

Lemma move_passes (w : Wiki.Wiki) (url newurl : string) (fs fs1 : Fs.t) :
  Py.startswith (OsPath.normpath (Wiki.root w))
    (OsPath.normpath (OsPath.join (Wiki.root w) newurl +:+ ".md")) = true ->
  Wiki.ensure_folder (OsPath.dirname (OsPath.join (Wiki.root w) newurl +:+ ".md")) fs
  = (Ok tt, fs1) ->
  Wiki.move w url newurl fs
  = Fs.rename (OsPath.join (Wiki.root w) url +:+ ".md")
      (OsPath.join (Wiki.root w) newurl +:+ ".md") fs1
  /\ Fs.files fs1 = Fs.files fs.
Proof.
  intros Hcheck Hfolder. split.
  - unfold Wiki.move. rewrite commonprefix_short, Hcheck. cbn [negb].
    unfold Fs.bind. rewrite Hfolder. reflexivity.
  - pose proof (ensure_folder_files
                  (OsPath.dirname (OsPath.join (Wiki.root w) newurl +:+ ".md")) fs) as H.
    rewrite Hfolder in H. exact H.
Qed.

(** X5.  When the destination passes the check on the content root and
    its folder is there or has been made, [move] renames the file: the
    text of the page is then found under the new address and no longer
    under the old one, and every other file is as before.  When
    nothing is found at the path of the page to move, [move] raises
    [OSError] only after the folder of the destination has been made,
    and the folder stays. *)
Theorem move_renames_page (w : Wiki.Wiki) (url newurl : string) (fs fs1 : Fs.t) :
  Py.startswith (OsPath.normpath (Wiki.root w))
    (OsPath.normpath (OsPath.join (Wiki.root w) newurl +:+ ".md")) = true ->
  Wiki.ensure_folder (OsPath.dirname (OsPath.join (Wiki.root w) newurl +:+ ".md")) fs
  = (Ok tt, fs1) ->
  Fs.isdir (OsPath.join (Wiki.root w) newurl +:+ ".md") fs1 = false ->
  Fs.isdir (Fs.parent (OsPath.join (Wiki.root w) newurl +:+ ".md")) fs1 = true ->
  (forall c,
      Fs.files fs !! Fs.key (OsPath.join (Wiki.root w) url +:+ ".md") = Some c ->
      exists fs',
        Wiki.move w url newurl fs = (Ok tt, fs')
        /\ Fs.files fs' !! Fs.key (OsPath.join (Wiki.root w) newurl +:+ ".md") = Some c
        /\ (Fs.key (OsPath.join (Wiki.root w) url +:+ ".md")
            <> Fs.key (OsPath.join (Wiki.root w) newurl +:+ ".md") ->
            Fs.files fs' !! Fs.key (OsPath.join (Wiki.root w) url +:+ ".md") = None)
        /\ (forall q, q <> Fs.key (OsPath.join (Wiki.root w) url +:+ ".md") ->
                      q <> Fs.key (OsPath.join (Wiki.root w) newurl +:+ ".md") ->
                      Fs.files fs' !! q = Fs.files fs !! q)
        /\ Fs.dirs fs' = Fs.dirs fs1)
  /\ (Fs.files fs !! Fs.key (OsPath.join (Wiki.root w) url +:+ ".md") = None ->
      Fs.isdir (OsPath.join (Wiki.root w) url +:+ ".md") fs1 = false ->
      exists code, Wiki.move w url newurl fs = (Raise (OSError code), fs1)).
Proof.
  intros Hcheck Hfolder Hnotdir Hparent.
  destruct (move_passes w url newurl fs fs1 Hcheck Hfolder) as [Hmove Hfiles].
  split.
  - intros c Hc.
    exists (Fs.Make (<[Fs.key (OsPath.join (Wiki.root w) newurl +:+ ".md") := c]>
                       (delete (Fs.key (OsPath.join (Wiki.root w) url +:+ ".md"))
                          (Fs.files fs)))
                    (Fs.dirs fs1)).
    split; [|split; [|split; [|split]]].
    + rewrite Hmove. unfold Fs.rename. rewrite Hfiles, Hc, Hnotdir, Hparent. reflexivity.
    + cbn [Fs.files]. apply lookup_insert_eq.
    + intros Hne. cbn [Fs.files]. rewrite lookup_insert_ne by (intros E; apply Hne; symmetry; exact E).
      apply lookup_delete_eq.
    + intros q Hq1 Hq2. cbn [Fs.files].
      rewrite lookup_insert_ne by (intros E; apply Hq2; symmetry; exact E).
      rewrite lookup_delete_ne by (intros E; apply Hq1; symmetry; exact E). reflexivity.
    + reflexivity.
  - intros Hnone _. exists ENOENT.
    rewrite Hmove. unfold Fs.rename. rewrite Hfiles, Hnone. reflexivity.
Qed.

Lemma move_renames_page_witness :
  (exists fs',
      Wiki.move content_wiki "home" "a/start" nested_fs = (Ok tt, fs')
      /\ Fs.files fs' !! "content/a/start.md"
         = Some ("title: Home" +:+ Wiki.NL +:+ Wiki.NL +:+ "Hello")
      /\ Fs.files fs' !! "content/home.md" = None)
  /\ exists code,
       Wiki.move content_wiki "away" "b/start" greeting_fs
       = (Raise (OSError code),
          Fs.Make (Fs.files greeting_fs) ({["content/b"%string]} ∪ Fs.dirs greeting_fs)).
Proof.
  split.
  - destruct (proj1 (move_renames_page content_wiki "home" "a/start" nested_fs nested_fs
                       eq_refl eq_refl eq_refl eq_refl)
                ("title: Home" +:+ Wiki.NL +:+ Wiki.NL +:+ "Hello") eq_refl)
      as (fs' & Hmove & Hnew & Hold & _).
    exists fs'. split; [exact Hmove|]. split; [exact Hnew|].
    apply Hold. vm_compute. discriminate.
  - apply (proj2 (move_renames_page content_wiki "away" "b/start" greeting_fs
                    (Fs.Make (Fs.files greeting_fs)
                       ({["content/b"%string]} ∪ Fs.dirs greeting_fs))
                    eq_refl eq_refl eq_refl eq_refl)); reflexivity.
Defined.

Lemma startswith_slash_md (b : string) :
  Py.startswith "/" (b +:+ ".md") = Py.startswith "/" b.
Proof. destruct b as [|c b]; reflexivity. Qed.

(** [path] and [move] name the file of a page alike. *)
Lemma join_md (a b : string) : OsPath.join a (b +:+ ".md") = OsPath.join a b +:+ ".md".
Proof.
  unfold OsPath.join. rewrite startswith_slash_md.
  destruct (Py.startswith "/" b); [reflexivity|].
  destruct (String.eqb a EmptyString || OsPath.endswith_slash a);
    rewrite !str_app_assoc; reflexivity.
Qed.

Lemma get_page_inv (w : Wiki.Wiki) (url : string) (fs : Fs.t) (p : Wiki.Page) (fs' : Fs.t) :
  Wiki.get_page w url fs = (Ok p, fs') ->
  exists c body meta,
    Fs.files fs !! Fs.key (Wiki.path w url) = Some c
    /\ Wiki.out (Wiki.universal_newlines c) = Ok (body, meta)
    /\ p = Wiki.MkPage url (Wiki.universal_newlines c) body (Wiki.of_Meta meta)
    /\ fs' = fs.
Proof.
  unfold Wiki.get_page, Wiki.load, Fs.bind, Fs.read. intros H.
  destruct (Fs.files fs !! Fs.key (Wiki.path w url)) as [c|]; [|discriminate H].
  unfold Fs.ret in H.
  destruct (Wiki.out (Wiki.universal_newlines c)) as [[body meta]|e] eqn:E;
    [|discriminate H].
  unfold Fs.raise in H. injection H as <- <-. exists c, body, meta.
  split; [reflexivity|]. split; [exact E|]. split; reflexivity.
Qed.

(** X6.  [move] takes the page along.  When the destination passes
    the check on the content root, its folder is there or has been
    made, and the two addresses name different files, a page that
    could be read under the old address is read under the new one with
    the same text, body and header, and the old address has no file
    any more. *)
Theorem move_keeps_page (w : Wiki.Wiki) (url newurl : string) (fs fs1 : Fs.t)
    (p : Wiki.Page) :
  Py.startswith (OsPath.normpath (Wiki.root w))
    (OsPath.normpath (OsPath.join (Wiki.root w) newurl +:+ ".md")) = true ->
  Wiki.ensure_folder (OsPath.dirname (OsPath.join (Wiki.root w) newurl +:+ ".md")) fs
  = (Ok tt, fs1) ->
  Fs.isdir (OsPath.join (Wiki.root w) newurl +:+ ".md") fs1 = false ->
  Fs.isdir (Fs.parent (OsPath.join (Wiki.root w) newurl +:+ ".md")) fs1 = true ->
  Fs.key (Wiki.path w url) <> Fs.key (Wiki.path w newurl) ->
  Wiki.get_page w url fs = (Ok p, fs) ->
  exists fs',
    Wiki.move w url newurl fs = (Ok tt, fs')
    /\ Wiki.get_page w newurl fs'
       = (Ok (Wiki.MkPage newurl (Wiki.content p) (Wiki.body p) (Wiki._meta p)), fs')
    /\ Fs.files fs' !! Fs.key (Wiki.path w url) = None
    /\ (forall e, fst (Wiki.get_page w url fs') <> Ok e).
Proof.
  intros Hcheck Hfolder Hnotdir Hparent Hne Hget.
  destruct (get_page_inv w url fs p fs Hget) as (c & body & meta & Hc & Hout & -> & _).
  destruct (move_passes w url newurl fs fs1 Hcheck Hfolder) as [Hmove Hfiles].
  unfold Wiki.path in *. rewrite !join_md in *.
  exists (Fs.Make (<[Fs.key (OsPath.join (Wiki.root w) newurl +:+ ".md") := c]>
                     (delete (Fs.key (OsPath.join (Wiki.root w) url +:+ ".md"))
                        (Fs.files fs)))
                  (Fs.dirs fs1)).
  assert (Hold : (<[Fs.key (OsPath.join (Wiki.root w) newurl +:+ ".md") := c]>
                    (delete (Fs.key (OsPath.join (Wiki.root w) url +:+ ".md"))
                       (Fs.files fs)))
                 !! Fs.key (OsPath.join (Wiki.root w) url +:+ ".md") = None).
  { rewrite lookup_insert_ne by (intros E; apply Hne; symmetry; exact E).
    apply lookup_delete_eq. }
  split; [|split; [|split]].
  - rewrite Hmove. unfold Fs.rename. rewrite Hfiles, Hc, Hnotdir, Hparent. reflexivity.
  - unfold Wiki.get_page, Wiki.load, Fs.bind, Fs.read, Wiki.path. rewrite join_md.
    cbn [Fs.files]. rewrite lookup_insert_eq. unfold Fs.ret. rewrite Hout. reflexivity.
  - cbn [Fs.files]. exact Hold.
  - intros e. unfold Wiki.get_page, Wiki.load, Fs.bind, Fs.read, Wiki.path. rewrite join_md.
    cbn [Fs.files]. rewrite Hold. discriminate.
Qed.

Lemma move_keeps_page_witness :
  exists fs',
    Wiki.move content_wiki "home" "a/start" nested_fs = (Ok tt, fs')
    /\ Wiki.get_page content_wiki "a/start" fs'
       = (Ok (Wiki.MkPage "a/start" (Wiki.content greeting_page) (Wiki.body greeting_page)
                (Wiki._meta greeting_page)), fs').
Proof.
  destruct (move_keeps_page content_wiki "home" "a/start" nested_fs nested_fs greeting_page)
    as (fs' & Hmove & Hget & _); try reflexivity.
  - vm_compute. discriminate.
  - exists fs'. split; [exact Hmove|exact Hget].
Defined.

(** ** Where [move] and [save] write *)

Lemma isdir_key (p : string) (fs : Fs.t) :
  String.eqb p EmptyString = false ->
  Fs.isdir p fs = bool_decide (Fs.key p ∈ Fs.dirs fs).
Proof. intros H. unfold Fs.isdir. rewrite H. reflexivity. Qed.

Lemma isdir_same_key (p q : string) (fs : Fs.t) :
  String.eqb p EmptyString = false -> String.eqb q EmptyString = false ->
  Fs.key p = Fs.key q -> Fs.isdir p fs = Fs.isdir q fs.
Proof. intros Hp Hq E. rewrite !isdir_key by assumption. rewrite E. reflexivity. Qed.

Lemma app_not_empty (s t : string) :
  String.eqb t EmptyString = false -> String.eqb (s +:+ t) EmptyString = false.
Proof.
  intros H. apply String.eqb_neq. intros E. apply (f_equal String.length) in E.
  rewrite str_length_app in E. destruct t; [discriminate H|]. simpl in E. lia.
Qed.

Lemma startswith_lacks (c : ascii) (p s : string) :
  Py.contains c p = true -> Py.contains c s = false -> Py.startswith p s = false.
Proof.
  intros Hp Hs. destruct (Py.startswith p s) eqn:E; [|reflexivity].
  apply startswith_spec in E as [t ->]. rewrite contains_app, Hp in Hs. discriminate Hs.
Qed.

Lemma startswith_app_same (p s t : string) :
  Py.startswith (p +:+ s) (p +:+ t) = Py.startswith s t.
Proof.
  induction p as [|c p IH]; [reflexivity|].
  rewrite !str_app_cons. cbn [Py.startswith]. rewrite Ascii.eqb_refl. exact IH.
Qed.

Lemma key_simple (x : string) : Wiki.simple_name x = true -> Fs.key x = x.
Proof. apply normpath_simple. Qed.

Lemma key_child (d x : string) :
  Wiki.simple_name d = true -> Wiki.simple_name x = true ->
  Fs.key (d +:+ "/" +:+ x) = d +:+ "/" +:+ x.
Proof.
  intros Hd Hx. change (d +:+ "/" +:+ x) with (Py.join "/" [d; x]).
  apply normpath_comps. repeat constructor; assumption.
Qed.

Lemma parent_child (d x : string) :
  Wiki.simple_name d = true -> Wiki.simple_name x = true ->
  Fs.parent (d +:+ "/" +:+ x) = d.
Proof.
  intros Hd Hx. unfold Fs.parent. rewrite (key_child d x Hd Hx).
  unfold OsPath.dirname.
  rewrite split_child by (try apply simple_last, Hd; apply (simple_name_facts x Hx)).
  cbn [fst]. destruct (simple_name_facts d Hd) as (-> & _). reflexivity.
Qed.

(** X7.  The check of [move] compares the root and the destination as
    texts, not as paths: a folder beside the content root whose name
    begins with the name of the root passes it.  For a root [r] and a
    folder [r ++ s] beside it, [move] to [../ r ++ s /x] raises
    nothing and puts the page in that folder, outside the content
    root. *)
Theorem move_accepts_sibling_folder (r s x url c : string) (fs : Fs.t) :
  Wiki.simple_name r = true ->
  Wiki.simple_name (r +:+ s) = true ->
  s <> EmptyString ->
  Wiki.simple_name x = true ->
  Fs.isdir r fs = true ->
  Fs.isdir (r +:+ s) fs = true ->
  Fs.isdir ((r +:+ s) +:+ "/" +:+ x +:+ ".md") fs = false ->
  Fs.files fs !! Fs.key (OsPath.join r url +:+ ".md") = Some c ->
  exists fs',
    Wiki.move (Wiki.MkWiki r) url ("../" +:+ (r +:+ s) +:+ "/" +:+ x) fs = (Ok tt, fs')
    /\ Fs.files fs' !! ((r +:+ s) +:+ "/" +:+ x +:+ ".md") = Some c
    /\ Py.startswith (r +:+ "/") ((r +:+ s) +:+ "/" +:+ x +:+ ".md") = false.
Proof.
  intros Hr Hd Hs Hx Hroot Hdir Hnotdir Hc.
  set (d := r +:+ s) in *. pose proof (simple_md x Hx) as Hxm.
  destruct (simple_name_facts d Hd) as (Hd1 & Hd2 & _).
  destruct (simple_name_facts (x +:+ ".md") Hxm) as (Hm1 & Hm2 & _).
  assert (Hj4 : Py.join "/" [r; ".."%string; d; x +:+ ".md"]
                = Py.join "/" [r; ".."%string; d] +:+ "/" +:+ x +:+ ".md").
  { cbn [Py.join]. rewrite !str_app_assoc. reflexivity. }
  assert (Htarget : OsPath.join r ("../" +:+ d +:+ "/" +:+ x) +:+ ".md"
                    = Py.join "/" [r; ".."%string; d; x +:+ ".md"]).
  { rewrite (join_simple r _ Hr) by reflexivity. cbn [Py.join].
    rewrite !str_app_assoc. reflexivity. }
  assert (Hkey : Fs.key (OsPath.join r ("../" +:+ d +:+ "/" +:+ x) +:+ ".md")
                 = d +:+ "/" +:+ x +:+ ".md").
  { rewrite Htarget. unfold Fs.key.
    rewrite normpath_up_down by (try exact Hr; repeat constructor; assumption).
    reflexivity. }
  assert (Hfolder : OsPath.dirname (OsPath.join r ("../" +:+ d +:+ "/" +:+ x) +:+ ".md")
                    = Py.join "/" [r; ".."%string; d]).
  { rewrite Htarget, Hj4. unfold OsPath.dirname. rewrite split_child; [reflexivity| |exact Hm2].
    cbn [Py.join].
    replace (r +:+ "/" +:+ ".." +:+ "/" +:+ d) with ((r +:+ "/" +:+ "..") +:+ "/" +:+ d)
      by (rewrite !str_app_assoc; reflexivity).
    apply last_char_child, Hd. }
  assert (Hfkey : Fs.key (Py.join "/" [r; ".."%string; d]) = d).
  { unfold Fs.key. rewrite normpath_up_down by (try exact Hr; repeat constructor; exact Hd).
    reflexivity. }
  assert (Hfne : String.eqb (Py.join "/" [r; ".."%string; d]) EmptyString = false).
  { cbn [Py.join]. apply app_not_empty. reflexivity. }
  assert (Htne : String.eqb (OsPath.join r ("../" +:+ d +:+ "/" +:+ x) +:+ ".md") EmptyString
                 = false) by (apply app_not_empty; reflexivity).
  assert (Hdne : String.eqb d EmptyString = false) by exact Hd1.
  assert (Hcne : String.eqb (d +:+ "/" +:+ x +:+ ".md") EmptyString = false)
    by (apply app_not_empty; reflexivity).
  assert (Hens : Wiki.ensure_folder
                   (OsPath.dirname (OsPath.join r ("../" +:+ d +:+ "/" +:+ x) +:+ ".md")) fs
                 = (Ok tt, fs)).
  { rewrite Hfolder. unfold Wiki.ensure_folder, Fs.exists_.
    rewrite (isdir_same_key _ d fs Hfne Hdne) by (rewrite Hfkey, (key_simple d Hd); reflexivity).
    rewrite Hdir, orb_true_r. reflexivity. }
  destruct (move_passes (Wiki.MkWiki r) url ("../" +:+ d +:+ "/" +:+ x) fs fs) as [Hmove _].
  { cbn [Wiki.root]. rewrite (normpath_simple r Hr). fold (Fs.key (OsPath.join r ("../" +:+ d +:+ "/" +:+ x) +:+ ".md")).
    rewrite Hkey. unfold d. rewrite str_app_assoc. apply startswith_app. }
  { exact Hens. }
  cbn [Wiki.root] in Hmove.
  exists (Fs.Make (<[d +:+ "/" +:+ x +:+ ".md" := c]>
                     (delete (Fs.key (OsPath.join r url +:+ ".md")) (Fs.files fs)))
                  (Fs.dirs fs)).
  split; [|split].
  - rewrite Hmove. unfold Fs.rename. rewrite Hc.
    rewrite (isdir_same_key _ (d +:+ "/" +:+ x +:+ ".md") fs Htne Hcne)
      by (rewrite Hkey; symmetry; apply (key_child d (x +:+ ".md") Hd Hxm)).
    rewrite Hnotdir.
    unfold Fs.parent. rewrite Hkey. unfold OsPath.dirname.
    rewrite split_child by (try apply simple_last, Hd; exact Hm2).
    cbn [fst]. rewrite Hdne, Hdir. reflexivity.
  - cbn [Fs.files]. apply lookup_insert_eq.
  - unfold d. rewrite str_app_assoc, startswith_app_same.
    destruct s as [|e s]; [contradiction|].
    rewrite str_app_cons. cbn [Py.startswith].
    unfold d in Hd2. rewrite contains_app in Hd2. apply orb_false_elim in Hd2 as [_ Hs2].
    cbn [Py.contains] in Hs2. apply orb_false_elim in Hs2 as [He _].
    rewrite Ascii.eqb_sym, He. reflexivity.
Qed.

Lemma move_accepts_sibling_folder_witness :
  exists fs',
    Wiki.move content_wiki "home" "../content2/home"
      (Fs.Make (Fs.files greeting_fs) ({["content2"%string]} ∪ Fs.dirs greeting_fs))
    = (Ok tt, fs')
    /\ Fs.files fs' !! "content2/home.md"
       = Some ("title: Home" +:+ Wiki.NL +:+ Wiki.NL +:+ "Hello").
Proof.
  destruct (move_accepts_sibling_folder "content" "2" "home" "home"
              ("title: Home" +:+ Wiki.NL +:+ Wiki.NL +:+ "Hello")
              (Fs.Make (Fs.files greeting_fs) ({["content2"%string]} ∪ Fs.dirs greeting_fs)))
    as (fs' & Hmove & Hfile & _); try reflexivity; [discriminate|].
  exists fs'. split; [exact Hmove|exact Hfile].
Defined.

(** X8.  [save] does not look where its address leads.  For a content
    root [r] and a plain name [x], [save] to [../x] raises nothing and
    writes the whole record into the file [x.md] beside the content
    root, not under it. *)
Theorem save_outside_root (r x body : string) (meta : gmap string Wiki.mval) (fs : Fs.t) :
  Wiki.simple_name r = true ->
  Wiki.simple_name x = true ->
  Fs.isdir "." fs = true ->
  Fs.isdir r fs = true ->
  Fs.isdir (x +:+ ".md") fs = false ->
  exists fs',
    Wiki.save (Wiki.MkWiki r) ("../" +:+ x) body meta fs = (Ok tt, fs')
    /\ Fs.files fs' !! (x +:+ ".md") = Some (Wiki.encode body meta)
    /\ (forall q, q <> x +:+ ".md" -> Fs.files fs' !! q = Fs.files fs !! q)
    /\ Py.startswith (r +:+ "/") (x +:+ ".md") = false.
Proof.
  intros Hr Hx Hcwd Hroot Hnotdir. pose proof (simple_md x Hx) as Hxm.
  destruct (simple_name_facts (x +:+ ".md") Hxm) as (Hm1 & Hm2 & _).
  set (w := Wiki.MkWiki r).
  assert (Hpath : Wiki.path w ("../" +:+ x) = (r +:+ "/..") +:+ "/" +:+ x +:+ ".md").
  { unfold Wiki.path, w. cbn [Wiki.root]. rewrite (join_simple r _ Hr) by reflexivity.
    rewrite !str_app_assoc. reflexivity. }
  assert (Hkey : Fs.key (Wiki.path w ("../" +:+ x)) = x +:+ ".md").
  { rewrite Hpath. unfold Fs.key.
    replace ((r +:+ "/..") +:+ "/" +:+ x +:+ ".md")
      with (Py.join "/" [r; ".."%string; x +:+ ".md"])
      by (cbn [Py.join]; rewrite !str_app_assoc; reflexivity).
    rewrite normpath_up_down by (try exact Hr; repeat constructor; exact Hxm). reflexivity. }
  assert (Hfolder : OsPath.dirname (Wiki.path w ("../" +:+ x)) = r +:+ "/..").
  { rewrite Hpath. unfold OsPath.dirname. rewrite split_child; [reflexivity| |exact Hm2].
    rewrite last_char_app by discriminate. reflexivity. }
  assert (Hupne : String.eqb (r +:+ "/..") EmptyString = false)
    by (apply app_not_empty; reflexivity).
  assert (Hens : Wiki.ensure_folder (OsPath.dirname (Wiki.path w ("../" +:+ x))) fs
                 = (Ok tt, fs)).
  { rewrite Hfolder. unfold Wiki.ensure_folder, Fs.exists_.
    rewrite (isdir_same_key _ "." fs Hupne eq_refl)
      by (unfold Fs.key; rewrite (normpath_up r Hr); reflexivity).
    rewrite Hcwd, orb_true_r. reflexivity. }
  assert (Hparent : Fs.isdir (Fs.parent (Wiki.path w ("../" +:+ x))) fs = true).
  { unfold Fs.parent. rewrite Hkey. unfold OsPath.dirname. rewrite (split_bare _ Hm2).
    exact Hcwd. }
  assert (Hnd : Fs.isdir (Wiki.path w ("../" +:+ x)) fs = false).
  { rewrite (isdir_same_key _ (x +:+ ".md") fs (path_not_empty w _) Hm1)
      by (rewrite Hkey; symmetry; apply key_simple, Hxm).
    exact Hnotdir. }
  eexists. split; [apply (save_completes w _ body meta fs fs Hens Hparent Hnd)|].
  cbn [Fs.files]. rewrite Hkey. split; [apply lookup_insert_eq|]. split.
  - intros q Hq. apply lookup_insert_ne. intros E. apply Hq. symmetry. exact E.
  - apply (startswith_lacks "/"); [|exact Hm2].
    rewrite contains_app. cbn. apply orb_true_r.
Qed.

Lemma save_outside_root_witness :
  exists fs',
    Wiki.save content_wiki "../outside" "Hello" home_meta greeting_fs = (Ok tt, fs')
    /\ Fs.files fs' !! "outside.md"
       = Some ("title: Home" +:+ Wiki.NL +:+ Wiki.NL +:+ "Hello").
Proof.
  destruct (save_outside_root "content" "outside" "Hello" home_meta greeting_fs)
    as (fs' & Hsave & Hfile & _); try reflexivity.
  exists fs'. split; [exact Hsave|exact Hfile].
Defined.

(** X9.  [save] makes the folder of a page that has none yet.  For a
    page [a/x] one folder below the content root [r], when nothing is
    found at [r/a], [save] makes that folder and writes the whole
    record into [r/a/x.md]; no other file changes. *)
Theorem save_creates_folder (r a x body : string) (meta : gmap string Wiki.mval)
    (fs : Fs.t) :
  Wiki.simple_name r = true ->
  Wiki.simple_name a = true ->
  Wiki.simple_name x = true ->
  Fs.isdir r fs = true ->
  Fs.exists_ (r +:+ "/" +:+ a) fs = false ->
  Fs.isdir (r +:+ "/" +:+ a +:+ "/" +:+ x +:+ ".md") fs = false ->
  exists fs',
    Wiki.save (Wiki.MkWiki r) (a +:+ "/" +:+ x) body meta fs = (Ok tt, fs')
    /\ Fs.isdir (r +:+ "/" +:+ a) fs' = true
    /\ Fs.files fs' !! (r +:+ "/" +:+ a +:+ "/" +:+ x +:+ ".md")
       = Some (Wiki.encode body meta)
    /\ (forall q, q <> r +:+ "/" +:+ a +:+ "/" +:+ x +:+ ".md" ->
                  Fs.files fs' !! q = Fs.files fs !! q).
Proof.
  intros Hr Ha Hx Hroot Hnone Hnotdir. pose proof (simple_md x Hx) as Hxm.
  destruct (simple_name_facts r Hr) as (Hr1 & Hr2 & _).
  destruct (simple_name_facts a Ha) as (Ha1 & Ha2 & _).
  destruct (simple_name_facts (x +:+ ".md") Hxm) as (Hm1 & Hm2 & _).
  set (w := Wiki.MkWiki r). set (d := r +:+ "/" +:+ a) in *.
  assert (Hdne : String.eqb d EmptyString = false) by (apply app_not_empty; reflexivity).
  assert (Hdkey : Fs.key d = d) by apply (key_child r a Hr Ha).
  assert (Hpath : Wiki.path w (a +:+ "/" +:+ x) = d +:+ "/" +:+ x +:+ ".md").
  { unfold Wiki.path, w, d. cbn [Wiki.root].
    rewrite (join_simple r _ Hr).
    - rewrite !str_app_assoc. reflexivity.
    - destruct (simple_name_first a Ha) as (c & t & -> & Hc).
      rewrite !str_app_cons. cbn [Py.startswith]. rewrite Ascii.eqb_sym, Hc. reflexivity. }
  assert (Hkey : Fs.key (Wiki.path w (a +:+ "/" +:+ x)) = d +:+ "/" +:+ x +:+ ".md").
  { rewrite Hpath. unfold Fs.key, d.
    replace ((r +:+ "/" +:+ a) +:+ "/" +:+ x +:+ ".md")
      with (Py.join "/" [r; a; x +:+ ".md"])
      by (cbn [Py.join]; rewrite !str_app_assoc; reflexivity).
    apply normpath_comps. repeat constructor; assumption. }
  assert (Hlast : match Py.last_char d with
                  | Some c => Ascii.eqb c "/" = false
                  | None => False
                  end) by apply (last_char_child r a Ha).
  assert (Hfolder : OsPath.dirname (Wiki.path w (a +:+ "/" +:+ x)) = d).
  { rewrite Hpath. unfold OsPath.dirname. rewrite split_child; [reflexivity|exact Hlast|exact Hm2]. }
  set (fs1 := Fs.Make (Fs.files fs) ({[d]} ∪ Fs.dirs fs)).
  assert (Hens : Wiki.ensure_folder (OsPath.dirname (Wiki.path w (a +:+ "/" +:+ x))) fs
                 = (Ok tt, fs1)).
  { rewrite Hfolder. unfold Wiki.ensure_folder. rewrite Hnone. cbn [negb].
    unfold Fs.makedirs.
    assert (exists k, String.length d = S k) as [k ->].
    { unfold d. rewrite str_length_app. simpl. eexists.
      rewrite Nat.add_succ_r. reflexivity. }
    cbn [Fs.makedirs_fuel]. unfold d at 1.
    rewrite split_child by (try apply simple_last, Hr; exact Ha2).
    rewrite Ha1.
    assert (Fs.exists_ r fs = true) as -> by (unfold Fs.exists_; rewrite Hroot; apply orb_true_r).
    rewrite andb_false_r. fold d. unfold Fs.mkdir. rewrite Hdne, Hnone.
    unfold d at 1. rewrite (parent_child r a Hr Ha), Hroot. fold d. rewrite Hdkey. reflexivity. }
  assert (Hparent : Fs.isdir (Fs.parent (Wiki.path w (a +:+ "/" +:+ x))) fs1 = true).
  { unfold Fs.parent. rewrite Hkey. unfold OsPath.dirname.
    rewrite split_child by (try exact Hlast; exact Hm2).
    cbn [fst]. rewrite Hdne. rewrite (isdir_key d fs1 Hdne), Hdkey.
    apply bool_decide_eq_true_2. unfold fs1. cbn [Fs.dirs]. set_solver. }
  assert (Hcne : String.eqb (d +:+ "/" +:+ x +:+ ".md") EmptyString = false)
    by (apply app_not_empty; reflexivity).
  assert (Hckey : Fs.key (d +:+ "/" +:+ x +:+ ".md") = d +:+ "/" +:+ x +:+ ".md")
    by (pose proof Hkey as H; rewrite Hpath in H; exact H).
  assert (Hnd : Fs.isdir (Wiki.path w (a +:+ "/" +:+ x)) fs1 = false).
  { rewrite (isdir_key _ fs1 (path_not_empty w _)), Hkey.
    apply bool_decide_eq_false_2. unfold fs1. cbn [Fs.dirs]. intros Hin.
    apply elem_of_union in Hin as [Hin|Hin].
    - apply elem_of_singleton in Hin. apply (f_equal String.length) in Hin.
      rewrite str_length_app in Hin. simpl in Hin. lia.
    - assert (Hn : Fs.isdir (d +:+ "/" +:+ x +:+ ".md") fs = false).
      { unfold d. rewrite !str_app_assoc. exact Hnotdir. }
      rewrite (isdir_key _ fs Hcne), Hckey in Hn.
      apply bool_decide_eq_false_1 in Hn. contradiction. }
  exists (Fs.Make (<[Fs.key (Wiki.path w (a +:+ "/" +:+ x)) := Wiki.encode body meta]>
                     (Fs.files fs)) (Fs.dirs fs1)).
  split; [apply (save_completes w _ body meta fs fs1 Hens Hparent Hnd)|].
  split; [|split].
  - rewrite (isdir_key d _ Hdne), Hdkey. apply bool_decide_eq_true_2.
    unfold fs1. cbn [Fs.dirs]. set_solver.
  - cbn [Fs.files]. rewrite Hkey. unfold d. rewrite !str_app_assoc. apply lookup_insert_eq.
  - intros q Hq. cbn [Fs.files]. rewrite Hkey. apply lookup_insert_ne.
    intros E. apply Hq. rewrite <- E. unfold d. rewrite !str_app_assoc. reflexivity.
Qed.

Lemma save_creates_folder_witness :
  exists fs',
    Wiki.save content_wiki "notes/today" "Hello" home_meta greeting_fs = (Ok tt, fs')
    /\ Fs.isdir "content/notes" fs' = true
    /\ Fs.files fs' !! "content/notes/today.md"
       = Some ("title: Home" +:+ Wiki.NL +:+ Wiki.NL +:+ "Hello").
Proof.
  destruct (save_creates_folder "content" "notes" "today" "Hello" home_meta greeting_fs)
    as (fs' & Hsave & Hdir & Hfile & _); try reflexivity.
  exists fs'. split; [exact Hsave|]. split; [exact Hdir|exact Hfile].
Defined.

(** ** The editor: what is submitted and what is shown *)





Lemma clean_key_title : Wiki.clean_key "title" = true.
Proof. reflexivity. Qed.

Lemma clean_key_tags : Wiki.clean_key "tags" = true.
Proof. reflexivity. Qed.



(** ** Headers held as lists *)











(** ** The title and the tags a page shows *)




(** ** The order of the index *)

Lemma ascii_compare_refl (x : ascii) : Ascii.compare x x = Eq.
Proof. unfold Ascii.compare. apply N.compare_refl. Qed.

Lemma compare_lt_trans (a : string) :
  forall b c, String.compare a b = Lt -> String.compare b c = Lt -> String.compare a c = Lt.
Proof.
  induction a as [|x a IH]; intros [|y b] [|z c]; cbn [String.compare];
    try discriminate; try reflexivity.
  destruct (Ascii.compare x y) eqn:Exy; destruct (Ascii.compare y z) eqn:Eyz;
    try discriminate; intros H1 H2.
  - apply Ascii.compare_eq_iff in Exy, Eyz. subst. rewrite ascii_compare_refl.
    apply (IH b c H1 H2).
  - apply Ascii.compare_eq_iff in Exy. subst. rewrite Eyz. reflexivity.
  - apply Ascii.compare_eq_iff in Eyz. subst. rewrite Exy. reflexivity.
  - unfold Ascii.compare in *. rewrite N.compare_lt_iff in *.
    assert (N_of_ascii x < N_of_ascii z)%N as H by lia.
    apply N.compare_lt_iff in H. rewrite H. reflexivity.
Qed.

Lemma ltb_asym (a b : string) : String.ltb a b = true -> String.ltb b a = false.
Proof.
  unfold String.ltb. rewrite (String.compare_antisym a b).
  destruct (String.compare b a); cbn; congruence.
Qed.

Lemma ltb_trans (a b c : string) :
  String.ltb a b = true -> String.ltb b c = true -> String.ltb a c = true.
Proof.
  unfold String.ltb. intros H1 H2.
  destruct (String.compare a b) eqn:E1; try discriminate H1.
  destruct (String.compare b c) eqn:E2; try discriminate H2.
  rewrite (compare_lt_trans a b c E1 E2). reflexivity.
Qed.

(** [b] does not come before [a]. *)
Lemma not_before_trans (a b c : string) :
  String.ltb a b = true -> String.ltb c b = false -> String.ltb c a = false.
Proof.
  intros H1 H2. destruct (String.ltb c a) eqn:E; [|reflexivity].
  rewrite (ltb_trans c a b E H1) in H2. discriminate H2.
Qed.

Lemma insert_sorted_Forall (P : string * Wiki.Page -> Prop) (x : string * Wiki.Page)
    (l : list (string * Wiki.Page)) :
  P x -> Forall P l -> Forall P (Wiki.insert_sorted x l).
Proof.
  intros Hx Hl. induction Hl as [|y l Hy Hl IH]; [repeat constructor; exact Hx|].
  cbn [Wiki.insert_sorted]. destruct (String.ltb (fst x) (fst y)); repeat constructor; assumption.
Qed.

Lemma insert_sorted_sorted (x : string * Wiki.Page) (l : list (string * Wiki.Page)) :
  StronglySorted (fun a b => String.ltb (fst b) (fst a) = false) l ->
  StronglySorted (fun a b => String.ltb (fst b) (fst a) = false) (Wiki.insert_sorted x l).
Proof.
  intros Hl. induction Hl as [|y l Hl IH Hy]; [repeat constructor|].
  cbn [Wiki.insert_sorted]. destruct (String.ltb (fst x) (fst y)) eqn:E.
  - constructor; [constructor; assumption|].
    constructor; [apply ltb_asym, E|].
    eapply Forall_impl; [exact Hy|]. intros z Hz. cbn beta in *.
    apply (not_before_trans (fst x) (fst y) (fst z) E Hz).
  - constructor; [exact IH|]. apply insert_sorted_Forall; [exact E|exact Hy].
Qed.

Lemma insert_sorted_perm (x : string * Wiki.Page) (l : list (string * Wiki.Page)) :
  Wiki.insert_sorted x l ≡ₚ x :: l.
Proof.
  induction l as [|y l IH]; [reflexivity|]. cbn [Wiki.insert_sorted].
  destruct (String.ltb (fst x) (fst y)); [reflexivity|].
  rewrite IH. apply Permutation_swap.
Qed.

Lemma fold_insert_sorted (l : list (string * Wiki.Page)) :
  forall acc,
    StronglySorted (fun a b => String.ltb (fst b) (fst a) = false) acc ->
    StronglySorted (fun a b => String.ltb (fst b) (fst a) = false)
      (foldl (fun acc x => Wiki.insert_sorted x acc) acc l)
    /\ foldl (fun acc x => Wiki.insert_sorted x acc) acc l ≡ₚ acc ++ l.
Proof.
  induction l as [|x l IH]; intros acc Hacc.
  - cbn [foldl]. rewrite app_nil_r. split; [exact Hacc|reflexivity].
  - cbn [foldl]. destruct (IH _ (insert_sorted_sorted x acc Hacc)) as [Hs Hp].
    split; [exact Hs|]. rewrite Hp, insert_sorted_perm. apply Permutation_middle.
Qed.

(** The pairs of a key and its page that [index] sorts. *)
Lemma keyed_pages (pages : list Wiki.Page) :
  forall keyed,
    foldr (fun p acc => l ← acc; k ← Wiki.sort_key p; Ok ((k, p) :: l)) (Ok []) pages
    = Ok keyed ->
    keyed.*2 = pages
    /\ Forall (fun kp => Wiki.sort_key (snd kp) = Ok (fst kp)) keyed.
Proof.
  induction pages as [|p pages IH]; intros keyed H.
  - cbn in H. injection H as <-. split; [reflexivity|constructor].
  - cbn [foldr] in H.
    destruct (foldr _ (Ok []) pages) as [l|e] eqn:E; [|discriminate H].
    cbn in H. destruct (Wiki.sort_key p) as [k|e] eqn:Ek; [|discriminate H].
    cbn in H. injection H as <-. destruct (IH l eq_refl) as [H1 H2].
    split; [cbn; rewrite H1; reflexivity|]. constructor; [exact Ek|exact H2].
Qed.

Lemma sorted_keyed (keyed : list (string * Wiki.Page)) :
  Forall (fun kp => Wiki.sort_key (snd kp) = Ok (fst kp)) keyed ->
  Wiki.sorted keyed ≡ₚ keyed.*2
  /\ exists keys,
       Forall2 (fun p k => Wiki.sort_key p = Ok k) (Wiki.sorted keyed) keys
       /\ StronglySorted (fun a b => String.ltb b a = false) keys.
Proof.
  intros Hk. unfold Wiki.sorted.
  destruct (fold_insert_sorted keyed [] (SSorted_nil _)) as [Hs Hp].
  cbn [app] in Hp. set (s := foldl (fun acc x => Wiki.insert_sorted x acc) [] keyed) in *.
  split; [change (map snd s) with (s.*2); rewrite Hp; reflexivity|].
  exists (s.*1). split.
  - assert (Hall : Forall (fun kp => Wiki.sort_key (snd kp) = Ok (fst kp)) s).
    { rewrite Forall_forall in *. intros kp Hin. apply Hk. rewrite <- Hp. exact Hin. }
    clear -Hall. induction Hall as [|kp l H Hl IH]; [constructor|].
    cbn. constructor; [exact H|exact IH].
  - clear -Hs. induction Hs as [|kp l Hl IH H]; [constructor|].
    cbn. constructor; [exact IH|]. apply Forall_fmap. exact H.
Qed.

Lemma index_inv (w : Wiki.Wiki) (fs : Fs.t) (pages : list Wiki.Page) :
  Wiki.index w fs = Ok pages ->
  exists walked keyed,
    Wiki.walk (S (size (Fs.dirs fs))) w fs (Wiki.root w) [] = Ok walked
    /\ keyed.*2 = walked
    /\ Forall (fun kp => Wiki.sort_key (snd kp) = Ok (fst kp)) keyed
    /\ pages = Wiki.sorted keyed.
Proof.
  unfold Wiki.index. intros H.
  destruct (Wiki.walk _ w fs (Wiki.root w) []) as [walked|e]; [|discriminate H].
  cbn [mbind result_bind] in H.
  destruct (foldr _ (Ok []) walked) as [keyed|e] eqn:E; [|discriminate H].
  cbn in H. injection H as <-. destruct (keyed_pages walked keyed E) as [H1 H2].
  exists walked, keyed. repeat split; assumption.
Qed.

(** X13.  [index] lists the pages in the order of their titles, letter
    case set aside: the lowercased title of a page never comes before
    that of a page listed earlier.  Every page it lists has a title that
    is a text. *)
Theorem index_sorted_by_title (w : Wiki.Wiki) (fs : Fs.t) (pages : list Wiki.Page) :
  Fs.isdir (Wiki.root w) fs = true ->
  Wiki.index w fs = Ok pages ->
  exists keys,
    Forall2 (fun p k => exists t, Wiki.title p = Wiki.MStr t /\ k = Py.lower t) pages keys
    /\ StronglySorted (fun a b => String.ltb b a = false) keys.
Proof.
  intros _ H. destruct (index_inv w fs pages H) as (walked & keyed & _ & _ & Hk & ->).
  destruct (sorted_keyed keyed Hk) as (_ & keys & H2 & Hs).
  exists keys. split; [|exact Hs].
  eapply Forall2_impl; [exact H2|]. intros p k Hp. cbn beta in Hp.
  unfold Wiki.sort_key in Hp. destruct (Wiki.title p) as [t|l]; [|discriminate Hp].
  injection Hp as <-. exists t. split; reflexivity.
Qed.

(** The index of the two tagged pages. *)
Lemma tagged_index : Wiki.index content_wiki tagged_fs = Ok [tagged_about; tagged_home].
Proof. vm_compute. reflexivity. Qed.

Lemma tagged_pages_tags :
  Forall (fun p => exists t, Wiki.tags p = Wiki.MStr t) [tagged_about; tagged_home].
Proof.
  constructor; [exists "wiki"%string; reflexivity|].
  constructor; [exists "wiki, start"%string; reflexivity|constructor].
Qed.

Lemma index_sorted_by_title_witness :
  exists keys,
    Forall2 (fun p k => exists t, Wiki.title p = Wiki.MStr t /\ k = Py.lower t)
      [tagged_about; tagged_home] keys
    /\ StronglySorted (fun a b => String.ltb b a = false) keys.
Proof.
  apply (index_sorted_by_title content_wiki tagged_fs [tagged_about; tagged_home]
           eq_refl tagged_index).
Defined.

(** ** What [search] returns *)

Section SearchResults.

Variable regex_search : string -> bool -> string -> bool.

Lemma page_matches_exists (term : string) (ignore_case : bool) (p : Wiki.Page)
    (attrs : list Wiki.attr) :
  (forall a, exists t, Wiki.getattr p a = Wiki.MStr t) ->
  Wiki.page_matches regex_search term ignore_case p attrs
  = Ok (existsb (fun a => match Wiki.getattr p a with
                          | Wiki.MStr t => regex_search term ignore_case t
                          | Wiki.MList _ => false
                          end) attrs).
Proof.
  intros Hp. induction attrs as [|a attrs IH]; [reflexivity|].
  cbn [Wiki.page_matches existsb]. destruct (Hp a) as [t ->].
  destruct (regex_search term ignore_case t); [reflexivity|exact IH].
Qed.

Lemma search_pages_acc (term : string) (ignore_case : bool) (attrs : list Wiki.attr)
    (pages : list Wiki.Page) :
  Forall (fun p => forall a, exists t, Wiki.getattr p a = Wiki.MStr t) pages ->
  forall acc,
    foldl (fun acc page =>
             matched ← acc;
             hit ← Wiki.page_matches regex_search term ignore_case page attrs;
             Ok (if hit : bool then matched ++ [page] else matched))
          (Ok acc) pages
    = Ok (acc ++ List.filter
            (fun p => existsb (fun a => match Wiki.getattr p a with
                                        | Wiki.MStr t => regex_search term ignore_case t
                                        | Wiki.MList _ => false
                                        end) attrs) pages).
Proof.
  induction 1 as [|p pages Hp Hps IH]; intros acc.
  - cbn [foldl List.filter]. rewrite app_nil_r. reflexivity.
  - cbn [foldl List.filter mbind result_bind].
    rewrite (page_matches_exists term ignore_case p attrs Hp).
    cbn [mbind result_bind].
    destruct (existsb _ attrs).
    + rewrite IH, <- app_assoc. reflexivity.
    + apply IH.
Qed.

Lemma search_pages_filter (term : string) (ignore_case : bool) (attrs : list Wiki.attr)
    (pages : list Wiki.Page) :
  Forall (fun p => forall a, exists t, Wiki.getattr p a = Wiki.MStr t) pages ->
  Wiki.search_pages regex_search term ignore_case attrs pages
  = Ok (List.filter
          (fun p => existsb (fun a => match Wiki.getattr p a with
                                      | Wiki.MStr t => regex_search term ignore_case t
                                      | Wiki.MList _ => false
                                      end) attrs) pages).
Proof.
  intros H. unfold Wiki.search_pages.
  apply (search_pages_acc term ignore_case attrs pages H []).
Qed.

End SearchResults.

Lemma index_titles (w : Wiki.Wiki) (fs : Fs.t) (pages : list Wiki.Page) :
  Wiki.index w fs = Ok pages ->
  Forall (fun p => exists t, Wiki.title p = Wiki.MStr t) pages.
Proof.
  intros H. destruct (index_inv w fs pages H) as (walked & keyed & _ & _ & Hk & ->).
  destruct (sorted_keyed keyed Hk) as (_ & keys & H2 & _).
  clear H. induction H2 as [|p k l ks Hp _ IH]; [constructor|]. constructor; [|exact IH].
  unfold Wiki.sort_key in Hp. destruct (Wiki.title p) as [t|]; [|discriminate Hp].
  exists t. reflexivity.
Qed.

(** X14.  [search] returns the pages of the index one of whose listed
    attributes matches the term, each once and in the order of the
    index, provided the tags of every page are a text.  With no
    attribute to look at it returns nothing. *)
Theorem search_is_filter (regex_search : string -> bool -> string -> bool)
    (w : Wiki.Wiki) (term : string) (ignore_case : bool) (attrs : list Wiki.attr)
    (fs : Fs.t) (pages : list Wiki.Page) :
  Fs.isdir (Wiki.root w) fs = true ->
  Wiki.index w fs = Ok pages ->
  Forall (fun p => exists t, Wiki.tags p = Wiki.MStr t) pages ->
  Wiki.search regex_search w term ignore_case attrs fs
  = Ok (List.filter
          (fun p => existsb (fun a => match Wiki.getattr p a with
                                      | Wiki.MStr t => regex_search term ignore_case t
                                      | Wiki.MList _ => false
                                      end) attrs) pages)
  /\ Wiki.search regex_search w term ignore_case [] fs = Ok [].
Proof.
  intros _ Hindex Htags. pose proof (index_titles w fs pages Hindex) as Htitles.
  assert (Hall : Forall (fun p => forall a, exists t, Wiki.getattr p a = Wiki.MStr t) pages).
  { rewrite Forall_forall in *. intros p Hp [| |]; cbn [Wiki.getattr].
    - apply Htitles, Hp.
    - apply Htags, Hp.
    - eexists. reflexivity. }
  unfold Wiki.search. rewrite Hindex. cbn [mbind result_bind]. split.
  - apply search_pages_filter, Hall.
  - rewrite (search_pages_filter regex_search term ignore_case [] pages Hall).
    cbn [existsb]. f_equal. clear. induction pages as [|p l IH]; [reflexivity|exact IH].
Qed.

Lemma search_is_filter_witness :
  Wiki.search Re.literal_search content_wiki "hello" true [Wiki.Title; Wiki.Body] greeting_fs
  = Ok [greeting_page]
  /\ Wiki.search Re.literal_search content_wiki "hello" true [Wiki.Title] greeting_fs = Ok [].
Proof.
  assert (Htags : Forall (fun p => exists t, Wiki.tags p = Wiki.MStr t) [greeting_page]).
  { constructor; [exists EmptyString; reflexivity|constructor]. }
  split.
  - rewrite (proj1 (search_is_filter Re.literal_search content_wiki "hello" true
                      [Wiki.Title; Wiki.Body] greeting_fs [greeting_page]
                      eq_refl eq_refl Htags)).
    reflexivity.
  - rewrite (proj1 (search_is_filter Re.literal_search content_wiki "hello" true
                      [Wiki.Title] greeting_fs [greeting_page] eq_refl eq_refl Htags)).
    reflexivity.
Defined.

(** ** The table of tags *)

Lemma add_tag_cases (page : Wiki.Page) (table : gmap string (list Wiki.Page))
    (piece : string) :
  (Py.strip piece = EmptyString /\ WikiIndex.add_tag page table piece = table)
  \/ (Py.strip piece <> EmptyString
      /\ exists old,
           WikiIndex.add_tag page table piece
           = <[Py.strip piece := old ++ [page]]> table
           /\ forall p, p ∈ old -> exists l, table !! Py.strip piece = Some l /\ p ∈ l).
Proof.
  unfold WikiIndex.add_tag. destruct (String.eqb_spec (Py.strip piece) EmptyString) as [E|E].
  - left. split; [exact E|reflexivity].
  - right. split; [exact E|].
    destruct (table !! Py.strip piece) as [[|q l]|] eqn:Ht.
    + exists []. split; [reflexivity|]. intros p Hp. inversion Hp.
    + exists (q :: l). split; [reflexivity|]. intros p Hp. exists (q :: l). split; [reflexivity|exact Hp].
    + exists []. split; [reflexivity|]. intros p Hp. inversion Hp.
Qed.

(** What the table holds: under a tag, pages among [seen] one of whose
    tags it is. *)
Lemma collect_sound_step (seen : list Wiki.Page) (page : Wiki.Page) (t : string)
    (pieces : list string) :
  Wiki.tags page = Wiki.MStr t ->
  (forall piece, piece ∈ pieces -> piece ∈ Py.split "," t) ->
  forall table,
    (forall tag listed, table !! tag = Some listed ->
       tag <> EmptyString /\ listed <> []
       /\ forall p, p ∈ listed ->
            p ∈ page :: seen
            /\ exists t, Wiki.tags p = Wiki.MStr t /\ tag ∈ Py.strip <$> Py.split "," t) ->
    forall tag listed, foldl (WikiIndex.add_tag page) table pieces !! tag = Some listed ->
       tag <> EmptyString /\ listed <> []
       /\ forall p, p ∈ listed ->
            p ∈ page :: seen
            /\ exists t, Wiki.tags p = Wiki.MStr t /\ tag ∈ Py.strip <$> Py.split "," t.
Proof.
  intros Ht. induction pieces as [|piece pieces IH]; intros Hin table Hinv; [exact Hinv|].
  cbn [foldl]. apply IH; [intros q Hq; apply Hin; right; exact Hq|].
  intros tag listed Hl.
  destruct (add_tag_cases page table piece) as [[_ E]|(Hne & old & E & Hold)];
    rewrite E in Hl; [apply (Hinv tag listed Hl)|].
  apply lookup_insert_Some in Hl as [[<- <-]|[_ Hl]]; [|apply (Hinv tag listed Hl)].
  split; [exact Hne|]. split; [destruct old; discriminate|].
  intros p Hp. apply elem_of_app in Hp as [Hp|Hp].
  - destruct (Hold p Hp) as (l & Hl & Hpl). apply (Hinv _ l Hl), Hpl.
  - apply list_elem_of_singleton in Hp as ->. split; [left|].
    exists t. split; [exact Ht|]. apply list_elem_of_fmap. exists piece.
    split; [reflexivity|]. apply Hin. left.
Qed.

Lemma add_tag_grows (page : Wiki.Page) (table : gmap string (list Wiki.Page))
    (piece tag : string) (l : list Wiki.Page) (p : Wiki.Page) :
  table !! tag = Some l -> p ∈ l ->
  exists l', WikiIndex.add_tag page table piece !! tag = Some l' /\ p ∈ l'.
Proof.
  intros Hl Hp. unfold WikiIndex.add_tag.
  destruct (String.eqb (Py.strip piece) EmptyString); [exists l; split; assumption|].
  destruct (decide (Py.strip piece = tag)) as [E|Hd].
  - rewrite E, Hl. destruct l as [|q l]; [inversion Hp|].
    rewrite lookup_insert_eq. eexists. split; [reflexivity|].
    apply elem_of_app. left. exact Hp.
  - destruct (table !! Py.strip piece) as [[|q' l']|];
      rewrite lookup_insert_ne by exact Hd; exists l; split; assumption.
Qed.

Lemma fold_add_tag_grows (page : Wiki.Page) (pieces : list string) (tag : string)
    (p : Wiki.Page) :
  forall table l, table !! tag = Some l -> p ∈ l ->
    exists l', foldl (WikiIndex.add_tag page) table pieces !! tag = Some l' /\ p ∈ l'.
Proof.
  induction pieces as [|piece pieces IH]; intros table l Hl Hp; [exists l; split; assumption|].
  cbn [foldl]. destruct (add_tag_grows page table piece tag l p Hl Hp) as (l' & Hl' & Hp').
  apply (IH _ l' Hl' Hp').
Qed.

Lemma fold_add_tag_enters (page : Wiki.Page) (pieces : list string) (piece : string) :
  piece ∈ pieces -> Py.strip piece <> EmptyString ->
  forall table,
    exists l, foldl (WikiIndex.add_tag page) table pieces !! Py.strip piece = Some l
              /\ page ∈ l.
Proof.
  intros Hin Hne. induction pieces as [|q pieces IH]; [inversion Hin|]. intros table.
  cbn [foldl]. apply elem_of_cons in Hin as [->|Hin]; [|apply IH, Hin].
  destruct (add_tag_cases page table q) as [[E _]|(_ & old & E & _)]; [contradiction|].
  apply (fold_add_tag_grows page pieces (Py.strip q) page _ (old ++ [page])).
  - rewrite E. apply lookup_insert_eq.
  - apply elem_of_app. right. left.
Qed.

Lemma collect_tags_table (pages : list Wiki.Page) :
  forall seen table0 table,
    (forall tag listed, table0 !! tag = Some listed ->
       tag <> EmptyString /\ listed <> []
       /\ forall p, p ∈ listed ->
            p ∈ seen
            /\ exists t, Wiki.tags p = Wiki.MStr t /\ tag ∈ Py.strip <$> Py.split "," t) ->
    (forall p t tag, p ∈ seen -> Wiki.tags p = Wiki.MStr t ->
       tag ∈ Py.strip <$> Py.split "," t -> tag <> EmptyString ->
       exists l, table0 !! tag = Some l /\ p ∈ l) ->
    foldl (fun acc page =>
             tags ← acc;
             match Wiki.tags page with
             | Wiki.MStr t => Ok (foldl (WikiIndex.add_tag page) tags (Py.split "," t))
             | Wiki.MList _ => Raise AttributeError
             end) (Ok table0) pages = Ok table ->
    (forall tag listed, table !! tag = Some listed ->
       tag <> EmptyString /\ listed <> []
       /\ forall p, p ∈ listed ->
            p ∈ seen ++ pages
            /\ exists t, Wiki.tags p = Wiki.MStr t /\ tag ∈ Py.strip <$> Py.split "," t)
    /\ (forall p t tag, p ∈ seen ++ pages -> Wiki.tags p = Wiki.MStr t ->
          tag ∈ Py.strip <$> Py.split "," t -> tag <> EmptyString ->
          exists l, table !! tag = Some l /\ p ∈ l).
Proof.
  induction pages as [|page pages IH]; intros seen table0 table Hs Hc H.
  - cbn in H. injection H as <-. rewrite app_nil_r. split; assumption.
  - cbn [foldl mbind result_bind] in H.
    destruct (Wiki.tags page) as [t|l] eqn:Ht.
    + specialize (IH (seen ++ [page])
                    (foldl (WikiIndex.add_tag page) table0 (Py.split "," t)) table).
      rewrite <- app_assoc in IH. apply IH; [| |exact H].
      * intros tag listed Hl.
        destruct (collect_sound_step seen page t (Py.split "," t) Ht (fun _ h => h) table0)
          with (tag := tag) (listed := listed) as (H1 & H2 & H3); [|exact Hl|].
        { intros tag' l' Hl'. destruct (Hs tag' l' Hl') as (A1 & A2 & A3).
          split; [exact A1|]. split; [exact A2|]. intros p Hp.
          destruct (A3 p Hp) as [B1 B2]. split; [right; exact B1|exact B2]. }
        split; [exact H1|]. split; [exact H2|]. intros p Hp.
        destruct (H3 p Hp) as [B1 B2]. split; [|exact B2].
        apply elem_of_app. apply elem_of_cons in B1 as [->|B1]; [right; left|left; exact B1].
      * intros p t' tag Hp Ht' Htag Hne. apply elem_of_app in Hp as [Hp|Hp].
        -- destruct (Hc p t' tag Hp Ht' Htag Hne) as (l & Hl & Hpl).
           apply (fold_add_tag_grows page _ tag p table0 l Hl Hpl).
        -- apply list_elem_of_singleton in Hp as ->. rewrite Ht in Ht'. injection Ht' as <-.
           apply list_elem_of_fmap in Htag as (piece & -> & Hpiece).
           apply (fold_add_tag_enters page _ piece Hpiece Hne).
    + exfalso. clear -H. induction pages as [|q pages IH]; [discriminate H|].
      cbn [foldl mbind result_bind] in H. exact (IH H).
Qed.

Lemma strip_strip (s : string) : Py.strip (Py.strip s) = Py.strip s.
Proof. destruct (strip_ends s) as [H1 H2]. apply strip_id; assumption. Qed.

Lemma collect_tags_total (pages : list Wiki.Page) :
  Forall (fun p => exists t, Wiki.tags p = Wiki.MStr t) pages ->
  forall table0,
    exists table,
      foldl (fun acc page =>
               tags ← acc;
               match Wiki.tags page with
               | Wiki.MStr t => Ok (foldl (WikiIndex.add_tag page) tags (Py.split "," t))
               | Wiki.MList _ => Raise AttributeError
               end) (Ok table0) pages = Ok table.
Proof.
  induction 1 as [|p pages [t Hp] Hps IH]; intros table0; [exists table0; reflexivity|].
  cbn [foldl mbind result_bind]. rewrite Hp. apply IH.
Qed.

(** X15.  When the tags of every page are a text, [get_tags] returns a
    table that holds, under each tag, exactly the pages of the index
    that carry it: a page is listed under a tag if and only if the tag
    is one of the pieces of its tags, cut at the commas and stripped of
    the white space around them, and is not empty.  No tag of the table
    is empty or has white space around it, and no tag is listed
    without a page. *)
Theorem get_tags_table (w : Wiki.Wiki) (fs : Fs.t) (pages : list Wiki.Page) :
  Fs.isdir (Wiki.root w) fs = true ->
  Wiki.index w fs = Ok pages ->
  Forall (fun p => exists t, Wiki.tags p = Wiki.MStr t) pages ->
  exists table,
    WikiIndex.get_tags w fs = Ok table
    /\ (forall tag listed, table !! tag = Some listed ->
          tag <> EmptyString /\ Py.strip tag = tag /\ listed <> [])
    /\ (forall tag p,
          (exists listed, table !! tag = Some listed /\ p ∈ listed)
          <-> p ∈ pages /\ tag <> EmptyString
              /\ exists t, Wiki.tags p = Wiki.MStr t
                           /\ tag ∈ Py.strip <$> Py.split "," t).
Proof.
  intros _ Hindex Htags. destruct (collect_tags_total pages Htags ∅) as [table H].
  exists table. split.
  { unfold WikiIndex.get_tags. rewrite Hindex. exact H. }
  destruct (collect_tags_table pages [] ∅ table) as [Hs Hc]; [| |exact H|].
  - intros tag listed Hl. rewrite lookup_empty in Hl. discriminate Hl.
  - intros p t tag Hp. inversion Hp.
  - cbn [app] in Hs, Hc. split.
    + intros tag listed Hl. destruct (Hs tag listed Hl) as (H1 & H2 & H3).
      split; [exact H1|]. split; [|exact H2].
      destruct listed as [|p listed]; [contradiction|].
      destruct (H3 p (list_elem_of_here _ _)) as (_ & t & _ & Hin).
      apply list_elem_of_fmap in Hin as (piece & -> & _). apply strip_strip.
    + intros tag p. split.
      * intros (listed & Hl & Hp). destruct (Hs tag listed Hl) as (H1 & _ & H3).
        destruct (H3 p Hp) as [Hin Ht]. split; [exact Hin|]. split; [exact H1|exact Ht].
      * intros (Hp & Hne & t & Ht & Hin). apply (Hc p t tag Hp Ht Hin Hne).
Qed.

Lemma get_tags_table_witness :
  exists table,
    WikiIndex.get_tags content_wiki tagged_fs = Ok table
    /\ (exists listed, table !! "wiki"%string = Some listed /\ tagged_home ∈ listed)
    /\ (exists listed, table !! "start"%string = Some listed /\ tagged_home ∈ listed).
Proof.
  destruct (get_tags_table content_wiki tagged_fs [tagged_about; tagged_home]
              eq_refl tagged_index tagged_pages_tags) as (table & Htable & _ & Hiff).
  exists table. split; [exact Htable|]. split; apply Hiff.
  - split; [right; left|]. split; [discriminate|].
    exists "wiki, start"%string. split; [reflexivity|]. left.
  - split; [right; left|]. split; [discriminate|].
    exists "wiki, start"%string. split; [reflexivity|]. right. left.
Defined.

(** ** Pages by tag *)

Lemma insert_sorted_last (x : string * Wiki.Page) (l : list (string * Wiki.Page)) :
  Forall (fun y => String.ltb (fst x) (fst y) = false) l ->
  Wiki.insert_sorted x l = l ++ [x].
Proof.
  induction 1 as [|y l Hy Hl IH]; [reflexivity|].
  cbn [Wiki.insert_sorted]. rewrite Hy, IH. reflexivity.
Qed.

(** Sorting what is in order already changes nothing. *)
Lemma fold_insert_sorted_id (l : list (string * Wiki.Page)) :
  forall acc,
    StronglySorted (fun a b => String.ltb (fst b) (fst a) = false) (acc ++ l) ->
    foldl (fun acc x => Wiki.insert_sorted x acc) acc l = acc ++ l.
Proof.
  induction l as [|x l IH]; intros acc Hs; [rewrite app_nil_r; reflexivity|].
  cbn [foldl]. rewrite insert_sorted_last.
  - rewrite IH; rewrite <- app_assoc; [reflexivity|exact Hs].
  - clear IH. induction acc as [|y acc IHacc]; [constructor|].
    cbn [app] in Hs. apply StronglySorted_inv in Hs as [Hs Hy].
    constructor; [|apply IHacc, Hs].
    rewrite Forall_forall in Hy. apply Hy. apply elem_of_app. right. left.
Qed.

Lemma keyed_filter (f : Wiki.Page -> bool) (pages : list Wiki.Page) (keys : list string) :
  Forall2 (fun p k => Wiki.sort_key p = Ok k) pages keys ->
  StronglySorted (fun a b => String.ltb b a = false) keys ->
  exists keyed,
    foldr (fun p acc => l ← acc; k ← Wiki.sort_key p; Ok ((k, p) :: l)) (Ok [])
      (List.filter f pages) = Ok keyed
    /\ keyed.*2 = List.filter f pages
    /\ StronglySorted (fun a b => String.ltb (fst b) (fst a) = false) keyed
    /\ Forall (fun kp => fst kp ∈ keys) keyed.
Proof.
  induction 1 as [|p k pages keys Hp Hps IH]; intros Hs.
  - exists []. repeat split; constructor.
  - apply StronglySorted_inv in Hs as [Hs Hk]. destruct (IH Hs) as (keyed & H1 & H2 & H3 & H4).
    cbn [List.filter]. destruct (f p).
    + exists ((k, p) :: keyed). cbn [foldr]. rewrite H1. cbn [mbind result_bind].
      rewrite Hp. cbn [mbind result_bind]. split; [reflexivity|].
      split; [cbn; rewrite H2; reflexivity|]. split.
      * constructor; [exact H3|]. apply Forall_forall. intros kp Hin. cbn [fst].
        apply (proj1 (Forall_forall _ _) Hk), (proj1 (Forall_forall _ _) H4), Hin.
      * constructor; [left|]. eapply Forall_impl; [exact H4|].
        intros kp Hin. right. exact Hin.
    + exists keyed. split; [exact H1|]. split; [exact H2|]. split; [exact H3|].
      eapply Forall_impl; [exact H4|]. intros kp Hin. right. exact Hin.
Qed.

Lemma index_keys (w : Wiki.Wiki) (fs : Fs.t) (pages : list Wiki.Page) :
  Wiki.index w fs = Ok pages ->
  exists keys,
    Forall2 (fun p k => Wiki.sort_key p = Ok k) pages keys
    /\ StronglySorted (fun a b => String.ltb b a = false) keys.
Proof.
  intros H. destruct (index_inv w fs pages H) as (walked & keyed & _ & _ & Hk & ->).
  apply (sorted_keyed keyed Hk).
Qed.

Lemma index_by_tag_filter (w : Wiki.Wiki) (tag : string) (fs : Fs.t)
    (pages : list Wiki.Page) :
  Wiki.index w fs = Ok pages ->
  WikiIndex.index_by_tag w tag fs = Ok (List.filter (WikiIndex.has_tag tag) pages).
Proof.
  intros Hindex. destruct (index_keys w fs pages Hindex) as (keys & Hk & Hs).
  destruct (keyed_filter (WikiIndex.has_tag tag) pages keys Hk Hs)
    as (keyed & H1 & H2 & H3 & _).
  unfold WikiIndex.index_by_tag. rewrite Hindex. cbn [mbind result_bind].
  rewrite H1. cbn [mbind result_bind]. unfold Wiki.sorted.
  rewrite (fold_insert_sorted_id keyed []) by exact H3. cbn [app].
  change (map snd keyed) with (keyed.*2). rewrite H2. reflexivity.
Qed.

Lemma re_contains_spec (sub s : string) :
  Re.contains sub s = true <-> exists a b, s = a +:+ sub +:+ b.
Proof.
  split.
  - induction s as [|c s IH]; cbn [Re.contains]; intros H.
    + rewrite orb_false_r in H. apply startswith_spec in H as [t Ht].
      exists EmptyString, t. exact Ht.
    + apply orb_prop in H as [H|H].
      * apply startswith_spec in H as [t Ht]. exists EmptyString, t. exact Ht.
      * destruct (IH H) as (a & b & ->). exists (String c a), b. reflexivity.
  - intros (a & b & ->). induction a as [|c a IH].
    + rewrite str_app_nil_l. destruct (sub +:+ b) eqn:E; cbn [Re.contains];
        rewrite <- E, startswith_app; reflexivity.
    + rewrite str_app_cons. cbn [Re.contains]. rewrite IH. apply orb_true_r.
Qed.

Lemma split_piece_part (sep : string) (n : nat) :
  forall s piece, piece ∈ Py.split_fuel n sep s -> exists a b, s = a +:+ piece +:+ b.
Proof.
  induction n as [|n IH]; intros s piece Hin.
  - apply list_elem_of_singleton in Hin as ->. exists EmptyString, EmptyString.
    rewrite str_app_nil_l, str_app_nil_r. reflexivity.
  - cbn [Py.split_fuel] in Hin. destruct (Py.find_sep sep s) as [[pre post]|] eqn:F.
    + apply find_sep_spec in F. subst s. apply elem_of_cons in Hin as [->|Hin].
      * exists EmptyString, (sep +:+ post). rewrite str_app_nil_l. reflexivity.
      * destruct (IH post piece Hin) as (a & b & ->).
        exists (pre +:+ sep +:+ a), b. rewrite !str_app_assoc. reflexivity.
    + apply list_elem_of_singleton in Hin as ->. exists EmptyString, EmptyString.
      rewrite str_app_nil_l, str_app_nil_r. reflexivity.
Qed.

Lemma lstrip_part (s : string) : exists a, s = a +:+ Py.lstrip s.
Proof.
  induction s as [|c s [a IH]]; [exists EmptyString; reflexivity|].
  cbn [Py.lstrip]. destruct (Py.is_space c).
  - exists (String c a). rewrite str_app_cons, <- IH. reflexivity.
  - exists EmptyString. reflexivity.
Qed.

Lemma rstrip_part (s : string) : exists b, s = Py.rstrip s +:+ b.
Proof.
  induction s as [|c s [b IH]]; [exists EmptyString; reflexivity|].
  cbn [Py.rstrip]. destruct (Py.rstrip s) as [|d r] eqn:E.
  - rewrite str_app_nil_l in IH. destruct (Py.is_space c).
    + exists (String c s). reflexivity.
    + exists s. reflexivity.
  - exists b. rewrite str_app_cons, <- IH. reflexivity.
Qed.

Lemma strip_part (s : string) : exists a b, s = a +:+ Py.strip s +:+ b.
Proof.
  destruct (lstrip_part s) as [a Ha]. destruct (rstrip_part (Py.lstrip s)) as [b Hb].
  exists a, b. unfold Py.strip. rewrite <- Hb. exact Ha.
Qed.

(** A tag of a page, as [get_tags] cuts it out, is part of the text of
    its tags. *)
Lemma tag_is_part (t tag : string) :
  tag ∈ Py.strip <$> Py.split "," t -> Re.contains tag t = true.
Proof.
  intros Hin. apply list_elem_of_fmap in Hin as (piece & -> & Hpiece).
  destruct (split_piece_part "," _ t piece Hpiece) as (a & b & ->).
  destruct (strip_part piece) as (a' & b' & E).
  apply re_contains_spec. exists (a +:+ a'), (b' +:+ b).
  rewrite E at 1. rewrite !str_app_assoc. reflexivity.
Qed.

(** X16.  [index_by_tag] keeps the pages of the index whose tags hold
    the given text anywhere, in the order of the index: the test is on
    the text of the tags, not on the tags one by one.  So a page is
    returned for every part of any of its tags, and the empty tag
    returns every page whose tags are a text. *)
Theorem index_by_tag_is_substring_filter (w : Wiki.Wiki) (tag : string) (fs : Fs.t)
    (pages : list Wiki.Page) :
  Fs.isdir (Wiki.root w) fs = true ->
  Wiki.index w fs = Ok pages ->
  WikiIndex.index_by_tag w tag fs = Ok (List.filter (WikiIndex.has_tag tag) pages)
  /\ (forall p a b, p ∈ pages -> Wiki.tags p = Wiki.MStr (a +:+ tag +:+ b) ->
        p ∈ List.filter (WikiIndex.has_tag tag) pages)
  /\ (Forall (fun p => exists t, Wiki.tags p = Wiki.MStr t) pages ->
      WikiIndex.index_by_tag w EmptyString fs = Ok pages).
Proof.
  intros _ Hindex. split; [apply index_by_tag_filter, Hindex|]. split.
  - intros p a b Hp Ht. apply list_elem_of_In, filter_In. split; [apply list_elem_of_In, Hp|].
    unfold WikiIndex.has_tag. rewrite Ht. apply re_contains_spec. exists a, b. reflexivity.
  - intros Hall. rewrite (index_by_tag_filter w EmptyString fs pages Hindex). f_equal.
    clear Hindex. induction Hall as [|p l [t Hp] Hl IH]; [reflexivity|].
    cbn [List.filter]. unfold WikiIndex.has_tag at 1. rewrite Hp.
    destruct t; cbn [Re.contains Py.startswith orb]; rewrite IH; reflexivity.
Qed.

Lemma index_by_tag_is_substring_filter_witness :
  WikiIndex.index_by_tag content_wiki "wi" tagged_fs = Ok [tagged_about; tagged_home]
  /\ WikiIndex.index_by_tag content_wiki "start" tagged_fs = Ok [tagged_home]
  /\ WikiIndex.index_by_tag content_wiki EmptyString tagged_fs
     = Ok [tagged_about; tagged_home].
Proof.
  split; [|split].
  - rewrite (proj1 (index_by_tag_is_substring_filter content_wiki "wi" tagged_fs
                      [tagged_about; tagged_home] eq_refl tagged_index)).
    reflexivity.
  - rewrite (proj1 (index_by_tag_is_substring_filter content_wiki "start" tagged_fs
                      [tagged_about; tagged_home] eq_refl tagged_index)).
    reflexivity.
  - apply (proj2 (proj2 (index_by_tag_is_substring_filter content_wiki EmptyString tagged_fs
                           [tagged_about; tagged_home] eq_refl tagged_index))).
    exact tagged_pages_tags.
Defined.

(** X17.  Every page that [get_tags] lists under a tag is returned by
    [index_by_tag] for that tag. *)
Theorem get_tags_within_index_by_tag (w : Wiki.Wiki) (fs : Fs.t)
    (table : gmap string (list Wiki.Page)) (tag : string)
    (listed : list Wiki.Page) :
  Fs.isdir (Wiki.root w) fs = true ->
  WikiIndex.get_tags w fs = Ok table ->
  table !! tag = Some listed ->
  exists tagged,
    WikiIndex.index_by_tag w tag fs = Ok tagged
    /\ forall p, p ∈ listed -> p ∈ tagged.
Proof.
  intros _ Htable Hl. unfold WikiIndex.get_tags in Htable.
  destruct (Wiki.index w fs) as [pages|e] eqn:Hindex; [|discriminate Htable].
  cbn [mbind result_bind] in Htable. unfold WikiIndex.collect_tags in Htable.
  destruct (collect_tags_table pages [] ∅ table) as [Hs _]; [| |exact Htable|].
  - intros tag' l' H. rewrite lookup_empty in H. discriminate H.
  - intros p t tag' Hp. inversion Hp.
  - exists (List.filter (WikiIndex.has_tag tag) pages).
    split; [apply index_by_tag_filter, Hindex|].
    intros p Hp. destruct (Hs tag listed Hl) as (_ & _ & H3).
    destruct (H3 p Hp) as (Hin & t & Ht & Htag). cbn [app] in Hin.
    apply list_elem_of_In, filter_In. split; [apply list_elem_of_In, Hin|].
    unfold WikiIndex.has_tag. rewrite Ht. apply tag_is_part, Htag.
Qed.

Lemma get_tags_within_index_by_tag_witness :
  exists table listed tagged,
    WikiIndex.get_tags content_wiki tagged_fs = Ok table
    /\ table !! "wiki"%string = Some listed
    /\ WikiIndex.index_by_tag content_wiki "wiki" tagged_fs = Ok tagged
    /\ forall p, p ∈ listed -> p ∈ tagged.
Proof.
  destruct (WikiIndex.get_tags content_wiki tagged_fs) as [table|e] eqn:Htable;
    [|vm_compute in Htable; discriminate Htable].
  destruct (table !! "wiki"%string) as [listed|] eqn:Hl.
  - destruct (get_tags_within_index_by_tag content_wiki tagged_fs table "wiki" listed
                eq_refl Htable Hl) as (tagged & Htagged & Hin).
    exists table, listed, tagged. repeat split; assumption.
  - exfalso. vm_compute in Htable. injection Htable as <-. vm_compute in Hl. discriminate Hl.
Defined.

(** ** Walking the content root *)

Lemma listdir_file (r name c : string) (fs : Fs.t) :
  Wiki.simple_name r = true -> Wiki.simple_name name = true ->
  Fs.files fs !! (r +:+ "/" +:+ name) = Some c ->
  In name (Fs.listdir r fs).
Proof.
  intros Hr Hn Hc. unfold Fs.listdir. apply in_map_iff.
  exists (r +:+ "/" +:+ name). split.
  - rewrite split_child by (try apply simple_last, Hr; apply (simple_name_facts name Hn)).
    reflexivity.
  - apply filter_In. split.
    + apply in_or_app. left. apply in_map_iff. exists (r +:+ "/" +:+ name, c).
      split; [reflexivity|]. apply list_elem_of_In, elem_of_map_to_list, Hc.
    + rewrite (parent_child r name Hr Hn), String.eqb_refl. cbn [andb].
      apply negb_true_iff, String.eqb_neq. rewrite (key_simple r Hr).
      intros E. apply (f_equal String.length) in E. rewrite str_length_app in E.
      simpl in E. lia.
Qed.

Lemma rev_app_acc (t : string) :
  forall acc, String.rev_app t acc = String.rev_app t EmptyString +:+ acc.
Proof.
  induction t as [|a t IH]; intros acc; [reflexivity|].
  cbn [String.rev_app]. rewrite (IH (String a acc)), (IH (String a EmptyString)).
  rewrite str_app_assoc. reflexivity.
Qed.

Lemma rev_app_app (s t : string) :
  forall acc, String.rev_app (s +:+ t) acc = String.rev_app t (String.rev_app s acc).
Proof.
  induction s as [|a s IH]; intros acc; [reflexivity|].
  rewrite str_app_cons. cbn [String.rev_app]. apply IH.
Qed.

Lemma rev_app (s t : string) : String.rev (s +:+ t) = String.rev t +:+ String.rev s.
Proof. unfold String.rev. rewrite rev_app_app. apply rev_app_acc. Qed.

Lemma endswith_md (x : string) : Wiki.endswith ".md" (x +:+ ".md") = true.
Proof. unfold Wiki.endswith. rewrite rev_app. apply startswith_app. Qed.


(** *** With an attribute: [get_by_title] *)

Lemma walk_attr_ends (fuel : nat) :
  forall fs directory,
    WikiIndex.walk_attr fuel fs directory = WikiIndex.Returned tt
    \/ WikiIndex.walk_attr fuel fs directory = WikiIndex.NameError "page".
Proof.
  induction fuel as [|fuel IH]; intros fs directory; [left; reflexivity|].
  cbn [WikiIndex.walk_attr].
  assert (forall l acc,
             acc = WikiIndex.Returned tt \/ acc = WikiIndex.NameError "page" ->
             foldl (fun acc name =>
                      match acc with
                      | WikiIndex.NameError n => WikiIndex.NameError n
                      | WikiIndex.Returned _ =>
                          if Fs.isdir (OsPath.join directory name) fs
                          then WikiIndex.walk_attr fuel fs (OsPath.join directory name)
                          else if Wiki.endswith ".md" name then WikiIndex.NameError "page"
                               else WikiIndex.Returned tt
                      end) acc l = WikiIndex.Returned tt
             \/ foldl (fun acc name =>
                      match acc with
                      | WikiIndex.NameError n => WikiIndex.NameError n
                      | WikiIndex.Returned _ =>
                          if Fs.isdir (OsPath.join directory name) fs
                          then WikiIndex.walk_attr fuel fs (OsPath.join directory name)
                          else if Wiki.endswith ".md" name then WikiIndex.NameError "page"
                               else WikiIndex.Returned tt
                      end) acc l = WikiIndex.NameError "page") as Hfold.
  { induction l as [|name l IHl]; intros acc Hacc; [exact Hacc|].
    cbn [foldl]. apply IHl. destruct Hacc as [-> | ->]; [|right; reflexivity].
    destruct (Fs.isdir (OsPath.join directory name) fs); [apply IH|].
    destruct (Wiki.endswith ".md" name); [right|left]; reflexivity. }
  apply Hfold. left. reflexivity.
Qed.

Lemma walk_attr_file (fuel : nat) (fs : Fs.t) (directory name : string) :
  In name (Fs.listdir directory fs) ->
  Fs.isdir (OsPath.join directory name) fs = false ->
  Wiki.endswith ".md" name = true ->
  WikiIndex.walk_attr (S fuel) fs directory = WikiIndex.NameError "page".
Proof.
  intros Hin Hdir Hmd. cbn [WikiIndex.walk_attr].
  assert (forall l acc,
             acc = WikiIndex.Returned tt \/ acc = WikiIndex.NameError "page" ->
             (In name l \/ acc = WikiIndex.NameError "page") ->
             foldl (fun acc name =>
                      match acc with
                      | WikiIndex.NameError n => WikiIndex.NameError n
                      | WikiIndex.Returned _ =>
                          if Fs.isdir (OsPath.join directory name) fs
                          then WikiIndex.walk_attr fuel fs (OsPath.join directory name)
                          else if Wiki.endswith ".md" name then WikiIndex.NameError "page"
                               else WikiIndex.Returned tt
                      end) acc l = WikiIndex.NameError "page") as Hfold.
  { induction l as [|n l IHl]; intros acc Hacc Hor.
    - destruct Hor as [Hf| ->]; [destruct Hf|reflexivity].
    - cbn [foldl]. destruct Hacc as [-> | ->].
      + apply IHl.
        * destruct (Fs.isdir (OsPath.join directory n) fs); [apply walk_attr_ends|].
          destruct (Wiki.endswith ".md" n); [right|left]; reflexivity.
        * destruct Hor as [[<-|Hin']|E]; [|left; exact Hin'|discriminate E].
          right. rewrite Hdir, Hmd. reflexivity.
      + apply IHl; right; reflexivity. }
  apply Hfold; [left; reflexivity|left; exact Hin].
Qed.

(** X18.  [get_by_title] never returns a page.  The walk it starts
    reads a name that nothing binds as soon as it meets a file [*.md],
    so the call raises [NameError] when the content root holds a page;
    over a content root that is there, it raises that error or
    returns [None]. *)
Theorem get_by_title_never_finds (w : Wiki.Wiki) (title : string) (fs : Fs.t) :
  (Fs.isdir (Wiki.root w) fs = true ->
   WikiIndex.get_by_title w title fs = WikiIndex.Returned None
   \/ WikiIndex.get_by_title w title fs = WikiIndex.NameError "page")
  /\ (forall x c,
        Wiki.simple_name (Wiki.root w) = true ->
        Wiki.simple_name x = true ->
        Fs.files fs !! (Wiki.root w +:+ "/" +:+ x +:+ ".md") = Some c ->
        Fs.isdir (Wiki.root w +:+ "/" +:+ x +:+ ".md") fs = false ->
        WikiIndex.get_by_title w title fs = WikiIndex.NameError "page").
Proof.
  unfold WikiIndex.get_by_title, WikiIndex.index_attr. split.
  - intros _. destruct (walk_attr_ends (S (size (Fs.dirs fs))) fs (Wiki.root w)) as [-> | ->];
      [left|right]; reflexivity.
  - intros x c Hr Hx Hc Hdir.
    rewrite (walk_attr_file _ fs (Wiki.root w) (x +:+ ".md")); [reflexivity| | |].
    + apply (listdir_file _ _ c); [exact Hr|apply simple_md, Hx|exact Hc].
    + rewrite (join_simple _ _ Hr); [exact Hdir|].
      destruct (simple_name_first x Hx) as (d & t & -> & Hd).
      rewrite str_app_cons. cbn [Py.startswith]. rewrite Ascii.eqb_sym, Hd. reflexivity.
    + apply endswith_md.
Qed.

Lemma get_by_title_never_finds_witness :
  WikiIndex.get_by_title content_wiki "Home" greeting_fs = WikiIndex.NameError "page".
Proof.
  apply (proj2 (get_by_title_never_finds content_wiki "Home" greeting_fs) "home"%string
           ("title: Home" +:+ Wiki.NL +:+ Wiki.NL +:+ "Hello")); reflexivity.
Defined.

(** *** Without an attribute: [index] and what is built on it *)




(** ** Accounts: adding, changing, logging in *)

Lemma obj_truthy (fields : gmap string Json.value) (k : string) (v : Json.value) :
  fields !! k = Some v -> Json.truthy (Json.Obj fields) = true.
Proof.
  intros Hk. cbn [Json.truthy]. case_bool_decide as Hd; [|reflexivity].
  apply (elem_of_dom_2 (D := gset string)) in Hk. rewrite Hd in Hk. set_solver.
Qed.

Lemma write_frame (um : Users.UserManager) (doc : Json.value)
    (st st' : gmap string Json.value) :
  Users.write um doc st = Ok st' ->
  Users.read um st' = doc
  /\ st' !! (Users.file um +:+ "-write") = None
  /\ forall p, p <> Users.file um -> p <> Users.file um +:+ "-write" -> st' !! p = st !! p.
Proof.
  rewrite write_ok. intros [= <-]. split; [|split].
  - unfold Users.read. rewrite lookup_insert_eq. reflexivity.
  - rewrite lookup_insert_ne by (intros E; apply (tmp_file_ne um); symmetry; exact E).
    apply lookup_delete_eq.
  - intros p H1 H2. rewrite lookup_insert_ne by (intros E; apply H1; symmetry; exact E).
    apply lookup_delete_ne. intros E; apply H2; symmetry; exact E.
Qed.

(** The record [add_user] builds. *)
Lemma add_user_new (cfg : Users.config) (um : Users.UserManager)
    (urandom64 name password : string) (active : bool) (roles : list string)
    (method : option string) (st : gmap string Json.value)
    (users : gmap string Json.value) (secret : string) (value : Json.value) :
  Users.read um st = Json.Obj users ->
  users !! name = None ->
  let m := match method with
           | Some m => m
           | None => Users.get_default_authentication_method cfg
           end in
  (m = "hash"%string /\ secret = "hash"%string
   /\ value = Json.Str (Auth.make_salted_hash urandom64 password None))
  \/ (m = "cleartext"%string /\ secret = "password"%string /\ value = Json.Str password) ->
  let record :=
    Json.Obj (<[secret := value]>
                (<["authentication_method" := Json.Str m]>
                   (<["roles" := Json.Arr (map Json.Str roles)]>
                      (<["active" := Json.Bool active]> ∅)))) in
  Users.add_user cfg um urandom64 name password active roles method st
  = (Ok (Some (Users.MkUser name record)),
     <[Users.file um := Json.Obj (<[name := record]> users)]>
       (delete (Users.file um +:+ "-write") st)).
Proof.
  intros Hread Hname m Hm record. unfold Users.add_user. rewrite Hread, Hname.
  cbn [default id Json.truthy]. fold m.
  destruct Hm as [(Em & -> & ->)|(Em & -> & ->)]; subst record; rewrite Em;
    cbn [String.eqb Ascii.eqb Bool.eqb]; rewrite write_ok, lookup_insert_eq; reflexivity.
Qed.

Lemma check_password_cleartext_record (cfg : Users.config)
    (entropy name candidate : string) (fields : gmap string Json.value) (p : Json.value) :
  fields !! "authentication_method" = Some (Json.Str "cleartext") ->
  fields !! "password" = Some p ->
  Users.check_password cfg entropy (Users.MkUser name (Json.Obj fields)) candidate
  = Ok (Json.eq_str p candidate).
Proof.
  intros Htag Hp. unfold Users.check_password.
  cbn [Users.data Users.dict_get mbind result_bind].
  rewrite Htag, Hp. reflexivity.
Qed.

Lemma check_password_unknown_record (cfg : Users.config)
    (entropy name candidate m : string) (fields : gmap string Json.value) :
  fields !! "authentication_method" = Some (Json.Str m) ->
  m <> "hash"%string -> m <> "cleartext"%string ->
  Users.check_password cfg entropy (Users.MkUser name (Json.Obj fields)) candidate
  = Raise (NotImplementedError (Json.Str m)).
Proof.
  intros Htag H1 H2. unfold Users.check_password.
  cbn [Users.data Users.dict_get mbind result_bind].
  rewrite Htag. cbn [default id Json.eq_str].
  apply String.eqb_neq in H1, H2. rewrite H1, H2. reflexivity.
Qed.

(** X20.  An account added with the method [cleartext], named or taken
    from the configuration, keeps the password as given:
    [check_password] answers [True] for that password and [False] for
    every other text.  The account is found again by [get_user], and no
    other account and no other file changes. *)
Theorem cleartext_account_check_password (cfg : Users.config) (um : Users.UserManager)
    (urandom64 entropy name password : string) (active : bool) (roles : list string)
    (method : option string) (st : gmap string Json.value)
    (users : gmap string Json.value) :
  Users.read um st = Json.Obj users ->
  users !! name = None ->
  match method with
  | Some m => m
  | None => Users.get_default_authentication_method cfg
  end = "cleartext"%string ->
  exists u st',
    Users.add_user cfg um urandom64 name password active roles method st = (Ok (Some u), st')
    /\ Users.get_user um name st' = Ok (Some u)
    /\ User.get u "password" = Ok (Json.Str password)
    /\ (forall candidate,
          Users.check_password cfg entropy u candidate
          = Ok (bool_decide (candidate = password)))
    /\ Users.read um st' = Json.Obj (<[name := Users.data u]> users)
    /\ (forall other, other <> name ->
          Users.get_user um other st' = Users.get_user um other st)
    /\ (forall p, p <> Users.file um -> p <> Users.file um +:+ "-write" ->
          st' !! p = st !! p).
Proof.
  intros Hread Hname Hm.
  pose proof (add_user_new cfg um urandom64 name password active roles method st users
                "password" (Json.Str password) Hread Hname) as Hadd.
  cbn zeta in Hadd. rewrite Hm in Hadd. specialize (Hadd (or_intror (conj eq_refl (conj eq_refl eq_refl)))).
  eexists _, _. split; [exact Hadd|].
  assert (Hread' : Users.read um
                     (<[Users.file um := Json.Obj
                          (<[name := Json.Obj
                               (<["password" := Json.Str password]>
                                  (<["authentication_method" := Json.Str "cleartext"]>
                                     (<["roles" := Json.Arr (map Json.Str roles)]>
                                        (<["active" := Json.Bool active]> ∅))))]> users)]>
                        (delete (Users.file um +:+ "-write") st))
                   = Json.Obj
                       (<[name := Json.Obj
                            (<["password" := Json.Str password]>
                               (<["authentication_method" := Json.Str "cleartext"]>
                                  (<["roles" := Json.Arr (map Json.Str roles)]>
                                     (<["active" := Json.Bool active]> ∅))))]> users)).
  { unfold Users.read. rewrite lookup_insert_eq. reflexivity. }
  split; [|split; [|split; [|split; [|split]]]].
  - unfold Users.get_user. rewrite Hread'. cbn [Users.dict_get mbind result_bind].
    rewrite lookup_insert_eq. cbn [default id].
    rewrite (obj_truthy _ "password" (Json.Str password)) by apply lookup_insert_eq.
    reflexivity.
  - unfold User.get. cbn [Users.data Users.dict_get]. rewrite lookup_insert_eq. reflexivity.
  - intros candidate.
    rewrite (check_password_cleartext_record cfg entropy name candidate _ (Json.Str password))
      by (try apply lookup_insert_eq; rewrite lookup_insert_ne by discriminate;
          apply lookup_insert_eq).
    cbn [Json.eq_str]. f_equal.
    destruct (String.eqb_spec password candidate) as [->|Hne].
    + rewrite bool_decide_eq_true_2 by reflexivity. reflexivity.
    + rewrite bool_decide_eq_false_2 by (intros E; apply Hne; symmetry; exact E). reflexivity.
  - exact Hread'.
  - intros other Hother. unfold Users.get_user. rewrite Hread', Hread.
    cbn [Users.dict_get]. rewrite lookup_insert_ne by (intros E; apply Hother; symmetry; exact E).
    reflexivity.
  - intros p H1 H2. rewrite lookup_insert_ne by (intros E; apply H1; symmetry; exact E).
    apply lookup_delete_ne. intros E; apply H2; symmetry; exact E.
Qed.

Lemma cleartext_account_check_password_witness :
  exists u st',
    Users.add_user (Users.Config None) (Users.new_manager "content") sample_salt
      "alice" "s3cr3t" true [] None ∅ = (Ok (Some u), st')
    /\ Users.check_password (Users.Config None) EmptyString u "wrong" = Ok false
    /\ Users.check_password (Users.Config None) EmptyString u "s3cr3t" = Ok true.
Proof.
  destruct (cleartext_account_check_password (Users.Config None) (Users.new_manager "content")
              sample_salt EmptyString "alice" "s3cr3t" true [] None ∅ ∅)
    as (u & st' & Hadd & _ & _ & Hcheck & _); [reflexivity|reflexivity|reflexivity|].
  exists u, st'. split; [exact Hadd|]. split; rewrite Hcheck; reflexivity.
Defined.

(** X21.  [add_user] refuses a name that is taken and a method it does
    not know, and writes nothing in either case: for a taken name it
    returns [False], whatever the method, and for a free name with a
    method other than [hash] and [cleartext] it raises
    [NotImplementedError] with that method. *)
Theorem add_user_refusals (cfg : Users.config) (um : Users.UserManager)
    (urandom64 name password : string) (active : bool) (roles : list string)
    (method : option string) (st : gmap string Json.value)
    (users : gmap string Json.value) :
  Users.account_table um st users ->
  (is_Some (users !! name) ->
   Users.add_user cfg um urandom64 name password active roles method st = (Ok None, st))
  /\ (users !! name = None ->
      forall m,
        match method with
        | Some m => m
        | None => Users.get_default_authentication_method cfg
        end = m ->
        m <> "hash"%string -> m <> "cleartext"%string ->
        Users.add_user cfg um urandom64 name password active roles method st
        = (Raise (NotImplementedError (Json.Str m)), st)).
Proof.
  intros [Hread Hrecords]. split.
  - intros [v Hv]. unfold Users.add_user. rewrite Hread, Hv. cbn [default id].
    rewrite (account_record_truthy v (Hrecords name v Hv)). reflexivity.
  - intros Hname m Hm H1 H2. unfold Users.add_user. rewrite Hread, Hname.
    cbn [default id Json.truthy]. rewrite Hm.
    apply String.eqb_neq in H1, H2. rewrite H1, H2. reflexivity.
Qed.

Lemma add_user_refusals_witness :
  Users.add_user (Users.Config None) (Users.new_manager "content") sample_salt
    "alice" "pw" true [] (Some "ldap"%string)
    {[ "content/users.json"%string := Json.Obj {[ "alice"%string := alice_record ]} ]}
  = (Ok None,
     {[ "content/users.json"%string := Json.Obj {[ "alice"%string := alice_record ]} ]})
  /\ Users.add_user (Users.Config None) (Users.new_manager "content") sample_salt
       "bob" "pw" true [] (Some "ldap"%string)
       {[ "content/users.json"%string := Json.Obj {[ "alice"%string := alice_record ]} ]}
     = (Raise (NotImplementedError (Json.Str "ldap")),
        {[ "content/users.json"%string := Json.Obj {[ "alice"%string := alice_record ]} ]}).
Proof.
  split.
  - apply (proj1 (add_user_refusals (Users.Config None) (Users.new_manager "content")
                    sample_salt "alice" "pw" true [] (Some "ldap"%string) _ _ alice_table)).
    eexists. reflexivity.
  - apply (proj2 (add_user_refusals (Users.Config None) (Users.new_manager "content")
                    sample_salt "bob" "pw" true [] (Some "ldap"%string) _ _ alice_table));
      [reflexivity|reflexivity|discriminate|discriminate].
Defined.

(** X22.  Removing an account right after adding it gives back the
    table of accounts as it was before. *)
Theorem add_then_delete_user (cfg : Users.config) (um : Users.UserManager)
    (urandom64 name password : string) (active : bool) (roles : list string)
    (method : option string) (st : gmap string Json.value)
    (users : gmap string Json.value) :
  Users.read um st = Json.Obj users ->
  users !! name = None ->
  match method with
  | Some m => m
  | None => Users.get_default_authentication_method cfg
  end = "hash"%string
  \/ match method with
     | Some m => m
     | None => Users.get_default_authentication_method cfg
     end = "cleartext"%string ->
  exists u st' st'',
    Users.add_user cfg um urandom64 name password active roles method st = (Ok (Some u), st')
    /\ Users.delete_user um name st' = (Ok true, st'')
    /\ Users.read um st'' = Json.Obj users
    /\ Users.get_user um name st'' = Ok None.
Proof.
  intros Hread Hname Hm.
  assert (exists secret value,
             Users.add_user cfg um urandom64 name password active roles method st
             = (Ok (Some (Users.MkUser name
                            (Json.Obj (<[secret := value]>
                               (<["authentication_method" :=
                                    Json.Str match method with
                                             | Some m => m
                                             | None => Users.get_default_authentication_method cfg
                                             end]>
                                  (<["roles" := Json.Arr (map Json.Str roles)]>
                                     (<["active" := Json.Bool active]> ∅))))))),
                <[Users.file um :=
                    Json.Obj (<[name :=
                       Json.Obj (<[secret := value]>
                               (<["authentication_method" :=
                                    Json.Str match method with
                                             | Some m => m
                                             | None => Users.get_default_authentication_method cfg
                                             end]>
                                  (<["roles" := Json.Arr (map Json.Str roles)]>
                                     (<["active" := Json.Bool active]> ∅))))]> users)]>
                  (delete (Users.file um +:+ "-write") st)))
    as (secret & value & Hadd).
  { destruct Hm as [Hm|Hm].
    - exists "hash"%string, (Json.Str (Auth.make_salted_hash urandom64 password None)).
      apply (add_user_new cfg um urandom64 name password active roles method st users
               _ _ Hread Hname). left. repeat split. exact Hm.
    - exists "password"%string, (Json.Str password).
      apply (add_user_new cfg um urandom64 name password active roles method st users
               _ _ Hread Hname). right. repeat split. exact Hm. }
  eexists _, _, _. split; [exact Hadd|].
  set (record := Json.Obj (<[secret := value]> _)) in *.
  set (st' := <[Users.file um := _]> _) in *.
  assert (Hread' : Users.read um st' = Json.Obj (<[name := record]> users)).
  { unfold Users.read, st'. rewrite lookup_insert_eq. reflexivity. }
  assert (Hdel : Users.delete_user um name st'
                 = (Ok true, <[Users.file um := Json.Obj users]>
                               (delete (Users.file um +:+ "-write") st'))).
  { unfold Users.delete_user. rewrite Hread', lookup_insert_eq. cbn [default id].
    unfold record at 1. rewrite (obj_truthy _ secret value) by apply lookup_insert_eq.
    cbn [negb]. rewrite write_ok, (delete_insert_id _ _ _ Hname). reflexivity. }
  split; [exact Hdel|].
  assert (Hread'' : Users.read um (<[Users.file um := Json.Obj users]>
                                     (delete (Users.file um +:+ "-write") st'))
                    = Json.Obj users).
  { unfold Users.read. rewrite lookup_insert_eq. reflexivity. }
  split; [exact Hread''|].
  unfold Users.get_user, Users.read. rewrite lookup_insert_eq.
  cbn [Users.dict_get mbind result_bind]. rewrite Hname. reflexivity.
Qed.

Lemma add_then_delete_user_witness :
  exists u st' st'',
    Users.add_user (Users.Config None) (Users.new_manager "content") sample_salt
      "bob" "pw" true [] (Some "hash"%string)
      {[ "content/users.json"%string := Json.Obj {[ "alice"%string := alice_record ]} ]}
    = (Ok (Some u), st')
    /\ Users.delete_user (Users.new_manager "content") "bob" st' = (Ok true, st'')
    /\ Users.read (Users.new_manager "content") st''
       = Json.Obj {[ "alice"%string := alice_record ]}.
Proof.
  destruct (add_then_delete_user (Users.Config None) (Users.new_manager "content")
              sample_salt "bob" "pw" true [] (Some "hash"%string)
              {[ "content/users.json"%string := Json.Obj {[ "alice"%string := alice_record ]} ]}
              {[ "alice"%string := alice_record ]})
    as (u & st' & st'' & Hadd & Hdel & Hread & _);
    [reflexivity|reflexivity|left; reflexivity|].
  exists u, st', st''. split; [exact Hadd|]. split; [exact Hdel|exact Hread].
Defined.

(** X23.  [User.set] changes one option of the record the object holds
    and stores the whole record under the name of the account: the
    option then reads as set, on the object and on the account read
    again, where the other options of the record are as the object had
    them; every other account and every other file is as before. *)
Theorem user_set_persists (um : Users.UserManager) (u : Users.User) (option : string)
    (value : Json.value) (st : gmap string Json.value)
    (users fields : gmap string Json.value) :
  Users.read um st = Json.Obj users ->
  Users.data u = Json.Obj fields ->
  exists u' st',
    User.set um u option value st = (Ok u', st')
    /\ Users.name u' = Users.name u
    /\ User.get u' option = Ok value
    /\ (forall other, other <> option -> User.get u' other = User.get u other)
    /\ Users.get_user um (Users.name u) st' = Ok (Some u')
    /\ (forall other, other <> Users.name u ->
          Users.get_user um other st' = Users.get_user um other st)
    /\ (forall p, p <> Users.file um -> p <> Users.file um +:+ "-write" ->
          st' !! p = st !! p).
Proof.
  intros Hread Hdata.
  exists (Users.MkUser (Users.name u) (Json.Obj (<[option := value]> fields))),
         (<[Users.file um := Json.Obj (<[Users.name u := Json.Obj (<[option := value]> fields)]>
                                         users)]>
            (delete (Users.file um +:+ "-write") st)).
  split; [|split; [|split; [|split; [|split; [|split]]]]].
  - unfold User.set, User.save, Users.update. rewrite Hdata. cbn [Users.name Users.data].
    rewrite Hread, write_ok. reflexivity.
  - reflexivity.
  - unfold User.get. cbn [Users.data Users.dict_get]. rewrite lookup_insert_eq. reflexivity.
  - intros other Hother. unfold User.get. rewrite Hdata. cbn [Users.data Users.dict_get].
    rewrite lookup_insert_ne by (intros E; apply Hother; symmetry; exact E). reflexivity.
  - unfold Users.get_user, Users.read. rewrite lookup_insert_eq.
    cbn [Users.dict_get mbind result_bind]. rewrite lookup_insert_eq. cbn [default id].
    rewrite (obj_truthy _ option value) by apply lookup_insert_eq. reflexivity.
  - intros other Hother. unfold Users.get_user. rewrite Hread. unfold Users.read.
    rewrite lookup_insert_eq. cbn [Users.dict_get].
    rewrite lookup_insert_ne by (intros E; apply Hother; symmetry; exact E). reflexivity.
  - intros p H1 H2. rewrite lookup_insert_ne by (intros E; apply H1; symmetry; exact E).
    apply lookup_delete_ne. intros E; apply H2; symmetry; exact E.
Qed.

Lemma user_set_persists_witness :
  exists u' st',
    User.set (Users.new_manager "content") (Users.MkUser "alice" alice_record)
      "active" (Json.Bool false)
      {[ "content/users.json"%string := Json.Obj {[ "alice"%string := alice_record ]} ]}
    = (Ok u', st')
    /\ User.is_active u' = Ok (Json.Bool false)
    /\ Users.get_user (Users.new_manager "content") "alice" st' = Ok (Some u').
Proof.
  destruct (user_set_persists (Users.new_manager "content") (Users.MkUser "alice" alice_record)
              "active" (Json.Bool false)
              {[ "content/users.json"%string := Json.Obj {[ "alice"%string := alice_record ]} ]}
              {[ "alice"%string := alice_record ]}
              (<["authentication_method" := Json.Str "cleartext"]>
                 (<["roles" := Json.Arr []]>
                    (<["active" := Json.Bool true]>
                       (<["password" := Json.Str "pw"]> ∅)))))
    as (u' & st' & Hset & _ & Hget & _ & Huser & _); [reflexivity|reflexivity|].
  exists u', st'. split; [exact Hset|]. split; [exact Hget|exact Huser].
Defined.

(** X24.  [write] replaces the file of accounts in one step.  What it
    writes first goes to a file of its own, beside the file of
    accounts, and leaves every answer of [read] and [get_user] as it
    was; the rename that follows puts the new table in place, removes
    that file, and touches no other. *)
Theorem write_replaces_in_one_step (um : Users.UserManager) (doc : Json.value)
    (st : gmap string Json.value) :
  Users.read um (<[Users.file um +:+ "-write" := doc]> st) = Users.read um st
  /\ (forall name, Users.get_user um name (<[Users.file um +:+ "-write" := doc]> st)
                   = Users.get_user um name st)
  /\ Users.write um doc st
     = Users.rename (Users.file um +:+ "-write") (Users.file um)
         (<[Users.file um +:+ "-write" := doc]> st)
  /\ exists st',
       Users.write um doc st = Ok st'
       /\ Users.read um st' = doc
       /\ st' !! (Users.file um +:+ "-write") = None
       /\ forall p, p <> Users.file um -> p <> Users.file um +:+ "-write" ->
                    st' !! p = st !! p.
Proof.
  assert (Hread : Users.read um (<[Users.file um +:+ "-write" := doc]> st) = Users.read um st).
  { unfold Users.read. rewrite lookup_insert_ne by apply tmp_file_ne. reflexivity. }
  split; [exact Hread|]. split; [|split; [reflexivity|]].
  - intros name. unfold Users.get_user. rewrite Hread. reflexivity.
  - eexists. split; [apply write_ok|]. apply (write_frame um doc st), write_ok.
Qed.

(** X25.  The login form.  For a name without an account the check of
    the name raises its error and the check of the password raises
    none.  For an account that keeps its password in clear the name
    passes, and the password passes if and only if it is the one kept.
    For an account whose method is neither [hash] nor [cleartext] the
    check of the password raises [NotImplementedError]. *)
Theorem login_form_verdicts (cfg : Users.config) (entropy : string)
    (um : Users.UserManager) (st : gmap string Json.value)
    (users : gmap string Json.value) (name : string) :
  Users.read um st = Json.Obj users ->
  (users !! name = None ->
   LoginForm.validate_name um name st
   = Ok (LoginForm.ValidationError "This username does not exist.")
   /\ forall password,
        LoginForm.validate_password cfg entropy um name password st = Ok LoginForm.Valid)
  /\ (forall fields kept,
        users !! name = Some (Json.Obj fields) ->
        fields !! "authentication_method" = Some (Json.Str "cleartext") ->
        fields !! "password" = Some (Json.Str kept) ->
        LoginForm.validate_name um name st = Ok LoginForm.Valid
        /\ forall password,
             LoginForm.validate_password cfg entropy um name password st
             = Ok (if bool_decide (password = kept) then LoginForm.Valid
                   else LoginForm.ValidationError "Username and password do not match."))
  /\ (forall fields m,
        users !! name = Some (Json.Obj fields) ->
        fields !! "authentication_method" = Some (Json.Str m) ->
        m <> "hash"%string -> m <> "cleartext"%string ->
        LoginForm.validate_name um name st = Ok LoginForm.Valid
        /\ forall password,
             LoginForm.validate_password cfg entropy um name password st
             = Raise (NotImplementedError (Json.Str m))).
Proof.
  intros Hread. split; [|split].
  - intros Hname.
    assert (Hget : Users.get_user um name st = Ok None).
    { unfold Users.get_user. rewrite Hread. cbn [Users.dict_get mbind result_bind].
      rewrite Hname. reflexivity. }
    unfold LoginForm.validate_name, LoginForm.validate_password. rewrite Hget.
    split; [reflexivity|intros password; reflexivity].
  - intros fields kept Hname Htag Hkept.
    assert (Hget : Users.get_user um name st
                   = Ok (Some (Users.MkUser name (Json.Obj fields)))).
    { unfold Users.get_user. rewrite Hread. cbn [Users.dict_get mbind result_bind].
      rewrite Hname. cbn [default id]. rewrite (obj_truthy _ _ _ Hkept). reflexivity. }
    unfold LoginForm.validate_name, LoginForm.validate_password. rewrite Hget.
    split; [reflexivity|]. intros password. cbn [mbind result_bind].
    rewrite (check_password_cleartext_record cfg entropy name password fields _ Htag Hkept).
    cbn [mbind result_bind Json.eq_str].
    destruct (String.eqb_spec kept password) as [->|Hne].
    + rewrite bool_decide_eq_true_2 by reflexivity. reflexivity.
    + rewrite bool_decide_eq_false_2 by (intros E; apply Hne; symmetry; exact E). reflexivity.
  - intros fields m Hname Htag H1 H2.
    assert (Hget : Users.get_user um name st
                   = Ok (Some (Users.MkUser name (Json.Obj fields)))).
    { unfold Users.get_user. rewrite Hread. cbn [Users.dict_get mbind result_bind].
      rewrite Hname. cbn [default id]. rewrite (obj_truthy _ _ _ Htag). reflexivity. }
    unfold LoginForm.validate_name, LoginForm.validate_password. rewrite Hget.
    split; [reflexivity|]. intros password. cbn [mbind result_bind].
    rewrite (check_password_unknown_record cfg entropy name password m fields Htag H1 H2).
    reflexivity.
Qed.

Lemma login_form_verdicts_witness :
  LoginForm.validate_password (Users.Config None) EmptyString (Users.new_manager "content")
    "alice" "pw"
    {[ "content/users.json"%string := Json.Obj {[ "alice"%string := alice_record ]} ]}
  = Ok LoginForm.Valid
  /\ LoginForm.validate_password (Users.Config None) EmptyString (Users.new_manager "content")
       "alice" "guess"
       {[ "content/users.json"%string := Json.Obj {[ "alice"%string := alice_record ]} ]}
     = Ok (LoginForm.ValidationError "Username and password do not match.")
  /\ LoginForm.validate_name (Users.new_manager "content") "bob"
       {[ "content/users.json"%string := Json.Obj {[ "alice"%string := alice_record ]} ]}
     = Ok (LoginForm.ValidationError "This username does not exist.").
Proof.
  pose proof (login_form_verdicts (Users.Config None) EmptyString (Users.new_manager "content")
                {[ "content/users.json"%string := Json.Obj {[ "alice"%string := alice_record ]} ]}
                {[ "alice"%string := alice_record ]}) as H.
  destruct (proj1 (proj2 (H "alice"%string eq_refl)) _ "pw"%string eq_refl eq_refl eq_refl)
    as [_ Hpw].
  split; [rewrite Hpw; reflexivity|]. split; [rewrite Hpw; reflexivity|].
  apply (proj1 (H "bob"%string eq_refl)). reflexivity.
Defined.

(** ** Reading what the version-control tool prints *)

Lemma split_whole (c : ascii) (s : string) :
  Py.contains c s = false -> Py.split (String c EmptyString) s = [s].
Proof.
  intros H. change s with (Py.join (String c EmptyString) [s]) at 1.
  apply split_join_char. repeat constructor. exact H.
Qed.

Lemma from_gitlog_undelimited (line : string) :
  Py.contains "000" line = false -> WikiGit.from_gitlog line = Raise IndexError.
Proof.
  intros H. unfold WikiGit.from_gitlog, WikiGit.NUL. rewrite (split_whole _ _ H). reflexivity.
Qed.



(** X27.  [history] needs every line of the log to hold the three
    fields.  When the first line of what the tool prints holds no NUL,
    as when it prints nothing at all, [history] raises [IndexError],
    whatever the bounds asked for. *)
Theorem history_undelimited_line {R : Type} (git : WikiGit.Git R) (url : string)
    (offset limit : Z) (s : Fs.t * R) (line rest : string) :
  Py.contains "000" line = false ->
  Py.contains "010" line = false ->
  WikiGit.log git (url +:+ ".md") s = Ok line
  \/ WikiGit.log git (url +:+ ".md") s = Ok (line +:+ Wiki.NL +:+ rest) ->
  WikiGit.from_gitlog line = Raise IndexError
  /\ WikiGit.history git url offset limit s = Raise IndexError.
Proof.
  intros Hnul Hnl Hlog. pose proof (from_gitlog_undelimited line Hnul) as Hline.
  split; [exact Hline|]. unfold WikiGit.history. destruct Hlog as [-> | ->];
    cbn [mbind result_bind]; unfold Wiki.NL.
  - rewrite (split_whole _ _ Hnl). cbn [WikiGit.parse_all mbind result_bind].
    rewrite Hline. reflexivity.
  - change (line +:+ String "010" EmptyString +:+ rest) with (line +:+ String "010" rest).
    rewrite (split_line _ _ _ Hnl). cbn [WikiGit.parse_all mbind result_bind].
    rewrite Hline. reflexivity.
Qed.

Lemma history_undelimited_line_witness :
  WikiGit.history silent_git "home" 0 5 (greeting_fs, tt) = Raise IndexError.
Proof.
  apply (proj2 (history_undelimited_line silent_git "home" 0 5 (greeting_fs, tt)
                  EmptyString EmptyString eq_refl eq_refl (or_introl eq_refl))).
Defined.

(** ** The versioned [save], one call alone *)

(** X28.  The versioned [save] writes the page file first and calls
    the version-control tool afterwards: [add], then [commit] with the
    message [changed] and the author [name <name>], where the name is
    [anonymouse] when none is given.  When the tool fails, [save]
    raises its error and the file stays as just written, with nothing
    committed; when writing the file fails, the tool is not called. *)
Theorem versioned_save_writes_then_commits {R : Type} (git : WikiGit.Git R)
    (w : Wiki.Wiki) (url body : string) (meta : gmap string Wiki.mval)
    (author : option string) (fs : Fs.t) (repo : R) :
  WikiGit.keeps_working_tree git ->
  match Wiki.save w url body meta fs with
  | (Ok _, fs') =>
      Locks.run (WikiGit.save git w url body meta author) (fs, repo)
      = match WikiGit.add git (url +:+ ".md") (fs', repo) with
        | (Ok _, s1) =>
            WikiGit.git_commit git "changed"
              (Some (match author with
                     | Some a => if String.eqb a EmptyString then "anonymouse"%string else a
                     | None => "anonymouse"%string
                     end +:+ " <"
                     +:+ match author with
                         | Some a => if String.eqb a EmptyString then "anonymouse"%string else a
                         | None => "anonymouse"%string
                         end +:+ ">")) s1
        | (Raise e, s1) => (Raise e, s1)
        end
      /\ fst (snd (Locks.run (WikiGit.save git w url body meta author) (fs, repo))) = fs'
  | (Raise e, fs') =>
      Locks.run (WikiGit.save git w url body meta author) (fs, repo) = (Raise e, (fs', repo))
  end.
Proof.
  intros [Hadd Hcommit]. unfold WikiGit.save. rewrite run_append, run_lift.
  fold (Wiki.save w url body meta).
  destruct (Wiki.save w url body meta fs) as [[[]|e] fs']; cbn [fst snd]; [|reflexivity].
  cbn [Locks.run]. pose proof (Hadd (url +:+ ".md") (fs', repo)) as H1.
  destruct (WikiGit.add git (url +:+ ".md") (fs', repo)) as [[[]|e] s1]; cbn [fst snd] in H1.
  - match goal with |- context [WikiGit.git_commit git ?m ?a s1] =>
      pose proof (Hcommit m a s1) as H2;
      destruct (WikiGit.git_commit git m a s1) as [[[]|e] s2]
    end; cbn [fst snd] in *; (split; [reflexivity|]); rewrite H2; exact H1.
  - split; [reflexivity|exact H1].
Qed.

Lemma versioned_save_writes_then_commits_witness :
  Locks.run (WikiGit.save silent_git content_wiki "home" "Goodbye" home_meta None)
    (greeting_fs, tt)
  = (Ok tt, (snd (Wiki.save content_wiki "home" "Goodbye" home_meta greeting_fs), tt)).
Proof.
  pose proof (versioned_save_writes_then_commits silent_git content_wiki "home" "Goodbye"
                home_meta None greeting_fs tt silent_git_keeps_tree) as H.
  destruct (Wiki.save content_wiki "home" "Goodbye" home_meta greeting_fs) as [[[]|e] fs'] eqn:E.
  - destruct H as [H _]. rewrite H. reflexivity.
  - vm_compute in E. discriminate E.
Defined.
